(** * moji_exporter: traversal, deduplication and word resolution

    A shallow embedding of [src/moji_exporter.py].  The exporter walks
    folders x sort types x pages of a remote service, filters and
    deduplicates the items it sees, resolves word details through a
    memoising cache and emits export records.

    The remote service is an oracle: every reply may depend on the whole
    history of the run.  The run itself is a state-and-exception monad
    over the mutable variables that [main] closes over ([word_cache],
    [seen_item_ids_global], [printed_total], [stop_everything],
    [results_by_id]) together with a log of the observable events.

    Left out: what is written to the progress log ([log_fp], with the
    per-page type counts and first/last identities that only feed it),
    the layout of the printed blocks and of the JSON file, the HTTP
    headers, and argument parsing.  The [while True] page loop is cut by
    a fuel bound; the theorems about runs hold for every bound, hence
    for every finite part of a run. *)

From Stdlib Require Import ZArith QArith List String Ascii DecimalString.
From stdpp Require Import base gmap sets list sorting.

Local Open Scope Z_scope.

(** ** Python values *)

(** A Python [str] is a sequence of Unicode code points. *)
Abbreviation pystr := (list N).

(** ASCII literals of the source, as code points. *)
Definition u (s : string) : pystr := map N_of_ascii (list_ascii_of_string s).

(** What [json.loads] can return.  Finite floats are rationals; a JSON
    object is its list of members in document order, without repeated
    keys. *)
#[warnings="-register-all"]
Inductive json : Type :=
| JNull
| JBool (b : bool)
| JInt (z : Z)
| JFloat (q : Q)
| JStr (s : pystr)
| JList (l : list json)
| JDict (kv : list (pystr * json)).

Abbreviation pydict := (list (pystr * json)).

(** [d[k]] when present. *)
Fixpoint dict_lookup (kv : pydict) (k : pystr) : option json :=
  match kv with
  | [] => None
  | (k', v) :: rest => if bool_decide (k' = k) then Some v else dict_lookup rest k
  end.

(** [d.get(k)] and [d.get(k, dflt)]. *)
Definition dict_get (kv : pydict) (k : pystr) : json :=
  default JNull (dict_lookup kv k).

Definition dict_get_default (kv : pydict) (k : pystr) (dflt : json) : json :=
  default dflt (dict_lookup kv k).

(** Truth value of an object: [None], [False], zero, and the empty
    string, list and dict are false. *)
Definition truthy (v : json) : bool :=
  match v with
  | JNull => false
  | JBool b => b
  | JInt z => negb (z =? 0)
  | JFloat q => negb (Qnum q =? 0)
  | JStr s => match s with [] => false | _ => true end
  | JList l => match l with [] => false | _ => true end
  | JDict kv => match kv with [] => false | _ => true end
  end.

(** [a or b]. *)
Definition py_or (a b : json) : json := if truthy a then a else b.

(** Truth value of a [str]. *)
Definition nonempty (s : pystr) : bool :=
  match s with [] => false | _ => true end.

(** Truth value of an [Optional[str]] command-line value. *)
Definition opt_truthy (o : option pystr) : bool :=
  match o with Some (_ :: _) => true | _ => false end.

(** The Python builtins whose full definition lies outside this
    program: [int] of a string ([None] stands for [ValueError]),
    [str.isdigit], [str.lower], [str] of a float, list or dict, and
    [repr] of a string. *)
Class PyBuiltins := {
  py_int_of_str : pystr -> option Z;
  py_isdigit : pystr -> bool;
  py_lower : pystr -> pystr;
  py_str_other : json -> pystr;
  py_repr_str : pystr -> pystr
}.

(** [str(int)]. *)
Definition py_str_int (z : Z) : pystr := u (NilZero.string_of_int (Z.to_int z)).

(** [str(v)], also what an f-string field [{v}] expands to. *)
Definition py_str `{PyBuiltins} (v : json) : pystr :=
  match v with
  | JNull => u "None"
  | JBool true => u "True"
  | JBool false => u "False"
  | JInt z => py_str_int z
  | JStr s => s
  | _ => py_str_other v
  end.

(** [str.isspace] on one code point: the white space [str.strip]
    removes. *)
Definition py_isspace (c : N) : bool :=
  (((9 <=? c) && (c <=? 13)) || ((28 <=? c) && (c <=? 32))
   || (c =? 133) || (c =? 160) || (c =? 5760)
   || ((8192 <=? c) && (c <=? 8202))
   || (c =? 8232) || (c =? 8233) || (c =? 8239) || (c =? 8287)
   || (c =? 12288))%N.

Fixpoint lstrip (s : pystr) : pystr :=
  match s with
  | [] => []
  | c :: rest => if py_isspace c then lstrip rest else s
  end.

(** [s.strip()]. *)
Definition strip (s : pystr) : pystr := rev (lstrip (rev (lstrip s))).

(** [s.split(",")]: always at least one field. *)
Fixpoint split_on (sep : N) (s : pystr) : list pystr :=
  match s with
  | [] => [[]]
  | c :: rest =>
      if (c =? sep)%N then [] :: split_on sep rest
      else match split_on sep rest with
           | h :: t => (c :: h) :: t
           | [] => [[c]]
           end
  end.

(** [needle in hay] for strings. *)
Fixpoint is_prefix (p s : pystr) : bool :=
  match p, s with
  | [], _ => true
  | _ :: _, [] => false
  | a :: p', b :: s' => (a =? b)%N && is_prefix p' s'
  end.

Fixpoint contains (needle hay : pystr) : bool :=
  is_prefix needle hay ||
  match hay with
  | [] => false
  | _ :: hay' => contains needle hay'
  end.

(** Exceptions that can leave [main], and the ways a run ends. *)
Inductive exn :=
| RuntimeError (msg : pystr)
| ValueError
| TypeError
| SystemExit (msg : pystr).

Inductive outcome :=
| Exits (code : Z)        (* [return code] from [main] *)
| Raises (e : exn)        (* an exception nobody catches *)
| OutOfFuel.              (* the page loop was cut by the fuel bound *)

Inductive res (A : Type) :=
| Val (a : A)
| Halt (o : outcome).
Arguments Val {A} a.
Arguments Halt {A} o.

(** [int(v)]. *)
Definition py_int `{PyBuiltins} (v : json) : res Z :=
  match v with
  | JInt z => Val z
  | JBool b => Val (if b then 1 else 0)
  | JFloat q => Val (Z.quot (Qnum q) (Zpos (Qden q)))
  | JStr s => match py_int_of_str s with
              | Some z => Val z
              | None => Halt (Raises ValueError)
              end
  | _ => Halt (Raises TypeError)
  end.

(** [v == n] for an int [n]. *)
Definition py_eq_int (v : json) (n : Z) : bool :=
  match v with
  | JInt z => z =? n
  | JBool b => (if b then 1 else 0) =? n
  | JFloat q => Qeq_bool q (inject_Z n)
  | _ => false
  end.

(** [v in s] for a set of ints: hashing a list or dict raises
    [TypeError]. *)
Definition py_in_int_set (v : json) (s : gset Z) : res bool :=
  match v with
  | JList _ | JDict _ => Halt (Raises TypeError)
  | JInt z => Val (bool_decide (z ∈ s))
  | _ => Val (existsb (py_eq_int v) (elements s))
  end.

(** ** Command line, records, events and the remote service *)

Inductive export_mode := Sentences | Words | Both.

(** The parsed command line ([args] in [main]).  The installation id,
    device id and client version only decorate requests and are left
    out. *)
Record cli_args := {
  session_token : option pystr;
  pfid : option pystr;
  folder_id_arg : option pystr;
  targets_for_item : option pystr;
  page : Z;
  count : Z;
  sort_type_arg : Z;
  sort_types : option pystr;
  limit : Z;
  mode : export_mode;
  target_types : option pystr;
  output : option pystr;
  json_output : bool;
  fetch_all : bool;
  all_folders : bool;
  max_pages : Z;
  stop_after_no_new : Z;
  expected : Z
}.

(** The two shapes of an export record (the dict stored in
    [results_by_id], or the block printed to [out_fp]). *)
Record sentence_record := {
  s_targetType : json;
  s_itemId : pystr;
  s_wordId : pystr;
  s_word_spell : pystr;
  s_word_pron : pystr;
  s_jp : pystr;
  s_trans : pystr;
  s_folder_id : pystr;
  s_folder_title : pystr;
  s_sortType : Z
}.

Record word_record := {
  w_targetType : json;
  w_itemId : pystr;
  w_wordId : pystr;
  w_spell : pystr;
  w_pron : pystr;
  w_accent : pystr;
  w_excerpt : pystr;
  w_folder_id : pystr;
  w_folder_title : pystr;
  w_sortType : Z
}.

Inductive export_record :=
| SentenceRecord (r : sentence_record)
| WordRecord (r : word_record).

(** Observable events of a run.  The first three are gateway calls. *)
Inductive event :=
| EvCallCF (func : pystr) (params : json)
| EvWordDetail (word_id : pystr)
| EvItemTargets (item_id : pystr)
| EvRecord (item_id_s : pystr) (r : export_record)
| EvRewrite (fid : pystr) (sort_type page_index : Z).

Definition is_gateway (e : event) : bool :=
  match e with
  | EvCallCF _ _ | EvWordDetail _ | EvItemTargets _ => true
  | _ => false
  end.

Definition is_record (e : event) : bool :=
  match e with EvRecord _ _ => true | _ => false end.

(** The remote service.  A reply is either a decoded JSON body or the
    message of the [RuntimeError] the HTTP helper raises; it may depend
    on everything that happened before (most recent event first). *)
Record server := {
  call_cf_reply : list event -> pystr -> json -> pystr + json;
  word_detail_reply : list event -> pystr -> pystr + json;
  item_targets_reply : list event -> pystr -> pystr + json
}.

(** The variables [main] shares with its nested functions, and the
    event log (most recent event first). *)
Record run_state := {
  word_cache : gmap pystr json;
  seen_item_ids_global : gset pystr;
  printed_total : nat;
  stop_everything : bool;
  results_by_id : gmap pystr export_record;
  log : list event
}.

Definition initial_state : run_state :=
  {| word_cache := ∅; seen_item_ids_global := ∅; printed_total := 0%nat;
     stop_everything := false; results_by_id := ∅; log := [] |}.

Definition set_word_cache (c : gmap pystr json) (s : run_state) : run_state :=
  {| word_cache := c; seen_item_ids_global := seen_item_ids_global s;
     printed_total := printed_total s; stop_everything := stop_everything s;
     results_by_id := results_by_id s; log := log s |}.

Definition set_seen_global (g : gset pystr) (s : run_state) : run_state :=
  {| word_cache := word_cache s; seen_item_ids_global := g;
     printed_total := printed_total s; stop_everything := stop_everything s;
     results_by_id := results_by_id s; log := log s |}.

Definition set_printed_total (n : nat) (s : run_state) : run_state :=
  {| word_cache := word_cache s; seen_item_ids_global := seen_item_ids_global s;
     printed_total := n; stop_everything := stop_everything s;
     results_by_id := results_by_id s; log := log s |}.

Definition set_stop_everything (b : bool) (s : run_state) : run_state :=
  {| word_cache := word_cache s; seen_item_ids_global := seen_item_ids_global s;
     printed_total := printed_total s; stop_everything := b;
     results_by_id := results_by_id s; log := log s |}.

Definition set_results_by_id (r : gmap pystr export_record) (s : run_state)
  : run_state :=
  {| word_cache := word_cache s; seen_item_ids_global := seen_item_ids_global s;
     printed_total := printed_total s; stop_everything := stop_everything s;
     results_by_id := r; log := log s |}.

Definition add_event (e : event) (s : run_state) : run_state :=
  {| word_cache := word_cache s; seen_item_ids_global := seen_item_ids_global s;
     printed_total := printed_total s; stop_everything := stop_everything s;
     results_by_id := results_by_id s; log := e :: log s |}.

(** ** The run monad: shared state, exceptions and early exits *)

Definition M (A : Type) : Type := run_state -> run_state * res A.

Definition ret {A} (a : A) : M A := fun s => (s, Val a).

Definition bind {A B} (m : M A) (k : A -> M B) : M B :=
  fun s => match m s with
           | (s', Val a) => k a s'
           | (s', Halt o) => (s', Halt o)
           end.

Definition halt {A} (o : outcome) : M A := fun s => (s, Halt o).
Definition raise {A} (e : exn) : M A := halt (Raises e).
Definition lift {A} (r : res A) : M A := fun s => (s, r).
Definition gets {A} (f : run_state -> A) : M A := fun s => (s, Val (f s)).
Definition modify (f : run_state -> run_state) : M unit := fun s => (f s, Val tt).

(** [try: m  except Exception as e: h e].  [SystemExit] is not an
    [Exception]; early exits and the fuel bound pass through too. *)
Definition try_except {A} (m : M A) (h : exn -> M A) : M A :=
  fun s => match m s with
           | (s', Halt (Raises (SystemExit msg))) => (s', Halt (Raises (SystemExit msg)))
           | (s', Halt (Raises e)) => h e s'
           | r => r
           end.

Declare Scope run_scope.
Delimit Scope run_scope with run.
Notation "'let*' x := c 'in' k" := (bind c (fun x => k))
  (at level 10, x name, c at level 100, k at level 200) : run_scope.
Notation "c ;; k" := (bind c (fun _ => k))
  (at level 100, k at level 200, right associativity) : run_scope.
Local Open Scope run_scope.

(** ** The exporter *)

Inductive flow := Continue | Break.

(** Locals of one page's item loop. *)
Record page_acc := {
  acc_seen_in_folder : gset pystr;
  new_any_in_page : nat;
  new_selected_in_page : nat
}.

(** Locals of [_export_one_folder]'s page loop. *)
Record folder_state := {
  page_index : Z;
  total_pages : option Z;
  no_new_streak : Z;
  seen_item_ids_in_folder : gset pystr
}.

(** How one turn of [while True] ends: [page_index += 1], [break], or
    the [return] of single-page mode. *)
Inductive page_result :=
| NextPage (fs : folder_state)
| LeaveLoop (fs : folder_state)
| ReturnNow.

(** [x or y] on strings. *)
Definition str_or (a b : pystr) : pystr := if nonempty a then a else b.

(** [str(d.get(k) or "").strip()]. *)
Definition field_of `{PyBuiltins} (d : pydict) (k : pystr) : pystr :=
  strip (py_str (py_or (dict_get d k) (JStr []))).

(** [str(v) if v is not None else ""]. *)
Definition str_unless_none `{PyBuiltins} (v : json) : pystr :=
  match v with JNull => [] | _ => py_str v end.

(** Parse REST [/functions/<name>] returns [{"result": ...}]. *)
Definition _unwrap_parse_result (resp : json) : res pydict :=
  match resp with
  | JDict kv =>
      match dict_get kv (u "result") with
      | JNull => Val [(u "code", JInt (-1));
                      (u "message", JStr (u "Parse returned null result"));
                      (u "raw", resp)]
      | JDict r => Val r
      | JList l => Val [(u "code", JInt 200); (u "result", JList l)]
      | _ => Val kv
      end
  | _ => Halt (Raises (RuntimeError (u "Unexpected response type")))
  end.

Definition _iter_items_from_folder_content (content : pydict) : list pydict :=
  match dict_get content (u "result") with
  | JList items =>
      omap (fun it => match it with JDict d => Some d | _ => None end) items
  | _ => []
  end.

(** Lines 739-742: the dedup key of an item. *)
Definition item_id_of `{PyBuiltins} (target : pydict) : json :=
  let item_id := py_or (dict_get target (u "objectId")) (dict_get target (u "id")) in
  if truthy item_id then item_id
  else JStr (py_str (dict_get_default target (u "wordId") (JStr []))
             ++ u "::"
             ++ py_str (dict_get_default target (u "title") (JStr []))).

Definition item_id_s_of `{PyBuiltins} (tt : json) (item_id : json) : pystr :=
  py_str tt ++ u ":" ++ py_str item_id.

Section Exporter.
Context `{PyBuiltins}.
Variable srv : server.
Variable args : cli_args.

(** *** Remote Call Gateway *)

Definition gateway (e : event) (reply : list event -> pystr + json) : M json :=
  fun s =>
    let s' := add_event e s in
    match reply (log s) with
    | inl msg => (s', Halt (Raises (RuntimeError msg)))
    | inr body => (s', Val body)
    end.

Definition call_cf (func_name : pystr) (params : json) : M json :=
  gateway (EvCallCF func_name params)
          (fun h => call_cf_reply srv h func_name params).

Definition fetch_word_detail (word_id : pystr) : M json :=
  gateway (EvWordDetail word_id) (fun h => word_detail_reply srv h word_id).

Definition fetch_item_targets (item_id : pystr) : M json :=
  gateway (EvItemTargets item_id) (fun h => item_targets_reply srv h item_id).

(** *** Word Resolution Cache (lines 772-782 and 837-847) *)

(** [str(e)] of a caught exception. *)
Definition exn_str (e : exn) : pystr :=
  match e with
  | RuntimeError msg => msg
  | SystemExit msg => msg
  | _ => []
  end.

(** [if word_id_s not in word_cache: try ... except Exception ...]. *)
Definition ensure_word_cached (word_id_s : pystr) : M unit :=
  let* cache := gets word_cache in
  match cache !! word_id_s with
  | Some _ => ret tt
  | None =>
      let* v := try_except (fetch_word_detail word_id_s)
                  (fun e => ret (JDict [(u "_error", JStr (exn_str e))])) in
      modify (fun s => set_word_cache (<[word_id_s := v]> (word_cache s)) s)
  end.

(** [wresp = word_cache.get(word_id_s) or {}] and
    [w = wresp.get("word") if isinstance(wresp, dict) else None]. *)
Definition word_of_response (cached : option json) : json :=
  match py_or (default JNull cached) (JDict []) with
  | JDict d => dict_get d (u "word")
  | _ => JNull
  end.

Definition resolve_word (word_id_s : pystr) : M json :=
  ensure_word_cached word_id_s;;
  let* cache := gets word_cache in
  ret (word_of_response (cache !! word_id_s)).

(** *** Result Sink *)

(** Lines 794-822 and 855-883: store or print the record, count it,
    and raise the global stop flag when the expected count is reached.
    In JSON mode the record goes into the buffer.  In text mode it is
    printed to [out_fp]: the printed text is not part of the state, and
    the write is taken to succeed (a strict output file that rejects
    the text, as for a lone surrogate, is left out). *)
Definition expected_reached (printed_total : nat) : bool :=
  fetch_all args && (0 <? expected args) && (expected args <=? Z.of_nat printed_total).

Definition accept_record (item_id_s : pystr) (r : export_record) : M flow :=
  (if json_output args
   then modify (fun s => set_results_by_id (<[item_id_s := r]> (results_by_id s)) s)
   else ret tt);;
  modify (add_event (EvRecord item_id_s r));;
  modify (fun s => set_printed_total (S (printed_total s)) s);;
  let* n := gets printed_total in
  if expected_reached n
  then modify (set_stop_everything true);; ret Break
  else ret Continue.

Definition _rewrite_json_progress (folder_id : pystr) (sort_type page_index : Z)
  : M unit :=
  if negb (json_output args) then ret tt
  else if negb (opt_truthy (output args)) then ret tt
  else modify (add_event (EvRewrite folder_id sort_type page_index)).

(** *** Item Classifier & Record Builder *)

(** Lines 765-822: sentence-like items. *)
Definition sentence_jp (target : pydict) : pystr :=
  strip (py_str (py_or (py_or (dict_get target (u "title"))
                              (dict_get target (u "notationTitle")))
                       (JStr []))).

Definition sentence_trans (target : pydict) : pystr :=
  strip (py_str (py_or (py_or (dict_get target (u "trans"))
                              (dict_get target (u "excerpt")))
                       (JStr []))).

Definition sentence_record_of (folder_id folder_title : pystr) (sort_type : Z)
    (tt : json) (target : pydict) (item_id : json) (word : pystr * pystr)
  : export_record :=
  SentenceRecord
    {| s_targetType := tt; s_itemId := py_str item_id;
       s_wordId := str_unless_none (dict_get target (u "wordId"));
       s_word_spell := fst word; s_word_pron := snd word;
       s_jp := sentence_jp target; s_trans := sentence_trans target;
       s_folder_id := folder_id; s_folder_title := folder_title;
       s_sortType := sort_type |}.

(** Lines 767-785: the parent word of a sentence. *)
Definition parent_word (target : pydict) : M (pystr * pystr) :=
  let word_id_s := str_unless_none (dict_get target (u "wordId")) in
  if nonempty word_id_s then
    let* w := resolve_word word_id_s in
    match w with
    | JDict wd => ret (field_of wd (u "spell"), field_of wd (u "pron"))
    | _ => ret ([], [])
    end
  else ret ([], []).

Definition export_sentence (folder_id folder_title : pystr) (sort_type : Z)
    (tt : json) (target : pydict) (item_id : json) (item_id_s : pystr) : M flow :=
  let* word := parent_word target in
  if nonempty (sentence_jp target) then
    accept_record item_id_s
      (sentence_record_of folder_id folder_title sort_type tt target item_id word)
  else ret Continue.

(** Lines 824-883: word items. *)
Record word_fields := {
  f_spell : pystr; f_pron : pystr; f_accent : pystr; f_excerpt : pystr
}.

Definition inline_word_fields (target : pydict) : word_fields :=
  {| f_spell := strip (py_str (py_or (py_or (dict_get target (u "spell"))
                                            (dict_get target (u "title")))
                                     (JStr [])));
     f_pron := field_of target (u "pron");
     f_accent := field_of target (u "accent");
     f_excerpt := field_of target (u "excerpt") |}.

(** Lines 848-852: [spell = spell or str(w.get("spell") or "").strip()]
    and so on. *)
Definition fill_word_fields (inl_f : word_fields) (w : json) : word_fields :=
  match w with
  | JDict wd =>
      {| f_spell := str_or (f_spell inl_f) (field_of wd (u "spell"));
         f_pron := str_or (f_pron inl_f) (field_of wd (u "pron"));
         f_accent := str_or (f_accent inl_f) (field_of wd (u "accent"));
         f_excerpt := str_or (f_excerpt inl_f) (field_of wd (u "excerpt")) |}
  | _ => inl_f
  end.

Definition word_id_s_of (target : pydict) : pystr :=
  str_unless_none (py_or (dict_get target (u "objectId")) (dict_get target (u "id"))).

(** Line 836: [word_id_s and (not spell or not pron)]. *)
Definition needs_detail (word_id_s : pystr) (f : word_fields) : bool :=
  nonempty word_id_s && (negb (nonempty (f_spell f)) || negb (nonempty (f_pron f))).

Definition complete_word_fields (target : pydict) : M word_fields :=
  let word_id_s := word_id_s_of target in
  let f := inline_word_fields target in
  if needs_detail word_id_s f then
    let* w := resolve_word word_id_s in
    ret (fill_word_fields f w)
  else ret f.

Definition word_record_of (folder_id folder_title : pystr) (sort_type : Z)
    (tt : json) (target : pydict) (item_id : json) (f : word_fields)
  : export_record :=
  WordRecord
    {| w_targetType := tt; w_itemId := py_str item_id;
       w_wordId := word_id_s_of target;
       w_spell := f_spell f; w_pron := f_pron f;
       w_accent := f_accent f; w_excerpt := f_excerpt f;
       w_folder_id := folder_id; w_folder_title := folder_title;
       w_sortType := sort_type |}.

Definition export_word (folder_id folder_title : pystr) (sort_type : Z)
    (tt : json) (target : pydict) (item_id : json) (item_id_s : pystr) : M flow :=
  let* f := complete_word_fields target in
  if nonempty (f_spell f) || nonempty (f_excerpt f) then
    accept_record item_id_s
      (word_record_of folder_id folder_title sort_type tt target item_id f)
  else ret Continue.

(** *** Traversal Controller *)

Section OneFolder.
Variables (folder_id folder_title : pystr) (sort_type : Z).
Variable allowed_types : gset Z.

(** [server_target_types = sorted(allowed_types)]. *)
Definition server_target_types : list Z := merge_sort Z.le (elements allowed_types).

(** Lines 765 and 824: the dispatch on the type tag. *)
Definition classify_item (tt : json) (target : pydict) (item_id : json)
    (item_id_s : pystr) : M flow :=
  if py_eq_int tt 103 || py_eq_int tt 120
  then export_sentence folder_id folder_title sort_type tt target item_id item_id_s
  else if py_eq_int tt 102
  then export_word folder_id folder_title sort_type tt target item_id item_id_s
  else ret Continue.

(** Body of [for it in items] (lines 732-886). *)
Definition export_item (it : pydict) (acc : page_acc) : M (page_acc * flow) :=
  let tt := dict_get it (u "targetType") in
  match dict_get it (u "target") with
  | JDict target =>
      let item_id := item_id_of target in
      let item_id_s := item_id_s_of tt item_id in
      if fetch_all args && bool_decide (item_id_s ∈ acc_seen_in_folder acc)
      then ret (acc, Continue)
      else
        let acc1 :=
          if fetch_all args
          then {| acc_seen_in_folder := {[item_id_s]} ∪ acc_seen_in_folder acc;
                  new_any_in_page := S (new_any_in_page acc);
                  new_selected_in_page := new_selected_in_page acc |}
          else acc in
        let* allowed := lift (py_in_int_set tt allowed_types) in
        if negb allowed then ret (acc1, Continue)
        else
          let* seen := gets seen_item_ids_global in
          if bool_decide (item_id_s ∈ seen) then ret (acc1, Continue)
          else
            modify (fun s => set_seen_global ({[item_id_s]} ∪ seen_item_ids_global s) s);;
            let acc2 :=
              if fetch_all args
              then {| acc_seen_in_folder := acc_seen_in_folder acc1;
                      new_any_in_page := new_any_in_page acc1;
                      new_selected_in_page := S (new_selected_in_page acc1) |}
              else acc1 in
            let* fl := classify_item tt target item_id item_id_s in
            match fl with
            | Break => ret (acc2, Break)
            | Continue =>
                let* n := gets printed_total in
                if negb (fetch_all args) && (limit args <=? Z.of_nat n)
                then ret (acc2, Break)
                else ret (acc2, Continue)
            end
  | _ => ret (acc, Continue)
  end.

Fixpoint export_items (items : list pydict) (acc : page_acc) : M page_acc :=
  match items with
  | [] => ret acc
  | it :: rest =>
      let* r := export_item it acc in
      match snd r with
      | Break => ret (fst r)
      | Continue => export_items rest (fst r)
      end
  end.

(** Lines 687-703: fetch one page. *)
Definition content_params (page_index : Z) : json :=
  JDict ([(u "fid", JStr folder_id); (u "sortType", JInt sort_type);
          (u "pageIndex", JInt page_index); (u "count", JInt (count args))]
         ++ match server_target_types with
            | [] => []
            | tts => [(u "targetTypes", JList (map JInt tts))]
            end).

Definition fetch_page (page_index : Z) : M pydict :=
  let* content_resp :=
    call_cf (u "folder-fetchContentWithRelatives") (content_params page_index) in
  let* content_payload := lift (_unwrap_parse_result content_resp) in
  let* code := lift (py_int (dict_get_default content_payload (u "code") (JInt 0))) in
  if negb (code =? 200)
  then raise (RuntimeError (u "folder-fetchContentWithRelatives failed"))
  else ret content_payload.

(** Lines 709-716. *)
Definition learn_total_pages (known : option Z) (content_payload : pydict)
  : option Z :=
  match known with
  | Some _ => known
  | None =>
      match dict_get content_payload (u "totalPage") with
      | JNull => None
      | tp => match py_int tp with
              | Val tp_i => if 0 <? tp_i then Some tp_i else None
              | Halt _ => None
              end
      end
  end.

(** Lines 909-912. *)
Definition update_streak (no_new_streak : Z) (new_any : nat) : Z :=
  if (new_any =? 0)%nat then no_new_streak + 1 else 0.

(** Lines 925-932: the stop conditions checked after a page. *)
Definition pair_exhausted (fs : folder_state) : bool :=
  (Z.max 1 (stop_after_no_new args) <=? no_new_streak fs)
  || match total_pages fs with
     | Some tp => tp <=? page_index fs
     | None => false
     end
  || ((0 <? max_pages args) && (max_pages args <=? page_index fs - page args + 1)).

(** Body of [while True] (lines 685-933). *)
Definition export_page (fs : folder_state) : M page_result :=
  let* stop := gets stop_everything in
  if stop then ret (LeaveLoop fs)
  else
    let* content_payload := fetch_page (page_index fs) in
    let fs1 := {| page_index := page_index fs;
                  total_pages := learn_total_pages (total_pages fs) content_payload;
                  no_new_streak := no_new_streak fs;
                  seen_item_ids_in_folder := seen_item_ids_in_folder fs |} in
    match _iter_items_from_folder_content content_payload with
    | [] => ret (LeaveLoop fs1)
    | items =>
        let* acc := export_items items
                      {| acc_seen_in_folder := seen_item_ids_in_folder fs;
                         new_any_in_page := 0; new_selected_in_page := 0 |} in
        let fs2 := {| page_index := page_index fs1;
                      total_pages := total_pages fs1;
                      no_new_streak := no_new_streak fs1;
                      seen_item_ids_in_folder := acc_seen_in_folder acc |} in
        let* stop := gets stop_everything in
        if stop then ret (LeaveLoop fs2)
        else
          _rewrite_json_progress folder_id sort_type (page_index fs);;
          if negb (fetch_all args) then ret ReturnNow
          else
            let fs3 := {| page_index := page_index fs2;
                          total_pages := total_pages fs2;
                          no_new_streak :=
                            update_streak (no_new_streak fs2) (new_any_in_page acc);
                          seen_item_ids_in_folder := seen_item_ids_in_folder fs2 |} in
            let* stop := gets stop_everything in
            if stop || pair_exhausted fs3 then ret (LeaveLoop fs3)
            else ret (NextPage
                        {| page_index := page_index fs3 + 1;
                           total_pages := total_pages fs3;
                           no_new_streak := no_new_streak fs3;
                           seen_item_ids_in_folder := seen_item_ids_in_folder fs3 |})
    end.

(** [while True], cut after [fuel] pages. *)
Fixpoint page_loop (fuel : nat) (fs : folder_state) : M (option folder_state) :=
  match fuel with
  | O => halt OutOfFuel
  | S fuel' =>
      let* r := export_page fs in
      match r with
      | NextPage fs' => page_loop fuel' fs'
      | LeaveLoop fs' => ret (Some fs')
      | ReturnNow => ret None
      end
  end.

Definition _export_one_folder (fuel : nat) : M unit :=
  let* r := page_loop fuel
              {| page_index := page args; total_pages := None;
                 no_new_streak := 0; seen_item_ids_in_folder := ∅ |} in
  match r with
  | Some fs => _rewrite_json_progress folder_id sort_type (page_index fs)
  | None => ret tt
  end.

End OneFolder.

(** *** Configuration parsing (lines 562-586 and 631-671) *)

Fixpoint parse_target_parts (parts : list pystr) (out : gset Z) : res (gset Z) :=
  match parts with
  | [] => Val out
  | part :: rest =>
      let part := strip part in
      if negb (nonempty part) then parse_target_parts rest out
      else match py_int_of_str part with
           | Some z => parse_target_parts rest ({[z]} ∪ out)
           | None => Halt (Raises (SystemExit
                       (u "Invalid --target-types entry: " ++ py_repr_str part)))
           end
  end.

Definition _parse_target_types (s : option pystr) : res (option (gset Z)) :=
  match s with
  | None | Some [] => Val None
  | Some s =>
      match parse_target_parts (split_on 44 s) ∅ with
      | Val out => Val (if bool_decide (out = ∅) then None else Some out)
      | Halt o => Halt o
      end
  end.

Definition allowed_types_of (explicit_types : option (gset Z)) : gset Z :=
  match explicit_types with
  | Some explicit => explicit
  | None =>
      match mode args with
      | Sentences => {[120; 103]}
      | Words => {[102]}
      | Both => {[102; 103; 120]}
      end
  end.

(** [part.replace("..", "-")]. *)
Fixpoint replace_dotdot (s : pystr) : pystr :=
  match s with
  | 46%N :: 46%N :: rest => 45%N :: replace_dotdot rest
  | c :: rest => c :: replace_dotdot rest
  | [] => []
  end.

(** [raw.partition("-")]: text before the first dash, whether a dash
    was found, text after it. *)
Fixpoint partition_dash (s : pystr) : pystr * bool * pystr :=
  match s with
  | [] => ([], false, [])
  | c :: rest =>
      if (c =? 45)%N then ([], true, rest)
      else match partition_dash rest with
           | (a, found, b) => if found then (c :: a, true, b) else (s, false, [])
           end
  end.

(** [list(range(a, b + step, step))] with [step = 1 if a <= b else -1]. *)
Definition inclusive_range (a b : Z) : list Z :=
  if a <=? b
  then map (fun i => a + Z.of_nat i) (seq 0 (Z.to_nat (b - a + 1)))
  else map (fun i => a - Z.of_nat i) (seq 0 (Z.to_nat (a - b + 1))).

Fixpoint parse_sort_parts (parts : list pystr) (out : list Z) : res (list Z) :=
  match parts with
  | [] => Val out
  | part :: rest =>
      let part := strip part in
      if negb (nonempty part) then parse_sort_parts rest out
      else
        let plain :=
          match py_int_of_str part with
          | Some z => parse_sort_parts rest (out ++ [z])
          | None => Halt (Raises (SystemExit
                      (u "Invalid --sort-types entry: " ++ py_repr_str part)))
          end in
        if contains (u "..") part || contains (u "-") part then
          match partition_dash (replace_dotdot part) with
          | (a_s, sep, b_s) =>
              let a_s := strip a_s in
              let b_s := strip b_s in
              if sep && py_isdigit a_s && py_isdigit b_s then
                match py_int_of_str a_s, py_int_of_str b_s with
                | Some a_i, Some b_i =>
                    parse_sort_parts rest (out ++ inclusive_range a_i b_i)
                | _, _ => Halt (Raises ValueError)
                end
              else plain
          end
        else plain
  end.

(** Lines 657-665: keep the first occurrence of each value. *)
Fixpoint uniq_from (xs : list Z) (seen : gset Z) : list Z :=
  match xs with
  | [] => []
  | x :: rest =>
      if bool_decide (x ∈ seen) then uniq_from rest seen
      else x :: uniq_from rest ({[x]} ∪ seen)
  end.

Definition _parse_sort_types (s : option pystr) : res (list Z) :=
  match s with
  | None | Some [] => Val []
  | Some s =>
      match parse_sort_parts (split_on 44 s) [] with
      | Val out => Val (uniq_from out ∅)
      | Halt o => Halt o
      end
  end.

Definition active_sort_types_of (sort_types_list : list Z) : list Z :=
  if fetch_all args && negb (bool_decide (sort_types_list = []))
  then sort_types_list
  else [sort_type_arg args].

(** *** Folder discovery and selection (lines 459-555) *)

Definition _folder_id_of (folder : pydict) : pystr :=
  strip (py_str (py_or (py_or (py_or (dict_get folder (u "targetId"))
                                     (dict_get folder (u "objectId")))
                              (dict_get folder (u "id")))
                       (JStr []))).

Definition _folder_title_of (folder : pydict) : pystr :=
  strip (py_str (py_or (py_or (dict_get folder (u "title"))
                              (dict_get folder (u "name")))
                       (JStr []))).

Definition folder_keywords : list pystr :=
  [[20363; 25991]%N; [20363; 21477]%N; [20363]%N; u "sentence"; u "sentences"].

Definition _pick_folder (folders : list pydict) : option pydict :=
  match folders with
  | [] => None
  | first :: _ =>
      let matches kw f :=
        contains (py_lower kw)
                 (py_lower (py_str (dict_get_default f (u "title") (JStr [])))) in
      match concat (map (fun kw => filter (fun f => Is_true (matches kw f)) folders)
                        folder_keywords) with
      | f :: _ => Some f
      | [] => Some first
      end
  end.

Definition dicts_of (l : list json) : list pydict :=
  omap (fun f => match f with JDict d => Some d | _ => None end) l.

Definition folders_code (payload : pydict) : res Z :=
  py_int (dict_get_default payload (u "code") (JInt 0)).

(** Lines 459-497. *)
Definition discover_folders : M (list json) :=
  let folders_params :=
    JDict (if opt_truthy (pfid args)
           then [(u "pfid", JStr (default [] (pfid args)))] else []) in
  let* folders_resp := call_cf (u "fetchMyFolders") folders_params in
  let* folders_payload := lift (_unwrap_parse_result folders_resp) in
  let* code := lift (folders_code folders_payload) in
  if negb (code =? 200) then halt (Exits 1)
  else
    match dict_get folders_payload (u "result") with
    | JList folders =>
        if opt_truthy (pfid args) && (length folders =? 0)%nat then
          let* folders_resp2 := call_cf (u "fetchMyFolders") (JDict []) in
          let* folders_payload2 := lift (_unwrap_parse_result folders_resp2) in
          let* code2 := lift (folders_code folders_payload2) in
          match dict_get folders_payload2 (u "result") with
          | JList folders2 => ret (if code2 =? 200 then folders2 else folders)
          | _ => ret folders
          end
        else ret folders
    | _ => halt (Exits 1)
    end.

(** Lines 505-555. *)
Definition select_export_folders (folders : list json)
  : res (list (pystr * pystr)) :=
  if opt_truthy (folder_id_arg args) then
    let wanted := default [] (folder_id_arg args) in
    match filter (fun f => _folder_id_of f = wanted) (dicts_of folders) with
    | folder :: _ =>
        Val [(_folder_id_of folder,
              str_or (_folder_title_of folder) (u "(selected)"))]
    | [] => Halt (Exits 1)
    end
  else if all_folders args then
    let listed :=
      omap (fun f => let fid := _folder_id_of f in
                     if nonempty fid then Some (fid, _folder_title_of f) else None)
           (dicts_of folders) in
    let pfid_s := strip (default [] (pfid args)) in
    let export_folders :=
      if opt_truthy (pfid args) && nonempty pfid_s
         && forallb (fun x => negb (bool_decide (pfid_s = fst x))) listed
      then (pfid_s, u "(root/pfid)") :: listed
      else listed in
    match export_folders with
    | [] => Halt (Exits 1)
    | _ => Val export_folders
    end
  else
    match _pick_folder (dicts_of folders) with
    | Some ((_ :: _) as folder) =>
        Val [(_folder_id_of folder, _folder_title_of folder)]
    | _ =>
        if opt_truthy (pfid args)
        then Val [(default [] (pfid args), u "(root)")]
        else Halt (Exits 1)
    end.

(** *** [main] (lines 414-446 and 943-964) *)

(** [for st in active_sort_types]. *)
Fixpoint sort_loop (fuel : nat) (folder_id folder_title : pystr)
    (allowed_types : gset Z) (sts : list Z) : M unit :=
  match sts with
  | [] => ret tt
  | st :: rest =>
      _export_one_folder folder_id folder_title st allowed_types fuel;;
      let* stop := gets stop_everything in
      if stop then ret tt
      else sort_loop fuel folder_id folder_title allowed_types rest
  end.

(** [for folder_id, folder_title in export_folders]. *)
Fixpoint folder_loop (fuel : nat) (allowed_types : gset Z)
    (active_sort_types : list Z) (export_folders : list (pystr * pystr)) : M unit :=
  match export_folders with
  | [] => ret tt
  | (folder_id, folder_title) :: rest =>
      if negb (nonempty folder_id)
      then folder_loop fuel allowed_types active_sort_types rest
      else
        sort_loop fuel folder_id folder_title allowed_types active_sort_types;;
        let* stop := gets stop_everything in
        if stop then ret tt
        else if negb (fetch_all args) then ret tt
        else folder_loop fuel allowed_types active_sort_types rest
  end.

(** Everything [main] does once the folders to export are known. *)
Definition export_selected (fuel : nat) (export_folders : list (pystr * pystr))
  : M Z :=
  let* explicit_types := lift (_parse_target_types (target_types args)) in
  let allowed_types := allowed_types_of explicit_types in
  let* sort_types_list := lift (_parse_sort_types (sort_types args)) in
  let active_sort_types := active_sort_types_of sort_types_list in
  folder_loop fuel allowed_types active_sort_types export_folders;;
  match export_folders, active_sort_types with
  | (fid0, _) :: _, st0 :: _ =>
      (if json_output args
       then _rewrite_json_progress fid0 st0 (page args)
       else ret tt);;
      ret 0
  | _, _ => ret 0
  end.

(** Everything [main] does before it parses the type and sort lists. *)
Definition main_prelude : M (list (pystr * pystr)) :=
  if negb (opt_truthy (session_token args)) then halt (Exits 2)
  else if opt_truthy (targets_for_item args) then
    try_except (fetch_item_targets (default [] (targets_for_item args));; ret tt)
               (fun _ => halt (Exits 1));;
    halt (Exits 0)
  else if json_output args && negb (opt_truthy (output args)) then halt (Exits 2)
  else
    let* folders := discover_folders in
    lift (select_export_folders folders).

Definition main (fuel : nat) : M Z :=
  let* export_folders := main_prelude in
  export_selected fuel export_folders.

(** A whole run from the empty state: the final state and how it ended. *)
Definition run (fuel : nat) : run_state * outcome :=
  match main fuel initial_state with
  | (s, Val code) => (s, Exits code)
  | (s, Halt o) => (s, o)
  end.

End Exporter.

(** ** The builtins on ASCII text

    An instance of the builtins for text in ASCII, used to run the
    exporter on concrete inputs. *)

Definition is_ascii_digit (c : N) : bool := ((48 <=? c) && (c <=? 57))%N.

Fixpoint digits_value (s : pystr) (acc : Z) : option Z :=
  match s with
  | [] => Some acc
  | c :: rest =>
      if is_ascii_digit c then digits_value rest (10 * acc + Z.of_N (c - 48))
      else None
  end.

Definition ascii_int_of_str (s : pystr) : option Z :=
  match strip s with
  | [] => None
  | 45%N :: ((_ :: _) as d) => Z.opp <$> digits_value d 0
  | 43%N :: ((_ :: _) as d) => digits_value d 0
  | d => digits_value d 0
  end.

Definition ascii_isdigit (s : pystr) : bool :=
  nonempty s && forallb is_ascii_digit s.

Definition ascii_lower (s : pystr) : pystr :=
  map (fun c => if ((65 <=? c) && (c <=? 90))%N then (c + 32)%N else c) s.

Definition ascii_builtins : PyBuiltins := {|
  py_int_of_str := ascii_int_of_str;
  py_isdigit := ascii_isdigit;
  py_lower := ascii_lower;
  py_str_other := fun _ => u "<object>";
  py_repr_str := fun s => u "'" ++ s ++ u "'"
|}.

(** ** Reading the event log *)

Definition record_ids (l : list event) : list pystr :=
  omap (fun e => match e with EvRecord id _ => Some id | _ => None end) l.

Definition word_detail_ids (l : list event) : list pystr :=
  omap (fun e => match e with EvWordDetail w => Some w | _ => None end) l.

Definition count_records (l : list event) : nat := length (record_ids l).

Definition is_discovery_call (e : event) : bool :=
  match e with
  | EvCallCF f _ => bool_decide (f = u "fetchMyFolders")
  | _ => false
  end.

(** The dedup key of a raw item, when its target is an object. *)
Definition identity_of `{PyBuiltins} (it : pydict) : option pystr :=
  match dict_get it (u "target") with
  | JDict target =>
      Some (item_id_s_of (dict_get it (u "targetType")) (item_id_of target))
  | _ => None
  end.

Definition page_identities `{PyBuiltins} (items : list pydict) : list pystr :=
  omap identity_of items.

(** ** Vocabulary of the specification *)

(** *** Steps of the shared state *)

(** The state a successful or failed word-detail lookup leaves. *)
Definition word_step (w : pystr) (v : json) (s : run_state) : run_state :=
  set_word_cache (<[w := v]> (word_cache s)) (add_event (EvWordDetail w) s).

(** The state [accept_record] leaves. *)
Definition accept_effects (args : cli_args) (id : pystr) (r : export_record)
    (s : run_state) : run_state :=
  let s1 := if json_output args
            then set_results_by_id (<[id := r]> (results_by_id s)) s else s in
  let s3 := set_printed_total (S (printed_total s1)) (add_event (EvRecord id r) s1) in
  if expected_reached args (printed_total s3) then set_stop_everything true s3 else s3.

(** A classifier touches the shared state only through at most one
    fresh word-detail lookup. *)
Definition maybe_word_step (s s1 : run_state) : Prop :=
  s1 = s \/ exists w v, word_cache s !! w = None /\ s1 = word_step w v s.

(** *** Invariants *)

(** [m] keeps the invariant, and establishes [Q] when it returns. *)
Definition keeps {A} (Inv P : run_state -> Prop) (m : M A)
    (Q : A -> run_state -> Prop) : Prop :=
  forall s, P s ->
    match m s with
    | (s', Val a) => Inv s' /\ Q a s'
    | (s', Halt _) => Inv s'
    end.

Definition running (Inv : run_state -> Prop) (s : run_state) : Prop :=
  Inv s /\ stop_everything s = false.

(** Two states that differ in their log only. *)
Definition same_but_log (s s' : run_state) : Prop :=
  word_cache s' = word_cache s
  /\ seen_item_ids_global s' = seen_item_ids_global s
  /\ printed_total s' = printed_total s
  /\ stop_everything s' = stop_everything s
  /\ results_by_id s' = results_by_id s.

Definition is_prelude_event (e : event) : bool :=
  match e with
  | EvCallCF f _ => bool_decide (f = u "fetchMyFolders")
  | EvItemTargets _ => true
  | _ => false
  end.

(** The parameters of the first discovery call (lines 460-462). *)
Definition folders_params (args : cli_args) : json :=
  JDict (if opt_truthy (pfid args)
         then [(u "pfid", JStr (default [] (pfid args)))] else []).

(** The first discovery call succeeds and returns an empty list. *)
Definition discovery_found_nothing `{PyBuiltins} (srv : server)
    (args : cli_args) (s : run_state) : Prop :=
  exists resp payload,
    call_cf_reply srv (log s) (u "fetchMyFolders") (folders_params args) = inr resp
    /\ _unwrap_parse_result resp = Val payload
    /\ folders_code payload = Val 200
    /\ dict_get payload (u "result") = JList [].

Definition dedup_inv (args : cli_args) (s : run_state) : Prop :=
  NoDup (record_ids (log s))
  /\ (forall id, id ∈ record_ids (log s) -> id ∈ seen_item_ids_global s)
  /\ printed_total s = length (record_ids (log s))
  /\ (forall id, is_Some (results_by_id s !! id) <->
                 json_output args = true /\ id ∈ record_ids (log s)).

Definition dedup_mid (args : cli_args) (id : pystr) (s : run_state) : Prop :=
  dedup_inv args s
  /\ id ∈ seen_item_ids_global s
  /\ id ∉ record_ids (log s).

Definition word_cache_inv (s : run_state) : Prop :=
  NoDup (word_detail_ids (log s))
  /\ forall w, w ∈ word_detail_ids (log s) -> is_Some (word_cache s !! w).

(** What the first lookup of a word id stores: the response, or the
    error sentinel. *)
Definition word_cache_entry (srv : server) (w : pystr) (s : run_state) : json :=
  match word_detail_reply srv (log s) w with
  | inr body => body
  | inl msg => JDict [(u "_error", JStr msg)]
  end.

(** Every gateway call in the log (most recent first) was issued while
    fewer than [n] records had been produced. *)
Fixpoint quiet (n : Z) (l : list event) : Prop :=
  match l with
  | [] => True
  | e :: older =>
      (is_gateway e = true -> Z.of_nat (count_records older) < n)
      /\ quiet n older
  end.

Definition expected_inv (args : cli_args) (s : run_state) : Prop :=
  printed_total s = count_records (log s)
  /\ quiet (expected args) (log s)
  /\ (stop_everything s = false -> Z.of_nat (printed_total s) < expected args).

Definition discovery_calls (l : list event) : list event :=
  List.filter is_discovery_call l.

(** The command line lets [main] get as far as folder discovery. *)
Definition reaches_discovery (args : cli_args) : bool :=
  opt_truthy (session_token args)
  && negb (opt_truthy (targets_for_item args))
  && negb (json_output args && negb (opt_truthy (output args))).

(** *** Accounting of one page *)

Definition has_object_target (it : pydict) : bool :=
  match dict_get it (u "target") with JDict _ => true | _ => false end.

(** The per-folder seen set and the count of new identities after one
    item. *)
Definition mark_identity (o : option pystr) (seen : gset pystr) : gset pystr :=
  match o with
  | Some id => if bool_decide (id ∈ seen) then seen else {[id]} ∪ seen
  | None => seen
  end.

Definition fresh_identity (o : option pystr) (seen : gset pystr) : nat :=
  match o with
  | Some id => if bool_decide (id ∈ seen) then 0 else 1
  | None => 0
  end.

(** ... and after a whole page. *)
Fixpoint mark_page `{PyBuiltins} (items : list pydict) (seen : gset pystr)
  : gset pystr :=
  match items with
  | [] => seen
  | it :: rest => mark_page rest (mark_identity (identity_of it) seen)
  end.

Fixpoint count_new `{PyBuiltins} (items : list pydict) (seen : gset pystr) : nat :=
  match items with
  | [] => 0
  | it :: rest =>
      fresh_identity (identity_of it) seen
      + count_new rest (mark_identity (identity_of it) seen)
  end.

(** Every identity on the page was already seen in this folder. *)
Definition all_seen_in_folder `{PyBuiltins} (items : list pydict)
    (seen : gset pystr) : bool :=
  forallb (fun id => bool_decide (id ∈ seen)) (page_identities items).

(** The page loop's locals once a page has been accounted for. *)
Definition accounted `{PyBuiltins} (fs : folder_state) (payload : pydict)
    (acc : page_acc) : folder_state :=
  {| page_index := page_index fs;
     total_pages := learn_total_pages (total_pages fs) payload;
     no_new_streak := update_streak (no_new_streak fs) (new_any_in_page acc);
     seen_item_ids_in_folder := acc_seen_in_folder acc |}.

Definition advanced (fs : folder_state) : folder_state :=
  {| page_index := page_index fs + 1;
     total_pages := total_pages fs;
     no_new_streak := no_new_streak fs;
     seen_item_ids_in_folder := seen_item_ids_in_folder fs |}.

Definition page_start (fs : folder_state) : page_acc :=
  {| acc_seen_in_folder := seen_item_ids_in_folder fs;
     new_any_in_page := 0; new_selected_in_page := 0 |}.

(** The folder state a turn of the page loop hands on. *)
Definition handed_on (r : page_result) : option folder_state :=
  match r with
  | NextPage fs | LeaveLoop fs => Some fs
  | ReturnNow => None
  end.

(** *** Classification and configuration *)

(** The item gets past the per-folder check, the type filter and the
    global dedup check (lines 748-759). *)
Definition reaches_classification `{PyBuiltins} (args : cli_args)
    (allowed : gset Z) (it : pydict) (acc : page_acc) (s : run_state) : bool :=
  match dict_get it (u "target") with
  | JDict target =>
      let tt := dict_get it (u "targetType") in
      let id := item_id_s_of tt (item_id_of target) in
      negb (fetch_all args && bool_decide (id ∈ acc_seen_in_folder acc))
      && match py_in_int_set tt allowed with Val true => true | _ => false end
      && negb (bool_decide (id ∈ seen_item_ids_global s))
  | _ => false
  end.

(** The shared state right after line 760. *)
Definition marked (id : pystr) (s : run_state) : run_state :=
  set_seen_global ({[id]} ∪ seen_item_ids_global s) s.

(** The fields a word item ends up with (lines 830-852). *)
Definition resolved_word_fields `{PyBuiltins} (srv : server) (target : pydict)
    (s : run_state) : word_fields :=
  match complete_word_fields srv target s with
  | (_, Val f) => f
  | (_, Halt _) => inline_word_fields target
  end.

(** Whether the classifier keeps the item (lines 793 and 854). *)
Definition kept `{PyBuiltins} (srv : server) (tt : json) (target : pydict)
    (s : run_state) : bool :=
  if py_eq_int tt 103 || py_eq_int tt 120 then nonempty (sentence_jp target)
  else if py_eq_int tt 102 then
    nonempty (f_spell (resolved_word_fields srv target s))
    || nonempty (f_excerpt (resolved_word_fields srv target s))
  else false.

(** C5 as the specification words it: an identity is marked globally
    seen only if a record was accepted for it. *)
Definition marked_only_if_accepted `{PyBuiltins} : Prop :=
  forall srv args fid ft st allowed it acc s target,
    dict_get it (u "target") = JDict target ->
    reaches_classification args allowed it acc s = true ->
    let id := item_id_s_of (dict_get it (u "targetType")) (item_id_of target) in
    let s' := fst (export_item srv args fid ft st allowed it acc s) in
    id ∈ seen_item_ids_global s' -> id ∈ record_ids (log s').

(** C8 as the specification words it: whenever the inline spell or pron
    is missing, the cache is consulted for the item's word id and the
    result fills the gaps. *)
Definition always_consults_cache `{PyBuiltins} : Prop :=
  forall srv target s,
    f_spell (inline_word_fields target) = []
    \/ f_pron (inline_word_fields target) = [] ->
    let wid := word_id_s_of target in
    let s1 := fst (resolve_word srv wid s) in
    complete_word_fields srv target s =
      (s1, Val (fill_word_fields (inline_word_fields target)
                  (word_of_response (word_cache s1 !! wid)))).

(** The configuration error [main] stops on, if any: the type list is
    parsed first, the sort list second. *)
Definition first_config_error `{PyBuiltins} (args : cli_args) : option outcome :=
  match _parse_target_types (target_types args) with
  | Halt o => Some o
  | Val _ =>
      match _parse_sort_types (sort_types args) with
      | Halt o => Some o
      | Val _ => None
      end
  end.

(** C9 as the specification words it: a malformed list ends the run
    with the validation error before any gateway call. *)
Definition validated_before_network `{PyBuiltins} : Prop :=
  forall srv args fuel o,
    first_config_error args = Some o ->
    snd (run srv args fuel) = o
    /\ Forall (fun e => is_gateway e = false) (log (fst (run srv args fuel))).

(** *** A small account to run the exporter on *)

Definition demo_sentence (oid title wid : string) : json :=
  JDict [(u "targetType", JInt 103);
         (u "target", JDict [(u "objectId", JStr (u oid));
                             (u "title", JStr (u title));
                             (u "wordId", JStr (u wid))])].

Definition demo_word (oid spell : string) : json :=
  JDict [(u "targetType", JInt 102);
         (u "target", JDict [(u "objectId", JStr (u oid));
                             (u "spell", JStr (u spell))])].

Definition demo_page (items : list json) : json :=
  JDict [(u "result", JDict [(u "code", JInt 200); (u "result", JList items);
                             (u "totalPage", JInt 3)])].

Definition demo_folders : json :=
  JDict [(u "result", JList [JDict [(u "objectId", JStr (u "F1"));
                                    (u "title", JStr (u "my sentences"))]])].

(** One folder; page 1 holds three sentences (one without text, one
    listed twice) and a word, page 2 one more sentence and a row
    without an object, page 3 is empty.  A discovery call scoped by
    [pfid] finds nothing.  Word [w1] resolves, every other lookup
    fails. *)
Definition demo_server : server := {|
  call_cf_reply := fun _ func_name params =>
    match params with
    | JDict kv =>
        if bool_decide (func_name = u "fetchMyFolders") then
          match dict_lookup kv (u "pfid") with
          | Some _ => inr (JDict [(u "result", JList [])])
          | None => inr demo_folders
          end
        else
          match dict_get kv (u "pageIndex") with
          | JInt 1 => inr (demo_page [demo_sentence "a" "A" "w1";
                                      demo_sentence "b" "" "w1";
                                      demo_word "c" "";
                                      demo_sentence "a" "A" "w1"])
          | JInt 2 => inr (demo_page [demo_sentence "d" "D" "w2";
                                      JDict [(u "targetType", JInt 103);
                                             (u "target", JNull)]])
          | _ => inr (demo_page [])
          end
    | _ => inl (u "HTTP 400")
    end;
  word_detail_reply := fun _ w =>
    if bool_decide (w = u "w1")
    then inr (JDict [(u "word", JDict [(u "spell", JStr (u " sp "));
                                       (u "pron", JStr (u "pr"))])])
    else inl (u "HTTP 500");
  item_targets_reply := fun _ _ => inl (u "HTTP 404")
|}.

Definition demo_args (pfid target_types : option pystr) (expected : Z)
  : cli_args := {|
  session_token := Some (u "token");
  pfid := pfid;
  folder_id_arg := None;
  targets_for_item := None;
  page := 1; count := 20; sort_type_arg := 0;
  sort_types := Some (u "0, 2..3");
  limit := 10;
  mode := Both;
  target_types := target_types;
  output := None; json_output := false;
  fetch_all := true; all_folders := false;
  max_pages := 200; stop_after_no_new := 3;
  expected := expected
|}.

Definition demo_item (j : json) : pydict :=
  match j with JDict d => d | _ => [] end.

Definition demo_folder_start : folder_state :=
  {| page_index := 1; total_pages := None; no_new_streak := 2;
     seen_item_ids_in_folder := ∅ |}.

Definition demo_fid : pystr := u "F1".
Definition demo_title : pystr := u "my sentences".

(** One turn of the page loop on page 1, with no allowed type matching
    any item. *)
Definition demo_fetch : run_state * res pydict :=
  @fetch_page ascii_builtins demo_server (demo_args None None 0)
    demo_fid 0 {[999]} 1 initial_state.

Definition demo_payload : pydict :=
  match snd demo_fetch with Val payload => payload | Halt _ => [] end.

Definition demo_turn : run_state * res page_result :=
  @export_page ascii_builtins demo_server (demo_args None None 0)
    demo_fid demo_title 0 {[999]} demo_folder_start initial_state.

Definition demo_turn_result : page_result :=
  match snd demo_turn with Val r => r | Halt _ => ReturnNow end.

(** The run that expects one item and buffers its results as JSON. *)
Definition demo_json_args : cli_args := {|
  session_token := Some (u "token");
  pfid := None; folder_id_arg := None; targets_for_item := None;
  page := 1; count := 20; sort_type_arg := 0;
  sort_types := Some (u "0, 2..3");
  limit := 10;
  mode := Both;
  target_types := None;
  output := Some (u "out.json"); json_output := true;
  fetch_all := true; all_folders := false;
  max_pages := 200; stop_after_no_new := 3;
  expected := 1
|}.

Definition demo_run_expecting_one : run_state * outcome :=
  @run ascii_builtins demo_server demo_json_args 10.

Definition demo_first_record : pystr * export_record :=
  match drop 2 (log (fst demo_run_expecting_one)) with
  | EvRecord id r :: _ => (id, r)
  | _ => ([], WordRecord {| w_targetType := JNull; w_itemId := []; w_wordId := [];
                            w_spell := []; w_pron := []; w_accent := [];
                            w_excerpt := []; w_folder_id := [];
                            w_folder_title := []; w_sortType := 0 |})
  end.

(** A sentence without text, met for the first time. *)
Definition demo_blank : pydict := demo_item (demo_sentence "b" "" "w1").

Definition demo_blank_target : pydict :=
  match dict_get demo_blank (u "target") with JDict d => d | _ => [] end.

Definition demo_acc : page_acc :=
  {| acc_seen_in_folder := ∅; new_any_in_page := 0; new_selected_in_page := 0 |}.

Definition demo_blank_exported : run_state :=
  fst (@export_item ascii_builtins demo_server (demo_args None None 0)
         demo_fid demo_title 0 {[102; 103; 120]} demo_blank demo_acc initial_state).

(** The run scoped by a [pfid] under which discovery finds nothing. *)
Definition demo_scoped_args : cli_args := demo_args (Some (u "root")) None 0.

(** A word item that has no id at all. *)
Definition demo_anonymous_word : pydict := [(u "excerpt", JStr (u "meaning"))].

Definition demo_bare_word : pydict :=
  [(u "objectId", JStr (u "w1")); (u "excerpt", JStr (u "meaning"))].

(** The run whose type list does not parse. *)
Definition demo_bad_args : cli_args := demo_args None (Some (u "x")) 0.

Definition demo_bad_error : outcome :=
  Raises (SystemExit (u "Invalid --target-types entry: 'x'")).

(** A row whose target is not an object. *)
Definition demo_row_without_object : pydict :=
  [(u "targetType", JInt 103); (u "target", JNull)].

(** *** Further vocabulary *)

Definition is_content_call (e : event) : bool :=
  match e with
  | EvCallCF f _ => bool_decide (f = u "folder-fetchContentWithRelatives")
  | _ => false
  end.

(** How many folder pages the log shows fetched. *)
Definition content_calls (l : list event) : nat :=
  length (List.filter is_content_call l).

(** Line 281: [kw.lower() in title.lower()]. *)
Definition title_matches `{PyBuiltins} (kw : pystr) (f : pydict) : bool :=
  contains (py_lower kw)
           (py_lower (py_str (dict_get_default f (u "title") (JStr [])))).

(** An entry of a comma-separated list that is skipped. *)
Definition blank (part : pystr) : bool := negb (nonempty (strip part)).

(** The type tag a record carries. *)
Definition record_tag (r : export_record) : json :=
  match r with
  | SentenceRecord r => s_targetType r
  | WordRecord r => w_targetType r
  end.

Definition is_sentence_record (r : export_record) : bool :=
  match r with SentenceRecord _ => true | WordRecord _ => false end.

(** The entries of a comma-separated option value. *)
Definition list_parts (s : option pystr) : list pystr :=
  match s with
  | None | Some [] => []
  | Some s => split_on 44 s
  end.

(** The entry is kept and [int] accepts it. *)
Definition parses_to `{PyBuiltins} (part : pystr) (z : Z) : Prop :=
  blank part = false /\ py_int_of_str (strip part) = Some z.

(** The global stop flag is still down. *)
Definition not_stopped (s : run_state) : Prop := stop_everything s = false.

(** At most [expected] records so far, and fewer while the flag is down. *)
Definition within_expected (args : cli_args) (s : run_state) : Prop :=
  printed_total s = count_records (log s)
  /\ Z.of_nat (printed_total s) <= expected args
  /\ (stop_everything s = false -> Z.of_nat (printed_total s) < expected args).

(** Every cache entry comes from a word-detail call. *)
Definition cache_from_calls (s : run_state) : Prop :=
  forall w, is_Some (word_cache s !! w) -> w ∈ word_detail_ids (log s).

(** In JSON mode the buffer holds every record produced, under its
    identity. *)
Definition buffer_holds_records (args : cli_args) (s : run_state) : Prop :=
  dedup_inv args s
  /\ forall id r, EvRecord id r ∈ log s -> json_output args = true ->
                  results_by_id s !! id = Some r.

Definition buffer_holds_records_mid (args : cli_args) (id : pystr)
    (s : run_state) : Prop :=
  dedup_mid args id s
  /\ forall id' r, EvRecord id' r ∈ log s -> json_output args = true ->
                   results_by_id s !! id' = Some r.

(** The run did not end because the fuel ran out. *)
Definition finished {A} (r : res A) : Prop := r <> Halt OutOfFuel.

(** How many pages one (folder, sort type) pair may fetch. *)
Definition page_cap (args : cli_args) : nat :=
  if fetch_all args then Z.to_nat (max_pages args) else 1.

(** The type tag cannot be looked up in a set (it is a list or dict). *)
Definition unhashable_tag (allowed : gset Z) (it : pydict) : Prop :=
  py_in_int_set (dict_get it (u "targetType")) allowed = Halt (Raises TypeError).

(** Record [r] with identity [id] was built from item [it]: it carries
    the item's identity and type tag, the tag passes the type filter,
    and the kind of record follows the tag. *)
Definition record_from_item `{PyBuiltins} (allowed : gset Z) (it : pydict)
    (id : pystr) (r : export_record) : Prop :=
  identity_of it = Some id
  /\ record_tag r = dict_get it (u "targetType")
  /\ py_in_int_set (record_tag r) allowed = Val true
  /\ (if is_sentence_record r
      then py_eq_int (record_tag r) 103 || py_eq_int (record_tag r) 120 = true
      else py_eq_int (record_tag r) 103 || py_eq_int (record_tag r) 120 = false
           /\ py_eq_int (record_tag r) 102 = true).

(** The type tag of record [r] passes the type filter, and the kind of
    record follows the tag. *)
Definition record_allowed (allowed : gset Z) (r : export_record) : Prop :=
  py_in_int_set (record_tag r) allowed = Val true
  /\ (if is_sentence_record r
      then py_eq_int (record_tag r) 103 || py_eq_int (record_tag r) 120 = true
      else py_eq_int (record_tag r) 103 || py_eq_int (record_tag r) 120 = false
           /\ py_eq_int (record_tag r) 102 = true).

(** From [s] to [s'] the log gained only records that pass the filter. *)
Definition adds_allowed_records (allowed : gset Z) (s s' : run_state) : Prop :=
  forall id r, EvRecord id r ∈ log s' ->
               EvRecord id r ∈ log s \/ record_allowed allowed r.

(** The kind of record an export mode lets through when no explicit
    type list is given (lines 579-586). *)
Definition mode_admits (m : export_mode) (r : export_record) : Prop :=
  match m with
  | Sentences => is_sentence_record r = true
  | Words => is_sentence_record r = false
  | Both => True
  end.

(** The run ended through a [return] of [main] with an exit code, not
    through an exception. *)
Definition exits (o : outcome) : bool :=
  match o with Exits _ => true | _ => false end.

(** The two usage errors of lines 414-416 and 444-446. *)
Definition usage_error `{PyBuiltins} (args : cli_args) : bool :=
  negb (opt_truthy (session_token args))
  || (negb (opt_truthy (targets_for_item args))
      && json_output args && negb (opt_truthy (output args))).

(** *** More of the small account *)

(** A reply whose Parse result is null, and a server that always sends it. *)
Definition demo_null_reply : pydict := [(u "result", JNull)].

Definition demo_null_server : server := {|
  call_cf_reply := fun _ _ _ => inr (JDict demo_null_reply);
  word_detail_reply := fun _ _ => inl (u "HTTP 500");
  item_targets_reply := fun _ _ => inl (u "HTTP 404")
|}.

(** An item whose type tag is a list. *)
Definition demo_unhashable_item : pydict :=
  [(u "targetType", JList []);
   (u "target", JDict [(u "objectId", JStr (u "z"))])].

(** Single-page mode, two records at most. *)
Definition demo_single_args : cli_args := {|
  session_token := Some (u "token");
  pfid := None; folder_id_arg := None; targets_for_item := None;
  page := 1; count := 20; sort_type_arg := 0;
  sort_types := None;
  limit := 2;
  mode := Both;
  target_types := None;
  output := None; json_output := false;
  fetch_all := false; all_folders := false;
  max_pages := 0; stop_after_no_new := 3;
  expected := 0
|}.

(** No session token. *)
Definition demo_no_token_args : cli_args := {|
  session_token := None;
  pfid := None; folder_id_arg := None; targets_for_item := None;
  page := 1; count := 20; sort_type_arg := 0;
  sort_types := None;
  limit := 10;
  mode := Both;
  target_types := Some (u "x");
  output := None; json_output := true;
  fetch_all := false; all_folders := false;
  max_pages := 0; stop_after_no_new := 3;
  expected := 0
|}.

(** The diagnostic mode. *)
Definition demo_targets_args : cli_args := {|
  session_token := Some (u "token");
  pfid := None; folder_id_arg := None; targets_for_item := Some (u "item1");
  page := 1; count := 20; sort_type_arg := 0;
  sort_types := None;
  limit := 10;
  mode := Both;
  target_types := Some (u "x");
  output := None; json_output := true;
  fetch_all := false; all_folders := false;
  max_pages := 0; stop_after_no_new := 3;
  expected := 0
|}.

(** The page loop on page 1 of 3, with no page cap. *)
Definition demo_known_pages : folder_state :=
  {| page_index := 1; total_pages := Some 3; no_new_streak := 0;
     seen_item_ids_in_folder := ∅ |}.

(** The item loop on the first sentence of the account. *)
Definition demo_one_item : list pydict :=
  [demo_item (demo_sentence "a" "A" "w1")].

Definition demo_one_item_exported : run_state :=
  fst (@export_items ascii_builtins demo_server (demo_args None None 0)
         demo_fid demo_title 0 {[102; 103; 120]} demo_one_item demo_acc
         initial_state).

Definition demo_item_record : pystr * export_record :=
  match log demo_one_item_exported with
  | EvRecord id r :: _ => (id, r)
  | _ => demo_first_record
  end.

(** *** The folder pages a run asks for *)

(** The folder-page requests of a log, most recent first. *)
Definition content_events (l : list event) : list event :=
  List.filter is_content_call l.

(** The request for page [p] of folder [fid] under sort order [st]. *)
Definition content_call (args : cli_args) (fid : pystr) (st : Z)
    (allowed : gset Z) (p : Z) : event :=
  EvCallCF (u "folder-fetchContentWithRelatives")
           (content_params args fid st allowed p).

(** [e] asks for a page of folder [fid] under sort order [st], no
    earlier than page [from], and exactly that page without [--all]. *)
Definition page_request (args : cli_args) (fid : pystr) (st : Z)
    (allowed : gset Z) (from : Z) (e : event) : Prop :=
  exists p, from <= p /\ (fetch_all args = false -> p = from)
            /\ e = content_call args fid st allowed p.

Definition sort_request (args : cli_args) (fid : pystr) (allowed : gset Z)
    (sts : list Z) (e : event) : Prop :=
  exists st, st ∈ sts /\ page_request args fid st allowed (page args) e.

(** The first selected folder that has an identifier. *)
Definition first_with_id (folders : list (pystr * pystr))
  : option (pystr * pystr) :=
  List.find (fun x => nonempty (fst x)) folders.

Definition folder_request (args : cli_args) (allowed : gset Z) (sts : list Z)
    (folders : list (pystr * pystr)) (e : event) : Prop :=
  exists fid ft,
    (fid, ft) ∈ folders /\ nonempty fid = true
    /\ (fetch_all args = false -> first_with_id folders = Some (fid, ft))
    /\ sort_request args fid allowed sts e.

(** The folder-page request of the run that expects one item. *)
Definition demo_page_request : json :=
  match drop 4 (log (fst demo_run_expecting_one)) with
  | EvCallCF _ prm :: _ => prm
  | _ => JNull
  end.

(** ** Symbolic execution of the run monad *)

Ltac unfold_run :=
  unfold bind, ret, gets, modify, lift, halt, raise, try_except in *.

Ltac same_state :=
  simpl; unfold same_but_log; simpl; repeat split; done.

Ltac one_call := split; [same_state | by exists []].
Ltac two_calls := split; [same_state | by eexists [_]].

Section Execution.
Context `{PyBuiltins}.
Variable srv : server.
Variable args : cli_args.

Lemma ensure_word_cached_cases w s :
  (is_Some (word_cache s !! w) /\ ensure_word_cached srv w s = (s, Val tt))
  \/ (word_cache s !! w = None /\
      exists v, ensure_word_cached srv w s = (word_step w v s, Val tt)).
Proof.
  unfold ensure_word_cached, fetch_word_detail, gateway. unfold_run. simpl.
  destruct (word_cache s !! w) as [c|] eqn:Hc.
  - left. eauto.
  - right. split; [done|].
    destruct (word_detail_reply srv (log s) w) as [msg|body]; simpl; eauto.
Qed.

Lemma resolve_word_cases w s :
  exists s', resolve_word srv w s = (s', Val (word_of_response (word_cache s' !! w)))
    /\ ((is_Some (word_cache s !! w) /\ s' = s)
        \/ (word_cache s !! w = None /\ exists v, s' = word_step w v s)).
Proof.
  unfold resolve_word. unfold_run.
  destruct (ensure_word_cached_cases w s) as [[Hc E]|[Hc [v E]]]; rewrite E.
  - exists s. eauto.
  - exists (word_step w v s). split; [done|]. right. eauto.
Qed.

Lemma accept_record_eq id r s :
  accept_record args id r s =
    (accept_effects args id r s,
     Val (if expected_reached args (S (printed_total s)) then Break else Continue)).
Proof.
  unfold accept_record, accept_effects. unfold_run.
  destruct (json_output args); simpl;
    destruct (expected_reached args (S (printed_total s))); reflexivity.
Qed.

Lemma parent_word_cases target s :
  exists s1 word, maybe_word_step s s1 /\ parent_word srv target s = (s1, Val word).
Proof.
  unfold parent_word. unfold_run.
  destruct (nonempty (str_unless_none (dict_get target (u "wordId")))).
  - destruct (resolve_word_cases (str_unless_none (dict_get target (u "wordId"))) s)
      as (s1 & E & Hs1). rewrite E.
    assert (Hm : maybe_word_step s s1).
    { destruct Hs1 as [[_ ->]|[Hn [v ->]]]; [by left|right; eauto]. }
    destruct (word_of_response _); eauto.
  - exists s, ([], []). split; [by left|done].
Qed.

Lemma export_sentence_cases fid ft st tt target item_id id s :
  exists s1 word, maybe_word_step s s1
    /\ export_sentence srv args fid ft st tt target item_id id s =
         if nonempty (sentence_jp target)
         then accept_record args id
                (sentence_record_of fid ft st tt target item_id word) s1
         else (s1, Val Continue).
Proof.
  unfold export_sentence. unfold_run.
  destruct (parent_word_cases target s) as (s1 & word & Hm & E). rewrite E.
  exists s1, word. split; [exact Hm|].
  destruct (nonempty (sentence_jp target)); reflexivity.
Qed.

Lemma complete_word_fields_cases target s :
  exists s1 f, maybe_word_step s s1
    /\ complete_word_fields srv target s = (s1, Val f)
    /\ (f = inline_word_fields target
        \/ (needs_detail (word_id_s_of target) (inline_word_fields target) = true
            /\ f = fill_word_fields (inline_word_fields target)
                     (word_of_response (word_cache s1 !! word_id_s_of target)))).
Proof.
  unfold complete_word_fields. unfold_run.
  destruct (needs_detail _ _) eqn:Hn.
  - destruct (resolve_word_cases (word_id_s_of target) s) as (s1 & E & Hs1).
    rewrite E. eexists s1, _. split.
    { destruct Hs1 as [[_ ->]|[Hc [v ->]]]; [by left|right; eauto]. }
    split; [reflexivity|]. right. done.
  - eexists s, _. split; [by left|]. split; [reflexivity|]. by left.
Qed.

Lemma export_word_cases fid ft st tt target item_id id s :
  exists s1 f, maybe_word_step s s1
    /\ complete_word_fields srv target s = (s1, Val f)
    /\ export_word srv args fid ft st tt target item_id id s =
         if nonempty (f_spell f) || nonempty (f_excerpt f)
         then accept_record args id (word_record_of fid ft st tt target item_id f) s1
         else (s1, Val Continue).
Proof.
  unfold export_word. unfold_run.
  destruct (complete_word_fields_cases target s) as (s1 & f & Hm & E & _).
  rewrite E. exists s1, f. split; [exact Hm|]. split; [reflexivity|].
  destruct (nonempty (f_spell f) || nonempty (f_excerpt f)); reflexivity.
Qed.

End Execution.

(** ** Invariants of the traversal

    The traversal changes the shared state in six ways only: a page
    fetch, marking an identity globally seen, a fresh word-detail
    lookup while that identity is being classified, accepting its
    record, dropping it, and rewriting the progress file.  A property
    closed under these six steps holds along every run of
    [export_selected]. *)

Section Invariant.
Context `{PyBuiltins}.
Variable srv : server.
Variable args : cli_args.
Variable Inv : run_state -> Prop.
Variable Mid : pystr -> run_state -> Prop.

Hypothesis Inv_fetch : forall s p,
  Inv s -> stop_everything s = false ->
  Inv (add_event (EvCallCF (u "folder-fetchContentWithRelatives") p) s).
Hypothesis Inv_mark : forall s id,
  Inv s -> stop_everything s = false -> id ∉ seen_item_ids_global s ->
  Mid id (set_seen_global ({[id]} ∪ seen_item_ids_global s) s).
Hypothesis Mid_word : forall s id w v,
  Mid id s -> stop_everything s = false -> word_cache s !! w = None ->
  Mid id (word_step w v s).
Hypothesis Mid_accept : forall s id r,
  Mid id s -> stop_everything s = false -> Inv (accept_effects args id r s).
Hypothesis Mid_drop : forall s id, Mid id s -> Inv s.
Hypothesis Inv_rewrite : forall s f st p,
  Inv s -> Inv (add_event (EvRewrite f st p) s).

Lemma stop_accept_effects id r s :
  stop_everything (accept_effects args id r s) =
    stop_everything s || expected_reached args (S (printed_total s)).
Proof.
  unfold accept_effects.
  destruct (json_output args); simpl;
    destruct (expected_reached args (S (printed_total s))); simpl;
    by rewrite ?orb_true_r, ?orb_false_r.
Qed.

Lemma Mid_maybe_word_step id s s1 :
  maybe_word_step s s1 -> Mid id s -> stop_everything s = false ->
  Mid id s1 /\ stop_everything s1 = false.
Proof.
  intros [->|(w & v & Hc & ->)] HM Hs; [done|].
  split; [by apply Mid_word|done].
Qed.

Lemma accept_record_keeps id r s :
  Mid id s -> stop_everything s = false ->
  exists s' fl, accept_record args id r s = (s', Val fl)
    /\ Inv s' /\ (fl = Continue -> stop_everything s' = false).
Proof.
  intros HM Hs. rewrite accept_record_eq. eexists _, _. split; [reflexivity|].
  split; [by apply Mid_accept|].
  rewrite stop_accept_effects, Hs. simpl.
  by destruct (expected_reached args (S (printed_total s))).
Qed.

Lemma export_sentence_keeps fid ft st tt target item_id id s :
  Mid id s -> stop_everything s = false ->
  exists s' fl, export_sentence srv args fid ft st tt target item_id id s = (s', Val fl)
    /\ Inv s' /\ (fl = Continue -> stop_everything s' = false).
Proof.
  intros HM Hs.
  destruct (export_sentence_cases srv args fid ft st tt target item_id id s)
    as (s1 & word & Hm & E).
  destruct (Mid_maybe_word_step id s s1 Hm HM Hs) as [HM1 Hs1].
  rewrite E. destruct (nonempty (sentence_jp target)).
  - by apply accept_record_keeps.
  - exists s1, Continue. eauto.
Qed.

Lemma export_word_keeps fid ft st tt target item_id id s :
  Mid id s -> stop_everything s = false ->
  exists s' fl, export_word srv args fid ft st tt target item_id id s = (s', Val fl)
    /\ Inv s' /\ (fl = Continue -> stop_everything s' = false).
Proof.
  intros HM Hs.
  destruct (export_word_cases srv args fid ft st tt target item_id id s)
    as (s1 & f & Hm & _ & E).
  destruct (Mid_maybe_word_step id s s1 Hm HM Hs) as [HM1 Hs1].
  rewrite E. destruct (nonempty (f_spell f) || nonempty (f_excerpt f)).
  - by apply accept_record_keeps.
  - exists s1, Continue. eauto.
Qed.

Lemma classify_item_keeps fid ft st tt target item_id id s :
  Mid id s -> stop_everything s = false ->
  exists s' fl, classify_item srv args fid ft st tt target item_id id s = (s', Val fl)
    /\ Inv s' /\ (fl = Continue -> stop_everything s' = false).
Proof.
  intros HM Hs. unfold classify_item.
  destruct (py_eq_int tt 103 || py_eq_int tt 120).
  - by apply export_sentence_keeps.
  - destruct (py_eq_int tt 102).
    + by apply export_word_keeps.
    + exists s, Continue. eauto.
Qed.

Lemma export_item_keeps fid ft st allowed it acc :
  keeps Inv (running Inv) (export_item srv args fid ft st allowed it acc)
        (fun r s' => snd r = Continue -> stop_everything s' = false).
Proof.
  intros s [HI Hs]. unfold export_item.
  destruct (dict_get it (u "target")) as [| | | | | |target]; try done.
  set (tt := dict_get it (u "targetType")).
  set (id := item_id_s_of tt (item_id_of target)).
  destruct (fetch_all args && bool_decide (id ∈ acc_seen_in_folder acc)); [done|].
  unfold bind at 1. unfold lift.
  destruct (py_in_int_set tt allowed) as [[|]|o]; simpl; [|done|done].
  unfold bind at 1. unfold gets.
  destruct (bool_decide (id ∈ seen_item_ids_global s)) eqn:Hseen; [done|].
  apply bool_decide_eq_false in Hseen.
  unfold bind at 1. unfold modify.
  pose proof (Inv_mark s id HI Hs Hseen) as HM.
  set (s1 := set_seen_global _ s) in *.
  assert (Hs1 : stop_everything s1 = false) by done.
  unfold bind at 1.
  destruct (classify_item_keeps fid ft st tt target (item_id_of target) id s1 HM Hs1)
    as (s' & fl & -> & HI' & Hfl).
  destruct fl; unfold_run; simpl.
  - destruct (negb (fetch_all args) && (limit args <=? Z.of_nat (printed_total s')));
      simpl; auto.
  - split; [done|]. discriminate.
Qed.

Lemma export_items_keeps fid ft st allowed items acc :
  keeps Inv (running Inv) (export_items srv args fid ft st allowed items acc)
        (fun _ _ => True).
Proof.
  revert acc. induction items as [|it rest IH]; intros acc s Hrun.
  - simpl. unfold ret. by destruct Hrun.
  - simpl. unfold bind.
    pose proof (export_item_keeps fid ft st allowed it acc s Hrun) as Hit.
    destruct (export_item srv args fid ft st allowed it acc s) as [s1 [[acc1 fl]|o]];
      [|done].
    destruct Hit as [HI1 Hfl]. simpl in *. destruct fl.
    + apply IH. split; auto.
    + unfold ret. done.
Qed.

Lemma rewrite_keeps fid st p :
  keeps Inv Inv (_rewrite_json_progress args fid st p)
        (fun _ _ => True).
Proof.
  intros s HI. unfold _rewrite_json_progress. unfold_run.
  destruct (json_output args); simpl; [|done].
  destruct (opt_truthy (output args)); simpl; [|done].
  split; [by apply Inv_rewrite|done].
Qed.

Lemma rewrite_stop fid st p s :
  stop_everything (fst (_rewrite_json_progress args fid st p s)) = stop_everything s.
Proof.
  unfold _rewrite_json_progress. unfold_run.
  destruct (json_output args); simpl; [|done].
  by destruct (opt_truthy (output args)).
Qed.

Lemma fetch_page_keeps fid st allowed p :
  keeps Inv (running Inv) (fetch_page srv args fid st allowed p)
        (fun _ s' => stop_everything s' = false).
Proof.
  intros s [HI Hs]. unfold fetch_page, call_cf, gateway. unfold_run.
  pose proof (Inv_fetch s (content_params args fid st allowed p) HI Hs) as HI1.
  destruct (call_cf_reply srv (log s) _ _) as [msg|body]; [done|].
  destruct (_unwrap_parse_result body) as [payload|o]; [|done].
  destruct (py_int _) as [code|o]; [|done].
  destruct (negb (code =? 200)); done.
Qed.

Lemma export_page_keeps fid ft st allowed fs :
  keeps Inv Inv (export_page srv args fid ft st allowed fs) (fun _ _ => True).
Proof.
  intros s HI. unfold export_page. unfold bind at 1. unfold gets.
  destruct (stop_everything s) eqn:Hs; [done|].
  unfold bind at 1.
  pose proof (fetch_page_keeps fid st allowed (page_index fs) s (conj HI Hs)) as Hf.
  destruct (fetch_page srv args fid st allowed (page_index fs) s)
    as [s1 [payload|o]]; [|done].
  destruct Hf as [HI1 Hs1].
  destruct (_iter_items_from_folder_content payload) as [|it rest]; [done|].
  unfold bind at 1.
  match goal with |- context [export_items ?a ?b ?c ?d ?e ?f ?g ?h s1] =>
    pose proof (export_items_keeps c d e f g h s1 (conj HI1 Hs1)) as Hit;
    destruct (export_items a b c d e f g h s1) as [s2 [acc|o]]; [|done]
  end.
  destruct Hit as [HI2 _].
  unfold bind at 1. unfold gets.
  destruct (stop_everything s2) eqn:Hs2; [done|].
  unfold bind at 1.
  pose proof (rewrite_keeps fid st (page_index fs) s2 HI2) as Hr.
  destruct (_rewrite_json_progress args fid st (page_index fs) s2)
    as [s3 [[]|o]]; [|done].
  destruct Hr as [HI3 _].
  destruct (negb (fetch_all args)); [done|].
  unfold_run. by destruct (stop_everything s3 || pair_exhausted args _).
Qed.

Lemma page_loop_keeps fid ft st allowed fuel fs :
  keeps Inv Inv (page_loop srv args fid ft st allowed fuel fs) (fun _ _ => True).
Proof.
  revert fs. induction fuel as [|fuel IH]; intros fs s HI; [done|].
  simpl. unfold bind.
  pose proof (export_page_keeps fid ft st allowed fs s HI) as Hp.
  destruct (export_page srv args fid ft st allowed fs s) as [s1 [r|o]]; [|done].
  destruct Hp as [HI1 _]. destruct r; [by apply IH|done|done].
Qed.

Lemma export_one_folder_keeps fid ft st allowed fuel :
  keeps Inv Inv (_export_one_folder srv args fid ft st allowed fuel) (fun _ _ => True).
Proof.
  intros s HI. unfold _export_one_folder. unfold bind.
  match goal with |- context [page_loop ?a ?b ?c ?d ?e ?f ?g ?h s] =>
    pose proof (page_loop_keeps c d e f g h s HI) as Hl;
    destruct (page_loop a b c d e f g h s) as [s1 [r|o]]; [|done]
  end.
  destruct Hl as [HI1 _]. destruct r; [by apply rewrite_keeps|done].
Qed.

Lemma sort_loop_keeps fuel fid ft allowed sts :
  keeps Inv Inv (sort_loop srv args fuel fid ft allowed sts) (fun _ _ => True).
Proof.
  induction sts as [|st rest IH]; intros s HI; [done|].
  simpl. unfold bind at 1.
  pose proof (export_one_folder_keeps fid ft st allowed fuel s HI) as He.
  destruct (_export_one_folder srv args fid ft st allowed fuel s) as [s1 [[]|o]];
    [|done].
  destruct He as [HI1 _]. unfold bind, gets.
  destruct (stop_everything s1); [done|by apply IH].
Qed.

Lemma folder_loop_keeps fuel allowed sts folders :
  keeps Inv Inv (folder_loop srv args fuel allowed sts folders) (fun _ _ => True).
Proof.
  induction folders as [|[fid ft] rest IH]; intros s HI; [done|].
  simpl. destruct (negb (nonempty fid)); [by apply IH|].
  unfold bind at 1.
  pose proof (sort_loop_keeps fuel fid ft allowed sts s HI) as Hl.
  destruct (sort_loop srv args fuel fid ft allowed sts s) as [s1 [[]|o]]; [|done].
  destruct Hl as [HI1 _]. unfold bind, gets.
  destruct (stop_everything s1); [done|].
  destruct (negb (fetch_all args)); [done|by apply IH].
Qed.

Lemma export_selected_keeps fuel folders :
  keeps Inv Inv (export_selected srv args fuel folders) (fun _ _ => True).
Proof.
  intros s HI. unfold export_selected. unfold bind at 1. unfold lift.
  destruct (_parse_target_types (target_types args)) as [explicit|o]; [|done].
  unfold bind at 1.
  destruct (_parse_sort_types (sort_types args)) as [sorts|o]; [|done].
  unfold bind at 1.
  match goal with |- context [folder_loop ?a ?b ?c ?d ?e ?f s] =>
    pose proof (folder_loop_keeps c d e f s HI) as Hl;
    destruct (folder_loop a b c d e f s) as [s1 [[]|o]]; [|done]
  end.
  destruct Hl as [HI1 _].
  destruct folders as [|[fid0 ft0] ?]; [done|].
  destruct (active_sort_types_of args sorts) as [|st0 ?]; [done|].
  unfold bind. destruct (json_output args).
  - pose proof (rewrite_keeps fid0 st0 (page args) s1 HI1) as Hr.
    destruct (_rewrite_json_progress args fid0 st0 (page args) s1) as [s2 [[]|o]];
      [|done].
    by destruct Hr.
  - done.
Qed.

(** A property closed under the six steps holds after
    [export_selected], however it ends. *)
Lemma export_selected_invariant fuel folders s :
  Inv s -> Inv (fst (export_selected srv args fuel folders s)).
Proof.
  intros HI. pose proof (export_selected_keeps fuel folders s HI) as Hk.
  destruct (export_selected srv args fuel folders s) as [s1 [code|o]]; simpl.
  - by destruct Hk.
  - done.
Qed.

End Invariant.

(** ** What happens before the traversal *)

Section Prelude.
Context `{PyBuiltins}.
Variable srv : server.
Variable args : cli_args.

Lemma discover_folders_fallback s :
  opt_truthy (pfid args) = true -> discovery_found_nothing srv args s ->
  same_but_log s (fst (discover_folders srv args s))
  /\ log (fst (discover_folders srv args s)) =
       EvCallCF (u "fetchMyFolders") (JDict [])
       :: EvCallCF (u "fetchMyFolders") (folders_params args) :: log s.
Proof.
  intros Hp (resp & payload & Hr & Hu & Hc & Hl).
  unfold discover_folders, call_cf, gateway. unfold_run. fold (folders_params args).
  rewrite Hr, Hu, Hc, Hl, Hp. simpl. clear Hr.
  destruct (call_cf_reply srv _ _ _) as [msg|resp2]; [same_state|].
  destruct (_unwrap_parse_result resp2) as [payload2|o]; [|same_state].
  destruct (folders_code payload2) as [code2|o]; [|same_state].
  destruct (dict_get payload2 (u "result")); same_state.
Qed.

Lemma discover_folders_single s :
  opt_truthy (pfid args) = false \/ ~ discovery_found_nothing srv args s ->
  same_but_log s (fst (discover_folders srv args s))
  /\ log (fst (discover_folders srv args s)) =
       EvCallCF (u "fetchMyFolders") (folders_params args) :: log s.
Proof.
  intros Hno.
  unfold discover_folders, call_cf, gateway. unfold_run. fold (folders_params args).
  destruct (call_cf_reply srv (log s) (u "fetchMyFolders") (folders_params args))
    as [msg|resp] eqn:Hr; [same_state|].
  destruct (_unwrap_parse_result resp) as [payload|o] eqn:Hu; [|same_state].
  destruct (folders_code payload) as [code|o] eqn:Hc; [|same_state].
  destruct (code =? 200) eqn:Hcode; simpl; [|same_state].
  apply Z.eqb_eq in Hcode. subst code.
  destruct (dict_get payload (u "result")) as [| | | | |folders|] eqn:Hl;
    try same_state.
  destruct (opt_truthy (pfid args)) eqn:Hp; simpl; [|same_state].
  destruct folders as [|f fs]; simpl; [|same_state].
  exfalso. destruct Hno as [?|Hno]; [done|].
  apply Hno. by exists resp, payload.
Qed.

Lemma discover_folders_shape s :
  same_but_log s (fst (discover_folders srv args s))
  /\ exists ext, log (fst (discover_folders srv args s)) =
                   ext ++ EvCallCF (u "fetchMyFolders") (folders_params args) :: log s
                 /\ forallb is_prelude_event ext = true.
Proof.
  unfold discover_folders, call_cf, gateway. unfold_run. fold (folders_params args).
  destruct (call_cf_reply srv (log s) (u "fetchMyFolders") (folders_params args))
    as [msg|resp]; [one_call|].
  destruct (_unwrap_parse_result resp) as [payload|o]; [|one_call].
  destruct (folders_code payload) as [code|o]; [|one_call].
  destruct (negb (code =? 200)); [one_call|].
  destruct (dict_get payload (u "result")) as [| | | | |folders|]; try one_call.
  destruct (opt_truthy (pfid args) && (length folders =? 0)%nat); [|one_call].
  destruct (call_cf_reply srv _ _ _) as [msg|resp2]; [two_calls|].
  destruct (_unwrap_parse_result resp2) as [payload2|o]; [|two_calls].
  destruct (folders_code payload2) as [code2|o]; [|two_calls].
  destruct (dict_get payload2 (u "result")); two_calls.
Qed.

(** When the prelude hands folders on, discovery has been called. *)
Lemma main_prelude_discovered s s1 folders :
  main_prelude srv args s = (s1, Val folders) ->
  same_but_log s s1
  /\ exists ext, log s1 = ext ++ EvCallCF (u "fetchMyFolders") (folders_params args) :: log s
                 /\ forallb is_prelude_event ext = true.
Proof.
  unfold main_prelude.
  destruct (negb (opt_truthy (session_token args))); [done|].
  destruct (opt_truthy (targets_for_item args)).
  { unfold fetch_item_targets, gateway. unfold_run.
    by destruct (item_targets_reply srv _ _). }
  destruct (json_output args && negb (opt_truthy (output args))); [done|].
  unfold bind, lift.
  pose proof (discover_folders_shape s) as Hd.
  destruct (discover_folders srv args s) as [s2 [found|o]]; simpl in *; [|done].
  destruct (select_export_folders args found); [|done].
  by intros [= <- _].
Qed.

Lemma main_prelude_shape s :
  same_but_log s (fst (main_prelude srv args s))
  /\ exists ext, log (fst (main_prelude srv args s)) = ext ++ log s
                 /\ forallb is_prelude_event ext = true.
Proof.
  unfold main_prelude.
  destruct (negb (opt_truthy (session_token args))).
  { split; [same_state|]. by exists []. }
  destruct (opt_truthy (targets_for_item args)).
  { unfold fetch_item_targets, gateway. unfold_run.
    destruct (item_targets_reply srv _ _); (split; [same_state | by eexists [_]]). }
  destruct (json_output args && negb (opt_truthy (output args))).
  { split; [same_state|]. by exists []. }
  unfold bind, lift.
  destruct (discover_folders_shape s) as [Hsame (ext & Hlog & Hext)].
  assert (Hd : same_but_log s (fst (discover_folders srv args s))
               /\ exists ext', log (fst (discover_folders srv args s)) = ext' ++ log s
                               /\ forallb is_prelude_event ext' = true).
  { split; [done|].
    exists (ext ++ [EvCallCF (u "fetchMyFolders") (folders_params args)]).
    rewrite <- app_assoc. split; [done|].
    rewrite forallb_app, Hext. done. }
  clear Hsame Hlog Hext.
  destruct (discover_folders srv args s) as [s1 [folders|o]]; simpl in *; [|done].
  by destruct (select_export_folders args folders).
Qed.

End Prelude.

(** ** Invariants of a whole run *)

Lemma accept_effects_log args id r s :
  log (accept_effects args id r s) = EvRecord id r :: log s.
Proof.
  unfold accept_effects.
  destruct (json_output args); simpl; by destruct (expected_reached _ _).
Qed.

Lemma accept_effects_seen args id r s :
  seen_item_ids_global (accept_effects args id r s) = seen_item_ids_global s.
Proof.
  unfold accept_effects.
  destruct (json_output args); simpl; by destruct (expected_reached _ _).
Qed.

Lemma accept_effects_word_cache args id r s :
  word_cache (accept_effects args id r s) = word_cache s.
Proof.
  unfold accept_effects.
  destruct (json_output args); simpl; by destruct (expected_reached _ _).
Qed.

Lemma accept_effects_printed args id r s :
  printed_total (accept_effects args id r s) = S (printed_total s).
Proof.
  unfold accept_effects.
  destruct (json_output args); simpl; by destruct (expected_reached _ _).
Qed.

Lemma prelude_events_no_records ext :
  forallb is_prelude_event ext = true ->
  record_ids ext = [] /\ word_detail_ids ext = [].
Proof.
  induction ext as [|e ext IH]; [done|]. simpl.
  intros [He Hext]%andb_prop. destruct (IH Hext) as [IH1 IH2].
  destruct e; simpl in *; try done.
Qed.

(** A property closed under the six steps, and true of every state the
    prelude can leave, holds at the end of every run. *)
Lemma run_invariant `{PyBuiltins} (srv : server) (args : cli_args)
    (Inv : run_state -> Prop) (Mid : pystr -> run_state -> Prop) :
  (forall s p, Inv s -> stop_everything s = false ->
     Inv (add_event (EvCallCF (u "folder-fetchContentWithRelatives") p) s)) ->
  (forall s id, Inv s -> stop_everything s = false ->
     id ∉ seen_item_ids_global s ->
     Mid id (set_seen_global ({[id]} ∪ seen_item_ids_global s) s)) ->
  (forall s id w v, Mid id s -> stop_everything s = false ->
     word_cache s !! w = None -> Mid id (word_step w v s)) ->
  (forall s id r, Mid id s -> stop_everything s = false ->
     Inv (accept_effects args id r s)) ->
  (forall s id, Mid id s -> Inv s) ->
  (forall s f st p, Inv s -> Inv (add_event (EvRewrite f st p) s)) ->
  (forall s ext, same_but_log initial_state s -> log s = ext ->
     forallb is_prelude_event ext = true -> Inv s) ->
  forall fuel, Inv (fst (run srv args fuel)).
Proof.
  intros H1 H2 H3 H4 H5 H6 Hbase fuel. unfold run, main, bind.
  destruct (main_prelude_shape srv args initial_state) as [Hsame (ext & Hlog & Hext)].
  simpl in Hlog. rewrite app_nil_r in Hlog.
  destruct (main_prelude srv args initial_state) as [s1 [folders|o]]; simpl in *.
  - pose proof (export_selected_invariant srv args Inv Mid H1 H2 H3 H4 H5 H6
                  fuel folders s1 (Hbase s1 ext Hsame Hlog Hext)) as HI.
    by destruct (export_selected srv args fuel folders s1) as [s2 [code|o]].
  - by eapply Hbase.
Qed.

(** *** Global deduplication *)

Lemma accept_effects_results args id r s :
  results_by_id (accept_effects args id r s) =
    if json_output args then <[id := r]> (results_by_id s) else results_by_id s.
Proof.
  unfold accept_effects.
  destruct (json_output args); simpl; by destruct (expected_reached _ _).
Qed.

Lemma dedup_accept args s id r :
  dedup_mid args id s -> dedup_inv args (accept_effects args id r s).
Proof.
  intros [(Hnd & Hsub & Hpr & Hres) (Hin & Hfresh)]. unfold dedup_inv.
  rewrite accept_effects_log, accept_effects_seen, accept_effects_printed,
    accept_effects_results. simpl.
  split; [by apply NoDup_cons|].
  split; [intros x [->|Hx]%elem_of_cons; auto|].
  split; [by rewrite Hpr|].
  intros x. rewrite elem_of_cons. destruct (json_output args) eqn:Hj.
  - rewrite lookup_insert_is_Some, Hres. split.
    + intros [->|[_ [_ Hx]]]; auto.
    + intros [_ [->|Hx]]; [by left|].
      destruct (decide (id = x)); [by left|right; auto].
  - rewrite Hres. split; intros [? _]; done.
Qed.

Lemma dedup_run `{PyBuiltins} (srv : server) (args : cli_args) (fuel : nat) :
  dedup_inv args (fst (run srv args fuel)).
Proof.
  apply (run_invariant srv args (dedup_inv args) (dedup_mid args)).
  - intros s p HI _. exact HI.
  - intros s id (Hnd & Hsub & Hpr & Hres) _ Hfresh.
    split; [|split].
    + split; [done|]. split; [|done]. simpl. intros x Hx.
      by apply elem_of_union_r, Hsub.
    + simpl. by apply elem_of_union_l, elem_of_singleton.
    + simpl. intros Hin. by apply Hfresh, Hsub.
  - intros s id w v HM _ _. exact HM.
  - intros s id r HM _. by apply dedup_accept.
  - by intros s id [HI _].
  - intros s f st p HI. exact HI.
  - intros s ext (_ & _ & Hp & _ & Hr) Hlog Hext.
    destruct (prelude_events_no_records ext Hext) as [Hrec _].
    unfold dedup_inv. rewrite Hlog, Hrec, Hp, Hr. simpl.
    split; [constructor|]. split; [by intros x ?%elem_of_nil|]. split; [done|].
    intros x. rewrite lookup_empty. split.
    + by intros [? ?].
    + by intros [_ ?%elem_of_nil].
Qed.

(** C1. In every run, however it ends, no two export records carry the
    same item identity: the identities of the records produced, in the
    order of production, form a list without repetition; the count
    [printed_total] is the number of records produced; and the buffered
    map [results_by_id] holds an entry exactly for the identities of
    the records produced in JSON mode. *)
Theorem one_record_per_identity `{PyBuiltins} (srv : server) (args : cli_args)
    (fuel : nat) :
  let final := fst (run srv args fuel) in
  NoDup (record_ids (log final))
  /\ printed_total final = length (record_ids (log final))
  /\ forall id, is_Some (results_by_id final !! id) <->
                json_output args = true /\ id ∈ record_ids (log final).
Proof.
  destruct (dedup_run srv args fuel) as (Hnd & _ & Hp & Hr). simpl. auto.
Qed.

(** *** Word Resolution Cache *)

Lemma word_cache_run `{PyBuiltins} (srv : server) (args : cli_args) (fuel : nat) :
  word_cache_inv (fst (run srv args fuel)).
Proof.
  apply (run_invariant srv args word_cache_inv (fun _ => word_cache_inv)).
  - intros s p HI _. exact HI.
  - intros s id HI _ _. exact HI.
  - intros s id w v [Hnd Hsub] _ Hw. split; simpl.
    + apply NoDup_cons. split; [|done].
      intros Hin. apply Hsub in Hin. rewrite Hw in Hin. by destruct Hin.
    + intros x [->|Hx]%elem_of_cons.
      * rewrite lookup_insert_eq. eauto.
      * rewrite lookup_insert_is_Some. destruct (decide (w = x)); auto.
  - intros s id r [Hnd Hsub] _. unfold word_cache_inv.
    by rewrite accept_effects_log, accept_effects_word_cache.
  - done.
  - intros s f st p HI. exact HI.
  - intros s ext _ Hlog Hext.
    destruct (prelude_events_no_records ext Hext) as [_ Hw].
    unfold word_cache_inv. rewrite Hlog, Hw.
    split; [constructor|by intros x ?%elem_of_nil].
Qed.

Lemma resolve_word_hit `{PyBuiltins} (srv : server) w s :
  is_Some (word_cache s !! w) ->
  resolve_word srv w s = (s, Val (word_of_response (word_cache s !! w))).
Proof.
  intros [c Hc]. unfold resolve_word, ensure_word_cached. unfold_run.
  rewrite Hc. simpl. by rewrite Hc.
Qed.

Lemma resolve_word_miss `{PyBuiltins} (srv : server) w s :
  word_cache s !! w = None ->
  resolve_word srv w s =
    (word_step w (word_cache_entry srv w s) s,
     Val (word_of_response (Some (word_cache_entry srv w s)))).
Proof.
  intros Hc.
  unfold resolve_word, ensure_word_cached, fetch_word_detail, gateway,
    word_cache_entry. unfold_run.
  rewrite Hc. destruct (word_detail_reply srv (log s) w); simpl;
    by rewrite lookup_insert_eq.
Qed.

(** C4. In every run the word-detail endpoint is called at most once
    per word id, and every id it was called for still has its cache
    entry when the run ends.  A resolve of an id that is in the cache
    returns what the cache holds (a response or an error sentinel)
    without a call and without changing the state; a resolve of an id
    that is not in the cache makes one call and stores the response, or
    the error sentinel when the call fails; and no resolve removes or
    changes the entry of another id. *)
Theorem word_detail_called_once `{PyBuiltins} (srv : server) (args : cli_args)
    (fuel : nat) :
  let final := fst (run srv args fuel) in
  NoDup (word_detail_ids (log final))
  /\ (forall w, w ∈ word_detail_ids (log final) -> is_Some (word_cache final !! w))
  /\ (forall w s, is_Some (word_cache s !! w) ->
        resolve_word srv w s = (s, Val (word_of_response (word_cache s !! w))))
  /\ (forall w s, word_cache s !! w = None ->
        resolve_word srv w s =
          (word_step w (word_cache_entry srv w s) s,
           Val (word_of_response (Some (word_cache_entry srv w s)))))
  /\ (forall w w' s, is_Some (word_cache s !! w') ->
        word_cache (fst (resolve_word srv w s)) !! w' = word_cache s !! w').
Proof.
  destruct (word_cache_run srv args fuel) as [Hnd Hsub]. simpl.
  split; [done|]. split; [done|].
  split; [apply resolve_word_hit|]. split; [apply resolve_word_miss|].
  intros w w' s Hw'.
  destruct (word_cache s !! w) eqn:Hw.
  - by rewrite resolve_word_hit.
  - rewrite resolve_word_miss by done. simpl.
    apply lookup_insert_ne. intros ->. rewrite Hw in Hw'. by destruct Hw'.
Qed.

(** *** Early stop on the expected count *)

Lemma quiet_prelude n ext :
  0 < n -> forallb is_prelude_event ext = true -> quiet n ext.
Proof.
  intros Hn. induction ext as [|e ext IH]; [done|]. simpl.
  intros [He Hext]%andb_prop. split; [|auto].
  intros _. unfold count_records.
  destruct (prelude_events_no_records ext Hext) as [-> _]. simpl. lia.
Qed.

Lemma count_records_app l1 l2 :
  count_records (l1 ++ l2) = (count_records l1 + count_records l2)%nat.
Proof. unfold count_records, record_ids. by rewrite omap_app, length_app. Qed.

Lemma count_records_record id r l :
  count_records (EvRecord id r :: l) = S (count_records l).
Proof. done. Qed.

Lemma quiet_after_record n newer e older :
  quiet n (newer ++ e :: older) -> is_record e = true ->
  n <= Z.of_nat (count_records older) + 1 ->
  Forall (fun e' => is_gateway e' = false) newer.
Proof.
  intros Hq He Hn. induction newer as [|e' newer IH]; [constructor|].
  simpl in Hq. destruct Hq as [Hg Hq]. constructor; [|auto].
  destruct (is_gateway e') eqn:Hge; [|done]. exfalso.
  specialize (Hg eq_refl). destruct e; try discriminate.
  rewrite count_records_app, count_records_record in Hg. lia.
Qed.

Lemma expected_run `{PyBuiltins} (srv : server) (args : cli_args) (fuel : nat) :
  fetch_all args = true -> 0 < expected args ->
  expected_inv args (fst (run srv args fuel)).
Proof.
  intros Hall Hexp.
  apply (run_invariant srv args (expected_inv args) (fun _ => expected_inv args)).
  - intros s p (Hp & Hq & Hs) Hstop. split; [done|]. split; [|done].
    simpl. split; [|done]. intros _. rewrite <- Hp. auto.
  - intros s id HI _ _. exact HI.
  - intros s id w v (Hp & Hq & Hs) Hstop _. split; [done|]. split; [|done].
    simpl. split; [|done]. intros _. rewrite <- Hp. auto.
  - intros s id r (Hp & Hq & Hs) Hstop. unfold expected_inv.
    rewrite accept_effects_log, accept_effects_printed, stop_accept_effects, Hstop.
    unfold count_records in *. simpl. split; [by rewrite Hp|].
    split; [split; [done|exact Hq]|].
    unfold expected_reached. rewrite Hall. simpl.
    destruct (0 <? expected args) eqn:H0; [|lia]. simpl.
    intros Hle. apply Z.leb_gt in Hle. lia.
  - done.
  - intros s f st p (Hp & Hq & Hs). split; [done|]. split; [|done].
    simpl. split; [done|exact Hq].
  - intros s ext (_ & _ & Hp & Hst & _) Hlog Hext. unfold expected_inv.
    rewrite Hlog, Hp. unfold count_records.
    destruct (prelude_events_no_records ext Hext) as [-> _]. simpl.
    split; [done|]. split; [by apply quiet_prelude|]. intros _. lia.
Qed.

(** C3. In [--all] mode with an expected count N > 0: once the record
    that brings the number of records produced to N (or beyond) has been
    produced, nothing that follows it in the run is a gateway call --
    no page fetch and no word-detail lookup -- and the run ends with
    the global stop flag set.  (The log lists the most recent event
    first, so [newer] is what followed the record and [older] what
    preceded it.) *)
Theorem expected_count_stops_gateway `{PyBuiltins} (srv : server)
    (args : cli_args) (fuel : nat) (newer older : list event)
    (id : pystr) (r : export_record) :
  fetch_all args = true ->
  0 < expected args ->
  log (fst (run srv args fuel)) = newer ++ EvRecord id r :: older ->
  expected args <= Z.of_nat (count_records older) + 1 ->
  Forall (fun e => is_gateway e = false) newer
  /\ stop_everything (fst (run srv args fuel)) = true.
Proof.
  intros Hall Hexp Hlog Hn.
  destruct (expected_run srv args fuel Hall Hexp) as (Hp & Hq & Hs).
  rewrite Hlog in Hq, Hp. split.
  - by eapply quiet_after_record.
  - destruct (stop_everything _); [done|]. specialize (Hs eq_refl).
    rewrite Hp, count_records_app, count_records_record in Hs. lia.
Qed.

(** *** Folder discovery *)

Lemma content_call_not_discovery p :
  is_discovery_call (EvCallCF (u "folder-fetchContentWithRelatives") p) = false.
Proof.
  unfold is_discovery_call. apply bool_decide_eq_false_2.
  vm_compute. discriminate.
Qed.

Lemma discovery_call_is_discovery p :
  is_discovery_call (EvCallCF (u "fetchMyFolders") p) = true.
Proof. unfold is_discovery_call. by apply bool_decide_eq_true_2. Qed.

Lemma export_selected_discovery_calls `{PyBuiltins} (srv : server)
    (args : cli_args) fuel folders s :
  discovery_calls (log (fst (export_selected srv args fuel folders s))) =
    discovery_calls (log s).
Proof.
  apply (export_selected_invariant srv args
           (fun s' => discovery_calls (log s') = discovery_calls (log s))
           (fun _ s' => discovery_calls (log s') = discovery_calls (log s))).
  - intros s' p HI _. unfold discovery_calls in *.
    cbn [log add_event List.filter]. by rewrite content_call_not_discovery.
  - intros s' id HI _ _. exact HI.
  - intros s' id w v HI _ _. exact HI.
  - intros s' id r HI _. by rewrite accept_effects_log.
  - done.
  - intros s' f st p HI. exact HI.
  - done.
Qed.

Lemma run_discovery_calls `{PyBuiltins} (srv : server) (args : cli_args) fuel :
  reaches_discovery args = true ->
  discovery_calls (log (fst (run srv args fuel))) =
    discovery_calls (log (fst (discover_folders srv args initial_state))).
Proof.
  unfold reaches_discovery. intros [[Ht Hi]%andb_prop Hj]%andb_prop.
  apply negb_true_iff in Hi, Hj.
  unfold run, main, main_prelude. rewrite Ht, Hi, Hj. simpl.
  unfold bind at 1. unfold bind at 1. unfold lift.
  destruct (discover_folders srv args initial_state) as [s1 [folders|o]];
    simpl; [|done].
  destruct (select_export_folders args folders) as [export_folders|o]; [|done].
  pose proof (export_selected_discovery_calls srv args fuel export_folders s1) as E.
  by destruct (export_selected srv args fuel export_folders s1) as [s2 [code|o]].
Qed.

(** C6. In every run that gets as far as folder discovery: when a
    non-empty [pfid] is supplied and the first [fetchMyFolders] call
    succeeds with an empty folder list, the run makes exactly one more
    [fetchMyFolders] call, with no parameters, and none after it; when
    [pfid] is absent or empty, or the first call fails or returns a
    non-empty list, the first call is the only [fetchMyFolders] call of
    the run.  (Most recent call first.) *)
Theorem discovery_fallback_once `{PyBuiltins} (srv : server) (args : cli_args)
    (fuel : nat) :
  reaches_discovery args = true ->
  let calls := discovery_calls (log (fst (run srv args fuel))) in
  (opt_truthy (pfid args) = true ->
   discovery_found_nothing srv args initial_state ->
   calls = [EvCallCF (u "fetchMyFolders") (JDict []);
            EvCallCF (u "fetchMyFolders") (folders_params args)])
  /\ (opt_truthy (pfid args) = false
      \/ ~ discovery_found_nothing srv args initial_state ->
      calls = [EvCallCF (u "fetchMyFolders") (folders_params args)]).
Proof.
  intros Hreach. simpl. rewrite (run_discovery_calls srv args fuel Hreach).
  split.
  - intros Hp Hn.
    destruct (discover_folders_fallback srv args initial_state Hp Hn) as [_ ->].
    unfold discovery_calls. cbn [log initial_state List.filter].
    by rewrite !discovery_call_is_discovery.
  - intros Hno.
    destruct (discover_folders_single srv args initial_state Hno) as [_ ->].
    unfold discovery_calls. cbn [log initial_state List.filter].
    by rewrite !discovery_call_is_discovery.
Qed.

(** *** Per-folder accounting of one page *)

Section PageAccounting.
Context `{PyBuiltins}.
Variable srv : server.
Variable args : cli_args.

Lemma count_new_zero items seen :
  count_new items seen = 0%nat <-> all_seen_in_folder items seen = true.
Proof.
  unfold all_seen_in_folder, page_identities.
  revert seen. induction items as [|it rest IH]; intros seen; [done|].
  simpl. destruct (identity_of it) as [id|] eqn:Hid; simpl.
  - destruct (bool_decide (id ∈ seen)) eqn:Hin; simpl.
    + apply IH.
    + split; intros; [lia|done].
  - apply IH.
Qed.

Lemma export_item_non_object fid ft st allowed it acc s :
  has_object_target it = false ->
  export_item srv args fid ft st allowed it acc s = (s, Val (acc, Continue)).
Proof.
  unfold has_object_target, export_item.
  by destruct (dict_get it (u "target")).
Qed.

Lemma identity_non_object it :
  has_object_target it = false <-> identity_of it = None.
Proof.
  unfold has_object_target, identity_of.
  by destruct (dict_get it (u "target")).
Qed.

Lemma accept_record_break id r s s' :
  accept_record args id r s = (s', Val Break) -> stop_everything s' = true.
Proof.
  rewrite accept_record_eq. intros [= <- Hfl].
  rewrite stop_accept_effects.
  destruct (expected_reached args (S (printed_total s))); [|done].
  apply orb_true_r.
Qed.

Lemma classify_break fid ft st tt target item_id id s :
  exists s' fl,
    classify_item srv args fid ft st tt target item_id id s = (s', Val fl)
    /\ (fl = Break -> stop_everything s' = true).
Proof.
  unfold classify_item.
  destruct (py_eq_int tt 103 || py_eq_int tt 120).
  - destruct (export_sentence_cases srv args fid ft st tt target item_id id s)
      as (s1 & word & _ & ->).
    destruct (nonempty (sentence_jp target)).
    + destruct (accept_record args id _ s1) as [s' [fl|o]] eqn:E.
      * exists s', fl. split; [done|]. intros ->. by eapply accept_record_break.
      * by rewrite accept_record_eq in E.
    + by exists s1, Continue.
  - destruct (py_eq_int tt 102).
    + destruct (export_word_cases srv args fid ft st tt target item_id id s)
        as (s1 & f & _ & _ & ->).
      destruct (nonempty (f_spell f) || nonempty (f_excerpt f)).
      * destruct (accept_record args id _ s1) as [s' [fl|o]] eqn:E.
        -- exists s', fl. split; [done|]. intros ->. by eapply accept_record_break.
        -- by rewrite accept_record_eq in E.
      * by exists s1, Continue.
    + by exists s, Continue.
Qed.

Lemma export_item_all_mode fid ft st allowed it acc s s' acc' fl :
  fetch_all args = true ->
  export_item srv args fid ft st allowed it acc s = (s', Val (acc', fl)) ->
  acc_seen_in_folder acc' = mark_identity (identity_of it) (acc_seen_in_folder acc)
  /\ new_any_in_page acc' =
       (new_any_in_page acc
        + fresh_identity (identity_of it) (acc_seen_in_folder acc))%nat
  /\ (fl = Break -> stop_everything s' = true).
Proof.
  intros Hall. unfold export_item, identity_of.
  destruct (dict_get it (u "target")) as [| | | | | |target];
    try (intros [= <- <- <-]; simpl; split; [done|split; [lia|done]]).
  set (tt := dict_get it (u "targetType")).
  set (id := item_id_s_of tt (item_id_of target)).
  rewrite Hall. simpl.
  destruct (bool_decide (id ∈ acc_seen_in_folder acc)).
  { intros [= <- <- <-]. split; [done|split; [lia|done]]. }
  unfold bind at 1. unfold lift.
  destruct (py_in_int_set tt allowed) as [[|]|o]; simpl; [| |done].
  2:{ intros [= <- <- <-]. simpl. split; [done|split; [lia|done]]. }
  unfold bind at 1. unfold gets.
  destruct (bool_decide (id ∈ seen_item_ids_global s)).
  { intros [= <- <- <-]. simpl. split; [done|split; [lia|done]]. }
  unfold bind at 1. unfold modify. unfold bind at 1.
  match goal with |- context [_ (set_seen_global ?g s)] =>
    destruct (classify_break fid ft st tt target (item_id_of target) id
                (set_seen_global g s)) as (s1 & fl1 & -> & Hbr)
  end.
  destruct fl1; unfold_run; simpl.
  - intros [= <- <- <-]. simpl. split; [done|split; [lia|done]].
  - intros [= <- <- <-]. simpl. split; [done|split; [lia|auto]].
Qed.

Lemma export_items_all_mode fid ft st allowed items acc s s' acc' :
  fetch_all args = true ->
  export_items srv args fid ft st allowed items acc s = (s', Val acc') ->
  stop_everything s' = false ->
  acc_seen_in_folder acc' = mark_page items (acc_seen_in_folder acc)
  /\ new_any_in_page acc' =
       (new_any_in_page acc + count_new items (acc_seen_in_folder acc))%nat.
Proof.
  intros Hall. revert acc s.
  induction items as [|it rest IH]; intros acc s; simpl.
  - intros [= <- <-] _. split; [done|lia].
  - unfold bind.
    destruct (export_item srv args fid ft st allowed it acc s)
      as [s1 [[acc1 fl]|o]] eqn:Eit; [|done].
    destruct (export_item_all_mode _ _ _ _ _ _ _ _ _ _ Hall Eit)
      as (Hseen & Hnew & Hbr).
    simpl. destruct fl.
    + intros Erest Hstop.
      destruct (IH acc1 s1 Erest Hstop) as [Hseen' Hnew'].
      rewrite Hseen', Hnew', Hseen, Hnew. split; [done|lia].
    + intros [= <- <-] Hstop. rewrite Hbr in Hstop; done.
Qed.

Lemma export_items_non_object fid ft st allowed items acc s :
  forallb (fun it => negb (has_object_target it)) items = true ->
  export_items srv args fid ft st allowed items acc s = (s, Val acc).
Proof.
  induction items as [|it rest IH]; [done|]. simpl.
  intros [Hit Hrest]%andb_prop. apply negb_true_iff in Hit.
  unfold bind. rewrite export_item_non_object by done. simpl. auto.
Qed.

Lemma rewrite_returns fid st p s :
  _rewrite_json_progress args fid st p s =
    (fst (_rewrite_json_progress args fid st p s), Val tt).
Proof.
  unfold _rewrite_json_progress. unfold_run.
  destruct (json_output args); [|done]. by destruct (opt_truthy (output args)).
Qed.

(** [export_page] in [--all] mode, once the page has been fetched and
    holds at least one item. *)
Lemma export_page_eq fid ft st allowed fs s s1 payload :
  fetch_all args = true ->
  stop_everything s = false ->
  fetch_page srv args fid st allowed (page_index fs) s = (s1, Val payload) ->
  _iter_items_from_folder_content payload <> [] ->
  export_page srv args fid ft st allowed fs s =
    match export_items srv args fid ft st allowed
            (_iter_items_from_folder_content payload) (page_start fs) s1 with
    | (s2, Val acc) =>
        if stop_everything s2
        then (s2, Val (LeaveLoop
                         {| page_index := page_index fs;
                            total_pages := learn_total_pages (total_pages fs) payload;
                            no_new_streak := no_new_streak fs;
                            seen_item_ids_in_folder := acc_seen_in_folder acc |}))
        else (fst (_rewrite_json_progress args fid st (page_index fs) s2),
              Val (if pair_exhausted args (accounted fs payload acc)
                   then LeaveLoop (accounted fs payload acc)
                   else NextPage (advanced (accounted fs payload acc))))
    | (s2, Halt o) => (s2, Halt o)
    end.
Proof.
  intros Hall Hstop Hfetch Hitems. unfold export_page.
  unfold bind at 1. unfold gets. rewrite Hstop.
  unfold bind at 1. rewrite Hfetch.
  destruct (_iter_items_from_folder_content payload) as [|it rest]; [done|].
  unfold bind at 1. fold (page_start fs).
  destruct (export_items srv args fid ft st allowed (it :: rest) (page_start fs) s1)
    as [s2 [acc|o]]; [|done].
  unfold bind at 1. unfold gets.
  destruct (stop_everything s2) eqn:Hs2; [done|].
  unfold bind at 1. rewrite rewrite_returns. rewrite Hall. simpl.
  unfold bind, gets. rewrite rewrite_stop, Hs2. simpl.
  fold (accounted fs payload acc).
  by destruct (pair_exhausted args (accounted fs payload acc)).
Qed.

End PageAccounting.

Lemma elem_of_mark_page `{PyBuiltins} (items : list pydict) (seen : gset pystr)
    (id : pystr) :
  id ∈ mark_page items seen <-> id ∈ seen \/ id ∈ page_identities items.
Proof.
  revert seen. induction items as [|it rest IH]; intros seen; cbn.
  - split; [by left|]. by intros [?|?%elem_of_nil].
  - rewrite IH. unfold page_identities in *. unfold mark_identity.
    destruct (identity_of it) as [i|]; cbn.
    + rewrite elem_of_cons. destruct (bool_decide (i ∈ seen)) eqn:Hd.
      * apply bool_decide_eq_true_1 in Hd. split.
        -- intros [?|?]; auto.
        -- intros [?|[->|?]]; auto.
      * rewrite elem_of_union, elem_of_singleton. tauto.
    + tauto.
Qed.

(** C2. In [--all] mode, take any turn of the page loop that fetched a
    page with at least one item and did not end with the global stop
    flag raised.  The streak it hands on is the old streak plus one when
    every identity on the page was already in the per-folder seen set at
    the start of the page, and zero when some identity on the page was
    not -- whatever the allowed types and the global seen set are.  The
    per-folder seen set it hands on is the old set together with every
    identity on the page, so the next page is judged against all
    identities met in this folder so far. *)
Theorem no_new_streak_rule `{PyBuiltins} (srv : server) (args : cli_args)
    (fid ft : pystr) (st : Z) (allowed : gset Z) (fs : folder_state)
    (s s1 s' : run_state) (payload : pydict) (r : page_result) :
  fetch_all args = true ->
  stop_everything s = false ->
  fetch_page srv args fid st allowed (page_index fs) s = (s1, Val payload) ->
  _iter_items_from_folder_content payload <> [] ->
  export_page srv args fid ft st allowed fs s = (s', Val r) ->
  stop_everything s' = false ->
  exists fs',
    handed_on r = Some fs'
    /\ no_new_streak fs' =
         (if all_seen_in_folder (_iter_items_from_folder_content payload)
               (seen_item_ids_in_folder fs)
          then no_new_streak fs + 1 else 0)
    /\ forall id,
         id ∈ seen_item_ids_in_folder fs' <->
         id ∈ seen_item_ids_in_folder fs
         \/ id ∈ page_identities (_iter_items_from_folder_content payload).
Proof.
  intros Hall Hstop Hfetch Hitems Hpage Hstop'.
  rewrite (export_page_eq _ _ _ _ _ _ _ _ _ _ Hall Hstop Hfetch Hitems) in Hpage.
  destruct (export_items srv args fid ft st allowed _ (page_start fs) s1)
    as [s2 [acc|o]] eqn:Eit; [|done].
  destruct (stop_everything s2) eqn:Hs2.
  { injection Hpage as <- _. by rewrite Hs2 in Hstop'. }
  destruct (export_items_all_mode _ _ _ _ _ _ _ _ _ _ _ Hall Eit Hs2)
    as [Hmarked Hnew].
  simpl in Hnew, Hmarked.
  assert (Hset : forall id,
            id ∈ seen_item_ids_in_folder (accounted fs payload acc) <->
            id ∈ seen_item_ids_in_folder fs
            \/ id ∈ page_identities (_iter_items_from_folder_content payload)).
  { intros id. cbn [accounted seen_item_ids_in_folder]. rewrite Hmarked.
    apply elem_of_mark_page. }
  assert (Hstreak : no_new_streak (accounted fs payload acc) =
            if all_seen_in_folder (_iter_items_from_folder_content payload)
                 (seen_item_ids_in_folder fs)
            then no_new_streak fs + 1 else 0).
  { simpl. unfold update_streak. rewrite Hnew.
    destruct (all_seen_in_folder _ _) eqn:Hseen.
    - apply count_new_zero in Hseen. by rewrite Hseen.
    - destruct (count_new _ _) eqn:Hc; [|done].
      apply count_new_zero in Hc. congruence. }
  injection Hpage as _ <-.
  destruct (pair_exhausted args (accounted fs payload acc)); simpl; eauto.
Qed.

Lemma fetch_page_same `{PyBuiltins} (srv : server) (args : cli_args)
    fid st allowed p s :
  same_but_log s (fst (fetch_page srv args fid st allowed p s))
  /\ record_ids (log (fst (fetch_page srv args fid st allowed p s))) =
       record_ids (log s).
Proof.
  unfold fetch_page, call_cf, gateway. unfold_run.
  destruct (call_cf_reply srv (log s) _ _) as [msg|body]; [same_state|].
  destruct (_unwrap_parse_result body) as [payload|o]; [|same_state].
  destruct (py_int _) as [code|o]; [|same_state].
  destruct (negb (code =? 200)); same_state.
Qed.

Lemma page_identities_non_object `{PyBuiltins} items :
  forallb (fun it => negb (has_object_target it)) items = true ->
  page_identities items = [].
Proof.
  unfold page_identities. induction items as [|it rest IH]; [done|]. simpl.
  intros [Hit Hrest]%andb_prop. apply negb_true_iff, identity_non_object in Hit.
  rewrite Hit. auto.
Qed.

(** C10. A raw item whose [target] is not a JSON object is skipped
    before its identity is computed: the item loop goes on to the next
    item with the shared state (global seen set, word cache, records)
    and the page's locals (per-folder seen set, new-item counts)
    unchanged.  So in [--all] mode a fetched page with at least one
    item, all of whose items have such targets, has no identity to
    contribute, leaves the per-folder seen set, the global seen set and
    the records as they were, and hands on the old streak plus one. *)
Theorem non_object_target_skipped `{PyBuiltins} (srv : server) (args : cli_args)
    (fid ft : pystr) (st : Z) (allowed : gset Z) :
  (forall it acc s,
     has_object_target it = false ->
     export_item srv args fid ft st allowed it acc s = (s, Val (acc, Continue)))
  /\ (forall fs s s1 payload,
        fetch_all args = true ->
        stop_everything s = false ->
        fetch_page srv args fid st allowed (page_index fs) s = (s1, Val payload) ->
        _iter_items_from_folder_content payload <> [] ->
        forallb (fun it => negb (has_object_target it))
                (_iter_items_from_folder_content payload) = true ->
        page_identities (_iter_items_from_folder_content payload) = []
        /\ exists s' r fs',
             export_page srv args fid ft st allowed fs s = (s', Val r)
             /\ handed_on r = Some fs'
             /\ no_new_streak fs' = no_new_streak fs + 1
             /\ seen_item_ids_in_folder fs' = seen_item_ids_in_folder fs
             /\ seen_item_ids_global s' = seen_item_ids_global s
             /\ record_ids (log s') = record_ids (log s)).
Proof.
  split; [apply export_item_non_object|].
  intros fs s s1 payload Hall Hstop Hfetch Hitems Hnon.
  split; [by apply page_identities_non_object|].
  rewrite (export_page_eq _ _ _ _ _ _ _ _ _ _ Hall Hstop Hfetch Hitems).
  rewrite export_items_non_object by done.
  destruct (fetch_page_same srv args fid st allowed (page_index fs) s)
    as [(_ & Hg & _ & Hs1 & _) Hrec].
  rewrite Hfetch in Hg, Hs1, Hrec. simpl in Hg, Hs1, Hrec.
  rewrite Hs1, Hstop.
  assert (Hrw : seen_item_ids_global
                  (fst (_rewrite_json_progress args fid st (page_index fs) s1)) =
                seen_item_ids_global s
                /\ record_ids
                     (log (fst (_rewrite_json_progress args fid st
                                  (page_index fs) s1))) =
                   record_ids (log s)).
  { unfold _rewrite_json_progress. unfold_run.
    destruct (json_output args); simpl; [|done].
    by destruct (opt_truthy (output args)). }
  destruct (pair_exhausted args (accounted fs payload (page_start fs))).
  - eexists _, _, (accounted fs payload (page_start fs)).
    split; [reflexivity|]. split; [done|]. split; [done|]. split; [done|].
    exact Hrw.
  - eexists _, _, (advanced (accounted fs payload (page_start fs))).
    split; [reflexivity|]. split; [done|]. split; [done|]. split; [done|].
    exact Hrw.
Qed.

(** *** Classification of one item *)

Section Classification.
Context `{PyBuiltins}.
Variable srv : server.
Variable args : cli_args.

Lemma maybe_word_step_same s s1 :
  maybe_word_step s s1 ->
  record_ids (log s1) = record_ids (log s)
  /\ seen_item_ids_global s1 = seen_item_ids_global s.
Proof. by intros [->|(w & v & _ & ->)]. Qed.

Lemma accept_record_records id r s :
  record_ids (log (fst (accept_record args id r s))) = id :: record_ids (log s)
  /\ seen_item_ids_global (fst (accept_record args id r s)) =
       seen_item_ids_global s.
Proof.
  rewrite accept_record_eq. simpl.
  by rewrite accept_effects_log, accept_effects_seen.
Qed.

Lemma export_sentence_records fid ft st tt target item_id id s :
  record_ids (log (fst (export_sentence srv args fid ft st tt target item_id id s))) =
    (if nonempty (sentence_jp target) then [id] else []) ++ record_ids (log s)
  /\ seen_item_ids_global
       (fst (export_sentence srv args fid ft st tt target item_id id s)) =
     seen_item_ids_global s.
Proof.
  destruct (export_sentence_cases srv args fid ft st tt target item_id id s)
    as (s1 & word & Hm & ->).
  destruct (maybe_word_step_same s s1 Hm) as [Hr Hg].
  destruct (nonempty (sentence_jp target)).
  - destruct (accept_record_records id
                (sentence_record_of fid ft st tt target item_id word) s1) as [-> ->].
    by rewrite Hr, Hg.
  - done.
Qed.

Lemma export_word_records fid ft st tt target item_id id s :
  let f := resolved_word_fields srv target s in
  record_ids (log (fst (export_word srv args fid ft st tt target item_id id s))) =
    (if nonempty (f_spell f) || nonempty (f_excerpt f) then [id] else [])
    ++ record_ids (log s)
  /\ seen_item_ids_global
       (fst (export_word srv args fid ft st tt target item_id id s)) =
     seen_item_ids_global s.
Proof.
  destruct (export_word_cases srv args fid ft st tt target item_id id s)
    as (s1 & f & Hm & Hf & ->).
  unfold resolved_word_fields. rewrite Hf. simpl.
  destruct (maybe_word_step_same s s1 Hm) as [Hr Hg].
  destruct (nonempty (f_spell f) || nonempty (f_excerpt f)).
  - destruct (accept_record_records id
                (word_record_of fid ft st tt target item_id f) s1) as [-> ->].
    by rewrite Hr, Hg.
  - done.
Qed.

Lemma classify_item_records fid ft st tt target item_id id s :
  record_ids (log (fst (classify_item srv args fid ft st tt target item_id id s))) =
    (if kept srv tt target s then [id] else []) ++ record_ids (log s)
  /\ seen_item_ids_global
       (fst (classify_item srv args fid ft st tt target item_id id s)) =
     seen_item_ids_global s.
Proof.
  unfold classify_item, kept.
  destruct (py_eq_int tt 103 || py_eq_int tt 120).
  - apply export_sentence_records.
  - destruct (py_eq_int tt 102); [apply export_word_records|done].
Qed.

Lemma classify_item_returns fid ft st tt target item_id id s :
  exists fl,
    classify_item srv args fid ft st tt target item_id id s =
      (fst (classify_item srv args fid ft st tt target item_id id s), Val fl).
Proof.
  destruct (classify_break srv args fid ft st tt target item_id id s)
    as (s' & fl & E & _).
  exists fl. by rewrite E.
Qed.

(** An item that reaches classification is marked globally seen, then
    classified; the item loop never fails on it. *)
Lemma export_item_classifies fid ft st allowed it acc s target :
  dict_get it (u "target") = JDict target ->
  reaches_classification args allowed it acc s = true ->
  let tt := dict_get it (u "targetType") in
  let id := item_id_s_of tt (item_id_of target) in
  exists acc' fl,
    export_item srv args fid ft st allowed it acc s =
      (fst (classify_item srv args fid ft st tt target (item_id_of target) id
              (marked id s)),
       Val (acc', fl)).
Proof.
  intros Ht. unfold reaches_classification, export_item. rewrite Ht. simpl.
  set (tt := dict_get it (u "targetType")).
  set (id := item_id_s_of tt (item_id_of target)).
  intros [[Hf Ha]%andb_prop Hg]%andb_prop.
  apply negb_true_iff in Hf, Hg. rewrite Hf.
  unfold bind at 1. unfold lift.
  destruct (py_in_int_set tt allowed) as [[|]|o]; try done. simpl.
  unfold bind at 1. unfold gets. rewrite Hg.
  unfold bind at 1. unfold modify. unfold bind at 1. fold (marked id s).
  destruct (classify_item_returns fid ft st tt target (item_id_of target) id
              (marked id s)) as [fl ->].
  simpl. destruct fl; unfold_run; simpl; eauto.
  destruct (negb (fetch_all args) && _); eauto.
Qed.

End Classification.

(** ** Claims about the classifier *)

(** C7. Take an item that reaches classification.  If its type tag is
    103 or 120, a record with its identity is produced exactly when
    [jp] -- the title, else the notation title, as a string, stripped
    -- is non-empty, and that record carries this [jp]; otherwise the
    item is dropped.  If its type tag is 102, a record is produced
    exactly when, after resolution, [spell] or [excerpt] is non-empty;
    otherwise the item is dropped. *)
Theorem classifier_requires_fields `{PyBuiltins} (srv : server) (args : cli_args)
    (fid ft : pystr) (st : Z) (allowed : gset Z) (it : pydict) (acc : page_acc)
    (s : run_state) (target : pydict) :
  dict_get it (u "target") = JDict target ->
  reaches_classification args allowed it acc s = true ->
  let tt := dict_get it (u "targetType") in
  let id := item_id_s_of tt (item_id_of target) in
  let s' := fst (export_item srv args fid ft st allowed it acc s) in
  let f := resolved_word_fields srv target (marked id s) in
  sentence_jp target =
    strip (py_str (py_or (py_or (dict_get target (u "title"))
                                (dict_get target (u "notationTitle")))
                         (JStr [])))
  /\ (py_eq_int tt 103 || py_eq_int tt 120 = true ->
      record_ids (log s') =
        (if nonempty (sentence_jp target) then [id] else []) ++ record_ids (log s)
      /\ (nonempty (sentence_jp target) = true ->
          exists word rest,
            log s' = EvRecord id (sentence_record_of fid ft st tt target
                                    (item_id_of target) word) :: rest))
  /\ (py_eq_int tt 103 || py_eq_int tt 120 = false -> py_eq_int tt 102 = true ->
      record_ids (log s') =
        (if nonempty (f_spell f) || nonempty (f_excerpt f) then [id] else [])
        ++ record_ids (log s)).
Proof.
  intros Ht Hreach. simpl.
  destruct (export_item_classifies srv args fid ft st allowed it acc s target
              Ht Hreach) as (acc' & fl & E).
  rewrite E. simpl. clear E.
  split; [reflexivity|].
  set (tt := dict_get it (u "targetType")).
  set (id := item_id_s_of tt (item_id_of target)).
  split.
  - intros Hs. unfold classify_item. rewrite Hs. split.
    + destruct (export_sentence_records srv args fid ft st tt target
                  (item_id_of target) id (marked id s)) as [-> _]. done.
    + intros Hjp.
      destruct (export_sentence_cases srv args fid ft st tt target
                  (item_id_of target) id (marked id s)) as (s1 & word & _ & ->).
      rewrite Hjp, accept_record_eq. simpl. rewrite accept_effects_log. eauto.
  - intros Hs Hw. unfold classify_item. rewrite Hs, Hw.
    destruct (export_word_records srv args fid ft st tt target
                (item_id_of target) id (marked id s)) as [-> _]. done.
Qed.

(** C5, amended.  An item that reaches classification has its identity
    marked globally seen before it is classified, and the mark stays
    whether the classifier keeps the item or drops it; the item loop
    returns normally, and a record with that identity is accepted
    exactly when the classifier keeps the item. *)
Theorem marked_before_classification `{PyBuiltins} (srv : server)
    (args : cli_args) (fid ft : pystr) (st : Z) (allowed : gset Z) (it : pydict)
    (acc : page_acc) (s : run_state) (target : pydict) :
  dict_get it (u "target") = JDict target ->
  reaches_classification args allowed it acc s = true ->
  let tt := dict_get it (u "targetType") in
  let id := item_id_s_of tt (item_id_of target) in
  let s' := fst (export_item srv args fid ft st allowed it acc s) in
  (id ∉ seen_item_ids_global s)
  /\ (id ∈ seen_item_ids_global s')
  /\ (exists acc' fl,
        export_item srv args fid ft st allowed it acc s = (s', Val (acc', fl)))
  /\ record_ids (log s') =
       (if kept srv tt target (marked id s) then [id] else []) ++ record_ids (log s).
Proof.
  intros Ht Hreach. simpl.
  destruct (export_item_classifies srv args fid ft st allowed it acc s target
              Ht Hreach) as (acc' & fl & E).
  set (tt := dict_get it (u "targetType")) in *.
  set (id := item_id_s_of tt (item_id_of target)) in *.
  destruct (classify_item_records srv args fid ft st tt target
              (item_id_of target) id (marked id s)) as [Hrec Hseen].
  split.
  { unfold reaches_classification in Hreach. rewrite Ht in Hreach.
    apply andb_prop in Hreach as [_ Hg]. apply negb_true_iff in Hg.
    by apply bool_decide_eq_false in Hg. }
  rewrite E. simpl. split; [|split; [eauto|exact Hrec]].
  rewrite Hseen. simpl. by apply elem_of_union_l, elem_of_singleton.
Qed.

Lemma needs_detail_iff wid f :
  needs_detail wid f = true <-> wid <> [] /\ (f_spell f = [] \/ f_pron f = []).
Proof.
  unfold needs_detail. rewrite andb_true_iff, orb_true_iff, !negb_true_iff.
  destruct wid, (f_spell f), (f_pron f); simpl; split;
    intros [? [?|?]]; try done; auto.
Qed.

Lemma str_or_keeps a b : a <> [] -> str_or a b = a.
Proof. by destruct a. Qed.

(** C8, amended.  The cache is consulted exactly for the word items
    that have a non-empty word id (objectId, else id) and lack an
    inline spell or pron; every other word item keeps its inline fields
    and no lookup is made.  When the cache is consulted, each of spell,
    pron, accent and excerpt keeps its inline value when that is
    non-empty, takes the resolved value when the inline value is empty
    and the lookup returned a word object, and stays as it is when the
    lookup returned none. *)
Theorem word_fields_fill_gaps `{PyBuiltins} (srv : server) (target : pydict)
    (s : run_state) :
  let inline := inline_word_fields target in
  let wid := word_id_s_of target in
  let s1 := fst (resolve_word srv wid s) in
  (needs_detail wid inline = true <->
   wid <> [] /\ (f_spell inline = [] \/ f_pron inline = []))
  /\ (needs_detail wid inline = true ->
      complete_word_fields srv target s =
        (s1, Val (fill_word_fields inline
                    (word_of_response (word_cache s1 !! wid)))))
  /\ (needs_detail wid inline = false ->
      complete_word_fields srv target s = (s, Val inline))
  /\ (forall w,
        let f := fill_word_fields inline w in
        (f_spell inline <> [] -> f_spell f = f_spell inline)
        /\ (f_pron inline <> [] -> f_pron f = f_pron inline)
        /\ (f_accent inline <> [] -> f_accent f = f_accent inline)
        /\ (f_excerpt inline <> [] -> f_excerpt f = f_excerpt inline)
        /\ (forall wd, w = JDict wd ->
              (f_spell inline = [] -> f_spell f = field_of wd (u "spell"))
              /\ (f_pron inline = [] -> f_pron f = field_of wd (u "pron"))
              /\ (f_accent inline = [] -> f_accent f = field_of wd (u "accent"))
              /\ (f_excerpt inline = [] -> f_excerpt f = field_of wd (u "excerpt")))
        /\ ((forall wd, w <> JDict wd) -> f = inline)).
Proof.
  simpl. split; [apply needs_detail_iff|].
  split; [|split].
  - intros Hn. unfold complete_word_fields. rewrite Hn.
    unfold resolve_word. unfold_run.
    destruct (ensure_word_cached srv (word_id_s_of target) s) as [s1 [[]|o]] eqn:E;
      [done|].
    destruct (ensure_word_cached_cases srv (word_id_s_of target) s)
      as [[_ E']|[_ [v E']]]; congruence.
  - intros Hn. unfold complete_word_fields. by rewrite Hn.
  - intros w. repeat split.
    + intros Hne. destruct w; simpl; try done. by apply str_or_keeps.
    + intros Hne. destruct w; simpl; try done. by apply str_or_keeps.
    + intros Hne. destruct w; simpl; try done. by apply str_or_keeps.
    + intros Hne. destruct w; simpl; try done. by apply str_or_keeps.
    + intros He. subst w. simpl. by rewrite He.
    + intros He. subst w. simpl. by rewrite He.
    + intros He. subst w. simpl. by rewrite He.
    + intros He. subst w. simpl. by rewrite He.
    + intros Hnd. destruct w; try done. by destruct (Hnd kv).
Qed.

(** ** Configuration errors *)

Lemma parse_target_parts_error `{PyBuiltins} parts out o :
  parse_target_parts parts out = Halt o -> exists msg, o = Raises (SystemExit msg).
Proof.
  revert out. induction parts as [|part rest IH]; intros out; simpl; [done|].
  destruct (negb (nonempty (strip part))); [apply IH|].
  destruct (py_int_of_str (strip part)); [apply IH|].
  intros [= <-]. eauto.
Qed.

Lemma parse_sort_parts_error `{PyBuiltins} parts out o :
  parse_sort_parts parts out = Halt o ->
  (exists msg, o = Raises (SystemExit msg)) \/ o = Raises ValueError.
Proof.
  revert out. induction parts as [|part rest IH]; intros out; simpl; [done|].
  destruct (negb (nonempty (strip part))); [apply IH|].
  assert (Hplain : match py_int_of_str (strip part) with
                   | Some z => parse_sort_parts rest (out ++ [z])
                   | None => Halt (Raises (SystemExit
                               (u "Invalid --sort-types entry: "
                                ++ py_repr_str (strip part))))
                   end = Halt o ->
                   (exists msg, o = Raises (SystemExit msg)) \/ o = Raises ValueError).
  { destruct (py_int_of_str (strip part)); [apply IH|].
    intros [= <-]. left. eauto. }
  destruct (contains (u "..") (strip part) || contains (u "-") (strip part));
    [|exact Hplain].
  destruct (partition_dash (replace_dotdot (strip part))) as [[a_s sep] b_s].
  destruct (sep && py_isdigit (strip a_s) && py_isdigit (strip b_s));
    [|exact Hplain].
  destruct (py_int_of_str (strip a_s)); [|intros [= <-]; by right].
  destruct (py_int_of_str (strip b_s)); [apply IH|intros [= <-]; by right].
Qed.

Lemma first_config_error_kind `{PyBuiltins} args o :
  first_config_error args = Some o ->
  (exists msg, o = Raises (SystemExit msg)) \/ o = Raises ValueError.
Proof.
  unfold first_config_error, _parse_target_types, _parse_sort_types.
  destruct (target_types args) as [[|c t]|].
  2:{ destruct (parse_target_parts _ _) as [out|o'] eqn:E.
      - destruct (sort_types args) as [[|c' t']|]; try done.
        destruct (parse_sort_parts _ _) as [out'|o''] eqn:E'; [done|].
        intros [= <-]. by eapply parse_sort_parts_error.
      - intros [= <-]. left. by eapply parse_target_parts_error. }
  all: destruct (sort_types args) as [[|c' t']|]; try done;
    destruct (parse_sort_parts _ _) as [out'|o''] eqn:E'; [done|];
    intros [= <-]; by eapply parse_sort_parts_error.
Qed.

Lemma export_selected_config_error `{PyBuiltins} srv args fuel folders s o :
  first_config_error args = Some o ->
  export_selected srv args fuel folders s = (s, Halt o).
Proof.
  unfold first_config_error, export_selected. unfold bind at 1. unfold lift.
  destruct (_parse_target_types (target_types args)) as [explicit|o1].
  - unfold bind at 1.
    destruct (_parse_sort_types (sort_types args)) as [sorts|o2]; [done|].
    by intros [= <-].
  - by intros [= <-].
Qed.

(** C9, amended.  When the target-type list or the sort-type list has
    an entry that does not parse, the run never fetches a folder page
    and never looks a word up: every event of the run is a folder
    discovery call (or the item-targets call of [--targets-for-item]).
    The lists are parsed only after folder discovery and folder
    selection.  A run whose earlier steps hand on a folder selection has
    already called [fetchMyFolders], and ends right there with the
    configuration error -- [SystemExit], or the uncaught [ValueError] of
    a range whose digit strings [int] rejects -- without any further
    event.  Every other run ends in those earlier steps, with their
    outcome, and never parses the lists: a usage error returns 2 before
    any call, and [--targets-for-item] returns 0 or 1 after its one
    lookup. *)
Theorem validated_after_discovery `{PyBuiltins} (srv : server) (args : cli_args)
    (fuel : nat) (o : outcome) :
  first_config_error args = Some o ->
  ((exists msg, o = Raises (SystemExit msg)) \/ o = Raises ValueError)
  /\ forallb is_prelude_event (log (fst (run srv args fuel))) = true
  /\ (forall s1 folders,
        main_prelude srv args initial_state = (s1, Val folders) ->
        run srv args fuel = (s1, o)
        /\ exists ext,
             log s1 = ext ++ [EvCallCF (u "fetchMyFolders") (folders_params args)])
  /\ (forall s1 o',
        main_prelude srv args initial_state = (s1, Halt o') ->
        run srv args fuel = (s1, o'))
  /\ (usage_error args = true -> run srv args fuel = (initial_state, Exits 2))
  /\ (usage_error args = false ->
      opt_truthy (targets_for_item args) = true ->
      exists c, (c = 0 \/ c = 1)
        /\ run srv args fuel =
             (add_event (EvItemTargets (default [] (targets_for_item args)))
                initial_state, Exits c)).
Proof.
  intros Herr. split; [by apply (first_config_error_kind args)|]. split.
  { destruct (main_prelude_shape srv args initial_state)
      as [_ (ext & Hlog & Hext)].
    simpl in Hlog. rewrite app_nil_r in Hlog.
    unfold run, main, bind.
    destruct (main_prelude srv args initial_state) as [s1 [folders|o']];
      simpl in *.
    + rewrite (export_selected_config_error srv args fuel folders s1 o Herr).
      simpl. by rewrite Hlog.
    + by rewrite Hlog. }
  split.
  { intros s1 folders Hpre. split.
    + unfold run, main, bind. rewrite Hpre.
      by rewrite (export_selected_config_error srv args fuel folders s1 o Herr).
    + destruct (main_prelude_discovered srv args initial_state s1 folders Hpre)
        as [_ (ext & Hlog & _)].
      exists ext. exact Hlog. }
  split.
  { intros s1 o' Hpre. unfold run, main, bind. by rewrite Hpre. }
  split.
  { unfold usage_error, run, main, main_prelude. unfold bind at 1.
    destruct (opt_truthy (session_token args)); cbn [negb orb]; [|done].
    destruct (opt_truthy (targets_for_item args)); cbn [negb andb]; [done|].
    intros [Hj Hout]%andb_prop. by rewrite Hj, Hout. }
  unfold usage_error, run, main, main_prelude. unfold bind at 1.
  destruct (opt_truthy (session_token args)); cbn [negb orb]; [|done].
  intros _ ->. unfold fetch_item_targets, gateway. unfold_run.
  cbn [log initial_state].
  destruct (item_targets_reply srv [] _); eauto.
Qed.

(** ** The claims on the demo account *)

Lemma no_new_streak_rule_witness :
  exists fs', handed_on demo_turn_result = Some fs' /\ no_new_streak fs' = 0
              /\ u "103:a" ∈ seen_item_ids_in_folder fs'.
Proof.
  destruct (@no_new_streak_rule ascii_builtins demo_server (demo_args None None 0)
              demo_fid demo_title 0 {[999]} demo_folder_start initial_state
              (fst demo_fetch) (fst demo_turn) demo_payload demo_turn_result)
    as (fs' & Hh & Hs & Hset).
  - reflexivity.
  - reflexivity.
  - vm_compute. reflexivity.
  - vm_compute. discriminate.
  - vm_compute. reflexivity.
  - vm_compute. reflexivity.
  - exists fs'. split; [exact Hh|]. split.
    + rewrite Hs. vm_compute. reflexivity.
    + apply Hset. right. apply (list_elem_of_lookup_2 _ 0).
      vm_compute. reflexivity.
Defined.

Lemma expected_count_stops_gateway_witness :
  Forall (fun e => is_gateway e = false)
         (take 2 (log (fst demo_run_expecting_one)))
  /\ stop_everything (fst demo_run_expecting_one) = true.
Proof.
  apply (@expected_count_stops_gateway ascii_builtins demo_server
           demo_json_args 10
           (take 2 (log (fst demo_run_expecting_one)))
           (drop 3 (log (fst demo_run_expecting_one)))
           (fst demo_first_record) (snd demo_first_record)).
  - reflexivity.
  - reflexivity.
  - vm_compute. reflexivity.
  - vm_compute. discriminate.
Defined.

Lemma marked_before_classification_witness :
  u "103:b" ∈ seen_item_ids_global demo_blank_exported
  /\ record_ids (log demo_blank_exported) = [].
Proof.
  destruct (@marked_before_classification ascii_builtins demo_server
              (demo_args None None 0) demo_fid demo_title 0 {[102; 103; 120]}
              demo_blank demo_acc initial_state demo_blank_target)
    as (_ & Hin & _ & Hrec).
  - reflexivity.
  - vm_compute. reflexivity.
  - split; [exact Hin|]. unfold demo_blank_exported. rewrite Hrec.
    vm_compute. reflexivity.
Defined.

Lemma marked_only_if_accepted_fails : ~ @marked_only_if_accepted ascii_builtins.
Proof.
  intros Hclaim.
  specialize (Hclaim demo_server (demo_args None None 0) demo_fid demo_title 0
                {[102; 103; 120]} demo_blank demo_acc initial_state
                demo_blank_target eq_refl).
  simpl in Hclaim.
  assert (Hrec : record_ids (log demo_blank_exported) = [])
    by (vm_compute; reflexivity).
  fold demo_blank_exported in Hclaim. rewrite Hrec in Hclaim.
  eapply elem_of_nil, Hclaim.
  - vm_compute. reflexivity.
  - apply (bool_decide_unpack _). vm_compute. exact I.
Qed.

Lemma classifier_requires_fields_witness :
  record_ids (log demo_blank_exported) = [].
Proof.
  destruct (@classifier_requires_fields ascii_builtins demo_server
              (demo_args None None 0) demo_fid demo_title 0 {[102; 103; 120]}
              demo_blank demo_acc initial_state demo_blank_target)
    as (_ & Hsent & _).
  - reflexivity.
  - vm_compute. reflexivity.
  - destruct Hsent as [Hrec _]; [vm_compute; reflexivity|].
    unfold demo_blank_exported. rewrite Hrec. vm_compute. reflexivity.
Defined.

Lemma discovery_fallback_once_witness :
  discovery_calls (log (fst (@run ascii_builtins demo_server demo_scoped_args 10))) =
    [EvCallCF (u "fetchMyFolders") (JDict []);
     EvCallCF (u "fetchMyFolders") (JDict [(u "pfid", JStr (u "root"))])].
Proof.
  apply (proj1 (@discovery_fallback_once ascii_builtins demo_server
                  demo_scoped_args 10 eq_refl)).
  - reflexivity.
  - exists (JDict [(u "result", JList [])]),
           [(u "code", JInt 200); (u "result", JList [])].
    repeat split; vm_compute; reflexivity.
Defined.

Lemma always_consults_cache_fails : ~ @always_consults_cache ascii_builtins.
Proof.
  intros Hclaim.
  specialize (Hclaim demo_server demo_anonymous_word initial_state
                (or_introl eq_refl)).
  apply (f_equal (fun x => length (log (fst x)))) in Hclaim.
  vm_compute in Hclaim. discriminate.
Qed.

Lemma word_fields_fill_gaps_witness :
  @complete_word_fields ascii_builtins demo_server demo_bare_word initial_state =
    (fst (resolve_word demo_server (u "w1") initial_state),
     Val {| f_spell := u "sp"; f_pron := u "pr"; f_accent := [];
            f_excerpt := u "meaning" |}).
Proof.
  destruct (@word_fields_fill_gaps ascii_builtins demo_server demo_bare_word
              initial_state) as (_ & Hc & _).
  rewrite Hc; [|vm_compute; reflexivity].
  vm_compute. reflexivity.
Defined.

Lemma validated_before_network_fails : ~ @validated_before_network ascii_builtins.
Proof.
  intros Hclaim.
  destruct (Hclaim demo_server demo_bad_args 10%nat demo_bad_error) as [_ Hquiet].
  { vm_compute. reflexivity. }
  assert (Hlog : log (fst (@run ascii_builtins demo_server demo_bad_args 10)) =
                 [EvCallCF (u "fetchMyFolders") (JDict [])])
    by (vm_compute; reflexivity).
  rewrite Hlog in Hquiet. inversion Hquiet as [|e l Hcall _]. discriminate.
Qed.

Lemma validated_after_discovery_witness :
  @run ascii_builtins demo_server demo_bad_args 10 =
    (fst (@main_prelude ascii_builtins demo_server demo_bad_args initial_state),
     demo_bad_error).
Proof.
  destruct (@validated_after_discovery ascii_builtins demo_server demo_bad_args
              10 demo_bad_error) as (_ & _ & Hrun & _).
  - vm_compute. reflexivity.
  - apply (Hrun _ [(demo_fid, demo_title)]). vm_compute. reflexivity.
Defined.

Lemma non_object_target_skipped_witness :
  @export_item ascii_builtins demo_server (demo_args None None 0)
    demo_fid demo_title 0 {[102; 103; 120]} demo_row_without_object demo_acc
    initial_state = (initial_state, Val (demo_acc, Continue)).
Proof.
  apply (proj1 (@non_object_target_skipped ascii_builtins demo_server
                  (demo_args None None 0) demo_fid demo_title 0 {[102; 103; 120]})).
  reflexivity.
Defined.

Lemma word_detail_called_once_witness :
  resolve_word demo_server (u "w2") initial_state =
    (word_step (u "w2") (JDict [(u "_error", JStr (u "HTTP 500"))]) initial_state,
     Val JNull).
Proof.
  destruct (@word_detail_called_once ascii_builtins demo_server
              (demo_args None None 0) 10) as (_ & _ & _ & Hmiss & _).
  rewrite Hmiss; [|reflexivity]. vm_compute. reflexivity.
Defined.

(** ** Further properties of the exporter *)

(** *** The envelope of a reply *)

Lemma dict_lookup_head (k : pystr) (v : json) (rest : pydict) :
  dict_lookup ((k, v) :: rest) k = Some v.
Proof. simpl. by rewrite bool_decide_eq_true_2. Qed.

(** X1. A reply whose [result] is missing or null never counts as a
    success: folder discovery ends the run with exit code 1 after that
    one call, without a fallback call, and a page fetch raises
    [RuntimeError]. *)
Theorem null_result_is_failure `{PyBuiltins} (srv : server) (args : cli_args)
    (fid : pystr) (st : Z) (allowed : gset Z) (p : Z) (s : run_state)
    (kv : pydict) :
  dict_get kv (u "result") = JNull ->
  (call_cf_reply srv (log s) (u "fetchMyFolders") (folders_params args) =
     inr (JDict kv) ->
   discover_folders srv args s =
     (add_event (EvCallCF (u "fetchMyFolders") (folders_params args)) s,
      Halt (Exits 1)))
  /\ (call_cf_reply srv (log s) (u "folder-fetchContentWithRelatives")
        (content_params args fid st allowed p) = inr (JDict kv) ->
      fetch_page srv args fid st allowed p s =
        (add_event (EvCallCF (u "folder-fetchContentWithRelatives")
                      (content_params args fid st allowed p)) s,
         Halt (Raises (RuntimeError (u "folder-fetchContentWithRelatives failed"))))).
Proof.
  intros Hnull. split; intros Hreply.
  - unfold discover_folders, call_cf, gateway. unfold_run.
    fold (folders_params args). rewrite Hreply. simpl. rewrite Hnull.
    unfold folders_code, dict_get_default. by rewrite dict_lookup_head.
  - unfold fetch_page, call_cf, gateway. unfold_run.
    rewrite Hreply. simpl. rewrite Hnull.
    unfold dict_get_default. by rewrite dict_lookup_head.
Qed.

(** *** The type hint sent to the server *)

Lemma server_target_types_spec (allowed : gset Z) :
  Sorted Z.le (server_target_types allowed)
  /\ NoDup (server_target_types allowed)
  /\ forall z, z ∈ server_target_types allowed <-> z ∈ allowed.
Proof.
  unfold server_target_types. split; [apply Sorted_merge_sort; apply _|].
  split.
  - rewrite merge_sort_Permutation. apply NoDup_elements.
  - intros z. rewrite merge_sort_Permutation. apply elem_of_elements.
Qed.

(** *** Picking the default folder *)

Lemma pick_folder_eq `{PyBuiltins} (folders : list pydict) :
  _pick_folder folders =
    match folders with
    | [] => None
    | first :: _ =>
        match concat (map (fun kw => filter (fun f => Is_true (title_matches kw f))
                                            folders) folder_keywords) with
        | f :: _ => Some f
        | [] => Some first
        end
    end.
Proof. reflexivity. Qed.

Lemma filter_head_split {A} (P : A -> bool) (l : list A) (g : A) (rest : list A) :
  filter (fun x => Is_true (P x)) l = g :: rest ->
  exists pre post, l = pre ++ g :: post /\ P g = true
                   /\ Forall (fun x => P x = false) pre.
Proof.
  induction l as [|x l IH]; [done|]. rewrite filter_cons.
  destruct (decide (Is_true (P x))) as [Hx|Hx].
  - intros [= -> _]. exists [], l. split; [done|].
    split; [by apply Is_true_eq_true|constructor].
  - intros (pre & post & -> & Hg & Hpre)%IH. exists (x :: pre), post.
    split; [done|]. split; [done|]. constructor; [|done].
    destruct (P x); [|done]. by destruct Hx.
Qed.

Lemma filter_nil_none {A} (P : A -> bool) (l : list A) :
  filter (fun x => Is_true (P x)) l = [] -> Forall (fun x => P x = false) l.
Proof.
  induction l as [|x l IH]; [constructor|]. rewrite filter_cons.
  destruct (decide (Is_true (P x))) as [Hx|Hx]; [done|].
  intros Hl. constructor; [|auto]. destruct (P x); [|done]. by destruct Hx.
Qed.

Lemma concat_head_split {A B} (F : A -> list B) (ks : list A) (g : B)
    (rest : list B) :
  concat (map F ks) = g :: rest ->
  exists before k after more,
    ks = before ++ k :: after /\ F k = g :: more
    /\ Forall (fun k' => F k' = []) before.
Proof.
  induction ks as [|k ks IH]; [done|]. simpl.
  destruct (F k) as [|b more] eqn:Hk; simpl.
  - intros (before & k' & after & more & -> & Hk' & Hb)%IH.
    exists (k :: before), k', after, more. split; [done|]. split; [done|].
    by constructor.
  - intros [= -> _]. exists [], k, ks, more. split; [done|].
    split; [done|constructor].
Qed.

(** X3. [_pick_folder] returns nothing only for an empty folder list.
    Otherwise it returns one of the folders.  The keywords are tried in
    order: the folder returned is the first folder whose title contains
    the first keyword that any title contains; when no title contains
    any keyword, it is the first folder of the list. *)
Theorem pick_folder_choice `{PyBuiltins} (folders : list pydict) :
  match _pick_folder folders with
  | None => folders = []
  | Some g =>
      (exists before kw after pre post,
         folder_keywords = before ++ kw :: after
         /\ folders = pre ++ g :: post
         /\ title_matches kw g = true
         /\ Forall (fun f => title_matches kw f = false) pre
         /\ Forall (fun k => Forall (fun f => title_matches k f = false) folders)
                   before)
      \/ (head folders = Some g
          /\ Forall (fun k => Forall (fun f => title_matches k f = false) folders)
                    folder_keywords)
  end.
Proof.
  rewrite pick_folder_eq. destruct folders as [|first rest]; [done|].
  set (folders := first :: rest).
  destruct (concat _) as [|g l] eqn:Hc.
  - right. split; [done|].
    assert (Hall : forall ks,
              concat (map (fun kw => filter (fun f => Is_true (title_matches kw f))
                                            folders) ks) = [] ->
              Forall (fun k => Forall (fun f => title_matches k f = false) folders)
                     ks).
    { induction ks as [|k ks IH]; [constructor|]. simpl.
      intros [Hk Hks]%app_eq_nil. constructor; [|auto].
      by apply filter_nil_none. }
    by apply Hall.
  - left. apply concat_head_split in Hc
      as (before & kw & after & more & Hkws & Hkw & Hbefore).
    apply filter_head_split in Hkw as (pre & post & Hf & Hg & Hpre).
    exists before, kw, after, pre, post. repeat (split; [done|]).
    eapply Forall_impl; [exact Hbefore|]. intros k Hk. simpl in Hk.
    by apply filter_nil_none.
Qed.

(** *** Parsing the type and sort lists *)

Lemma parse_target_parts_val `{PyBuiltins} parts out out' :
  parse_target_parts parts out = Val out' ->
  (forall z, z ∈ out' <-> z ∈ out \/ exists part, part ∈ parts /\ parses_to part z)
  /\ Forall (fun part => blank part = false ->
                         is_Some (py_int_of_str (strip part))) parts.
Proof.
  revert out. induction parts as [|part rest IH]; intros out; simpl.
  - intros [= <-]. split; [|constructor]. intros z. split; [auto|].
    intros [?|(p & Hp & _)]; [done|]. by apply elem_of_nil in Hp.
  - fold (blank part). destruct (blank part) eqn:Hb.
    + intros [Hmem Hall]%IH. split.
      * intros z. rewrite Hmem. split; intros [?|(p & Hp & Hz)]; auto; right.
        -- exists p. split; [by apply list_elem_of_further|done].
        -- apply elem_of_cons in Hp as [->|Hp]; [|eauto].
           destruct Hz as [Hz _]. congruence.
      * constructor; [|done]. congruence.
    + destruct (py_int_of_str (strip part)) as [n|] eqn:Hn; [|done].
      intros [Hmem Hall]%IH. split.
      * intros z. rewrite Hmem, elem_of_union, elem_of_singleton.
        split.
        -- intros [[->|?]|(p & Hp & Hz)]; auto; right.
           ++ exists part. split; [apply list_elem_of_here|done].
           ++ exists p. split; [by apply list_elem_of_further|done].
        -- intros [?|(p & Hp & Hz)]; auto.
           apply elem_of_cons in Hp as [->|Hp]; [|eauto].
           destruct Hz as [_ Hz]. left. left. congruence.
      * constructor; [|done]. eauto.
Qed.

Lemma parse_target_parts_halt `{PyBuiltins} parts out o :
  parse_target_parts parts out = Halt o ->
  exists part, part ∈ parts /\ blank part = false
               /\ py_int_of_str (strip part) = None.
Proof.
  revert out. induction parts as [|part rest IH]; intros out; simpl; [done|].
  fold (blank part). destruct (blank part) eqn:Hb.
  - intros (p & Hp & Hr)%IH. exists p. split; [by apply list_elem_of_further|done].
  - destruct (py_int_of_str (strip part)) as [n|] eqn:Hn.
    + intros (p & Hp & Hr)%IH. exists p.
      split; [by apply list_elem_of_further|done].
    + intros _. exists part. split; [apply list_elem_of_here|done].
Qed.

(** X4. [_parse_target_types] reads the option value entry by entry,
    skipping entries that are blank after [strip].  It returns the set
    of the integers the other entries denote; it returns [None] (so
    that [--mode] decides) exactly when there is no such entry, never
    an empty set; and it fails exactly when some non-blank entry is not
    an integer. *)
Theorem target_types_parsed `{PyBuiltins} (s : option pystr) :
  match _parse_target_types s with
  | Val (Some t) =>
      t <> ∅
      /\ forall z, z ∈ t <-> exists part, part ∈ list_parts s /\ parses_to part z
  | Val None => forall part, part ∈ list_parts s -> blank part = true
  | Halt o =>
      (exists msg, o = Raises (SystemExit msg))
      /\ exists part, part ∈ list_parts s /\ blank part = false
                      /\ py_int_of_str (strip part) = None
  end.
Proof.
  unfold _parse_target_types, list_parts.
  destruct s as [[|c t]|]; try (by intros part ?%elem_of_nil).
  destruct (parse_target_parts (split_on 44 (c :: t)) ∅) as [out|o] eqn:E.
  - destruct (parse_target_parts_val _ _ _ E) as [Hmem Hall].
    assert (Hmem' : forall z, z ∈ out <->
              exists part, part ∈ split_on 44 (c :: t) /\ parses_to part z).
    { intros z. rewrite Hmem. split; [|by right].
      intros [Hz|Hz]; [by apply not_elem_of_empty in Hz|done]. }
    destruct (bool_decide (out = ∅)) eqn:Hout.
    + apply bool_decide_eq_true in Hout. subst out.
      intros part Hpart. destruct (blank part) eqn:Hb; [done|].
      rewrite Forall_forall in Hall.
      destruct (Hall part Hpart Hb) as [z Hz].
      assert (Hin : z ∈ (∅ : gset Z)) by (apply Hmem'; by exists part).
      by apply not_elem_of_empty in Hin.
    + apply bool_decide_eq_false in Hout. done.
  - split; [by eapply parse_target_parts_error|].
    by eapply parse_target_parts_halt.
Qed.

Lemma uniq_from_spec (xs : list Z) (seen : gset Z) :
  NoDup (uniq_from xs seen)
  /\ (forall z, z ∈ uniq_from xs seen <-> z ∈ xs /\ z ∉ seen)
  /\ sublist (uniq_from xs seen) xs.
Proof.
  revert seen. induction xs as [|x xs IH]; intros seen; simpl.
  - split; [constructor|]. split; [|constructor].
    intros z. split; [by intros ?%elem_of_nil|by intros [?%elem_of_nil _]].
  - destruct (bool_decide (x ∈ seen)) eqn:Hx.
    + apply bool_decide_eq_true in Hx.
      destruct (IH seen) as (Hnd & Hmem & Hsub).
      split; [done|]. split; [|by apply sublist_cons].
      intros z. rewrite Hmem, elem_of_cons. split; [intros [? ?]; auto|].
      intros [[->|?] Hz]; [done|auto].
    + apply bool_decide_eq_false in Hx.
      destruct (IH ({[x]} ∪ seen)) as (Hnd & Hmem & Hsub).
      split; [|split; [|by apply sublist_skip]].
      * apply NoDup_cons. split; [|done]. rewrite Hmem.
        intros [_ Hn]. apply Hn, elem_of_union_l, elem_of_singleton. done.
      * intros z. rewrite !elem_of_cons, Hmem, not_elem_of_union,
          not_elem_of_singleton.
        split.
        -- intros [->|(Hz & Hne & Hs)]; auto.
        -- intros [[->|Hz] Hs]; [by left|].
           destruct (decide (z = x)) as [->|Hne]; [by left|right; auto].
Qed.

Lemma uniq_from_first (pre : list Z) (x : Z) (post : list Z) (seen : gset Z) :
  x ∉ pre -> x ∉ seen ->
  exists lpre lpost,
    uniq_from (pre ++ x :: post) seen = lpre ++ x :: lpost
    /\ forall y, y ∈ lpre <-> y ∈ pre /\ y ∉ seen.
Proof.
  revert seen. induction pre as [|a pre IH]; intros seen Hpre Hseen.
  - exists [], (uniq_from post ({[x]} ∪ seen)). cbn.
    rewrite bool_decide_eq_false_2 by done. split; [done|].
    intros y. split; [by intros ?%elem_of_nil|by intros [?%elem_of_nil _]].
  - apply not_elem_of_cons in Hpre as [Hxa Hpre]. cbn.
    destruct (bool_decide (a ∈ seen)) eqn:Ha.
    + apply bool_decide_eq_true_1 in Ha.
      destruct (IH seen Hpre Hseen) as (lpre & lpost & -> & Hmem).
      exists lpre, lpost. split; [done|]. intros y. rewrite Hmem, elem_of_cons.
      split; [intros [? ?]; auto|]. intros [[->|?] Hy]; [done|auto].
    + apply bool_decide_eq_false_1 in Ha.
      destruct (IH ({[a]} ∪ seen) Hpre) as (lpre & lpost & -> & Hmem).
      { rewrite not_elem_of_union, not_elem_of_singleton. done. }
      exists (a :: lpre), lpost. split; [done|]. intros y.
      rewrite !elem_of_cons, Hmem, not_elem_of_union, not_elem_of_singleton.
      split.
      * intros [->|(Hy & Hne & Hs)]; auto.
      * intros [[->|Hy] Hs]; [by left|].
        destruct (decide (y = a)) as [->|Hne]; [by left|right; auto].
Qed.

(** X5. The sort types [_parse_sort_types] returns are the values its
    entries name with repetitions removed: no value occurs twice, every
    named value occurs, none is invented, and the values stand in the
    order of their first mention -- where a value is first named, the
    values standing before it in the result are exactly the values named
    before it. *)
Theorem sort_types_unique `{PyBuiltins} (s : pystr) (l : list Z) :
  _parse_sort_types (Some s) = Val l ->
  NoDup l
  /\ exists named,
       (s <> [] -> parse_sort_parts (split_on 44 s) [] = Val named)
       /\ (s = [] -> named = [])
       /\ (forall z, z ∈ l <-> z ∈ named)
       /\ sublist l named
       /\ (forall pre x post,
             named = pre ++ x :: post -> x ∉ pre ->
             exists lpre lpost,
               l = lpre ++ x :: lpost /\ forall y, y ∈ lpre <-> y ∈ pre).
Proof.
  unfold _parse_sort_types. destruct s as [|c t].
  - intros [= <-]. split; [constructor|]. exists [].
    repeat split; try done. intros pre x post Hnil.
    by destruct pre.
  - destruct (parse_sort_parts (split_on 44 (c :: t)) []) as [named|o]; [|done].
    intros [= <-]. destruct (uniq_from_spec named ∅) as (Hnd & Hmem & Hsub).
    split; [done|]. exists named. split; [done|]. split; [done|].
    split; [|split; [done|]].
    + intros z. rewrite Hmem. split; [by intros [? _]|].
      intros Hz. split; [done|]. apply not_elem_of_empty.
    + intros pre x post -> Hpre.
      destruct (uniq_from_first pre x post ∅ Hpre) as (lpre & lpost & E & Hl);
        [apply not_elem_of_empty|].
      exists lpre, lpost. split; [done|]. intros y. rewrite Hl.
      split; [by intros [? _]|]. intros Hy. split; [done|].
      apply not_elem_of_empty.
Qed.

(** X6. The range an entry [a-b] or [a..b] stands for runs from [a] to
    [b] inclusive, upwards or downwards: it starts at [a], ends at [b],
    has no repetition and holds exactly the integers between the two
    ends. *)
Theorem inclusive_range_spec (a b : Z) :
  head (inclusive_range a b) = Some a
  /\ last (inclusive_range a b) = Some b
  /\ NoDup (inclusive_range a b)
  /\ length (inclusive_range a b) = Z.to_nat (Z.abs (b - a) + 1)
  /\ forall z, z ∈ inclusive_range a b <-> Z.min a b <= z <= Z.max a b.
Proof.
  unfold inclusive_range. destruct (a <=? b) eqn:Hab.
  - apply Z.leb_le in Hab.
    assert (Hn : exists n, Z.to_nat (b - a + 1) = S n /\ Z.of_nat n = b - a).
    { exists (Z.to_nat (b - a)). split; lia. }
    destruct Hn as (n & Hn & Hna). rewrite Hn.
    split; [simpl; f_equal; lia|].
    split; [rewrite seq_S, map_app; cbn [map]; rewrite last_snoc; f_equal; lia|].
    split; [|split].
    + apply NoDup_fmap_2; [intros i j; lia|apply NoDup_seq].
    + rewrite length_map, length_seq. lia.
    + intros z. rewrite list_elem_of_fmap. setoid_rewrite elem_of_seq. split.
      * intros (i & -> & Hi). lia.
      * intros Hz. exists (Z.to_nat (z - a)). lia.
  - apply Z.leb_gt in Hab.
    assert (Hn : exists n, Z.to_nat (a - b + 1) = S n /\ Z.of_nat n = a - b).
    { exists (Z.to_nat (a - b)). split; lia. }
    destruct Hn as (n & Hn & Hna). rewrite Hn.
    split; [simpl; f_equal; lia|].
    split; [rewrite seq_S, map_app; cbn [map]; rewrite last_snoc; f_equal; lia|].
    split; [|split].
    + apply NoDup_fmap_2; [intros i j; lia|apply NoDup_seq].
    + rewrite length_map, length_seq. lia.
    + intros z. rewrite list_elem_of_fmap. setoid_rewrite elem_of_seq. split.
      * intros (i & -> & Hi). lia.
      * intros Hz. exists (Z.to_nat (a - z)). lia.
Qed.

(** *** Choosing what to traverse *)

(** X7. When [select_export_folders] succeeds it names at least one
    folder.  With [--folder-id] it names exactly the requested id, and
    only if discovery returned a folder with that id; with
    [--all-folders] every id it names is non-empty; otherwise it names
    one folder.  When it fails, the run ends with exit code 1. *)
Theorem selection_shape `{PyBuiltins} (args : cli_args) (folders : list json) :
  match select_export_folders args folders with
  | Val l =>
      l <> []
      /\ (opt_truthy (folder_id_arg args) = true ->
          exists f, f ∈ dicts_of folders
                    /\ _folder_id_of f = default [] (folder_id_arg args)
                    /\ l = [(default [] (folder_id_arg args),
                             str_or (_folder_title_of f) (u "(selected)"))])
      /\ (opt_truthy (folder_id_arg args) = false -> all_folders args = true ->
          Forall (fun x => fst x <> []) l)
      /\ (opt_truthy (folder_id_arg args) = false -> all_folders args = false ->
          length l = 1%nat)
  | Halt o => o = Exits 1
  end.
Proof.
  unfold select_export_folders.
  destruct (opt_truthy (folder_id_arg args)) eqn:Hfid.
  - destruct (filter _ (dicts_of folders)) as [|f rest] eqn:Hf; [done|].
    assert (Hin : f ∈ filter (fun f => _folder_id_of f = default [] (folder_id_arg args))
                         (dicts_of folders)) by (rewrite Hf; apply list_elem_of_here).
    apply list_elem_of_filter in Hin as [Hid Hin].
    split; [done|]. split; [|done]. intros _. exists f. by rewrite Hid.
  - destruct (all_folders args) eqn:Hall.
    + set (listed := omap _ (dicts_of folders)).
      assert (Hlisted : Forall (fun x : pystr * pystr => fst x <> []) listed).
      { apply Forall_forall. intros [fid ft] Hx.
        apply list_elem_of_omap in Hx as (f & _ & Hf).
        destruct (nonempty (_folder_id_of f)) eqn:Hne; [|done].
        injection Hf as <- _. simpl. by destruct (_folder_id_of f). }
      destruct (opt_truthy (pfid args) && nonempty (strip (default [] (pfid args)))
                && forallb _ listed) eqn:Hroot.
      * split; [done|]. split; [done|]. split; [|done]. intros _ _.
        constructor; [|done]. simpl.
        apply andb_prop in Hroot as [[_ Hne]%andb_prop _].
        by destruct (strip (default [] (pfid args))).
      * destruct listed as [|x rest]; [done|]. by repeat split.
    + destruct (_pick_folder (dicts_of folders)) as [[|kv folder]|].
      * destruct (opt_truthy (pfid args)); [by repeat split|done].
      * by repeat split.
      * destruct (opt_truthy (pfid args)); [by repeat split|done].
Qed.

(** X8. The list of sort types a run iterates over is never empty and
    names no sort type twice; without [--all] it is the single
    [--sort-type] value whatever [--sort-types] says. *)
Theorem active_sort_types_shape `{PyBuiltins} (args : cli_args) (l : list Z) :
  _parse_sort_types (sort_types args) = Val l ->
  active_sort_types_of args l <> []
  /\ NoDup (active_sort_types_of args l)
  /\ (fetch_all args = false ->
      active_sort_types_of args l = [sort_type_arg args]).
Proof.
  intros Hl.
  assert (Hnd : NoDup l).
  { unfold _parse_sort_types in Hl.
    destruct (sort_types args) as [[|c t]|];
      try (injection Hl as <-; constructor).
    destruct (parse_sort_parts _ _) as [named|o]; [|done].
    injection Hl as <-. by destruct (uniq_from_spec named ∅). }
  unfold active_sort_types_of.
  destruct (fetch_all args); simpl.
  - destruct (bool_decide (l = [])) eqn:Hnil; simpl.
    + split; [done|]. split; [apply NoDup_singleton|done].
    + apply bool_decide_eq_false in Hnil. done.
  - split; [done|]. split; [apply NoDup_singleton|done].
Qed.

(** *** More invariants of a whole run *)

(** X9. Unless the run is in [--all] mode with a positive [--expected],
    the global stop flag is never raised: the run ends with the flag
    down, so nothing is ever skipped because of it. *)
Theorem stop_flag_needs_expected `{PyBuiltins} (srv : server) (args : cli_args)
    (fuel : nat) :
  fetch_all args = false \/ expected args <= 0 ->
  stop_everything (fst (run srv args fuel)) = false.
Proof.
  intros Hoff.
  assert (Hnever : forall n, expected_reached args n = false).
  { intros n. unfold expected_reached. destruct Hoff as [->|Hle]; [done|].
    destruct (fetch_all args); [|done]. simpl.
    destruct (0 <? expected args) eqn:H0; [|done]. apply Z.ltb_lt in H0. lia. }
  apply (run_invariant srv args not_stopped (fun _ => not_stopped)); try done.
  - intros s id r Hs _. unfold not_stopped in *.
    by rewrite stop_accept_effects, Hs, Hnever.
  - intros s ext (_ & _ & _ & Hst & _) _ _. unfold not_stopped. by rewrite Hst.
Qed.

(** X10. In [--all] mode with an expected count N > 0 a run never
    produces more than N records, and while the global stop flag is
    down it has produced fewer than N. *)
Theorem at_most_expected_records `{PyBuiltins} (srv : server) (args : cli_args)
    (fuel : nat) :
  fetch_all args = true ->
  0 < expected args ->
  let final := fst (run srv args fuel) in
  Z.of_nat (count_records (log final)) <= expected args
  /\ (stop_everything final = false ->
      Z.of_nat (count_records (log final)) < expected args).
Proof.
  intros Hall Hexp. simpl.
  assert (HI : within_expected args (fst (run srv args fuel))).
  { apply (run_invariant srv args (within_expected args)
             (fun _ => within_expected args)); try done.
    - intros s id r (Hp & Hle & Hlt) Hstop. unfold within_expected.
      rewrite accept_effects_log, accept_effects_printed, stop_accept_effects,
        Hstop, count_records_record. simpl.
      specialize (Hlt Hstop).
      split; [by rewrite Hp|]. split; [lia|].
      unfold expected_reached. rewrite Hall. simpl.
      destruct (0 <? expected args) eqn:H0; [|lia]. simpl.
      intros Hn. apply Z.leb_gt in Hn. lia.
    - intros s ext (_ & _ & Hp & Hst & _) Hlog Hext. unfold within_expected.
      rewrite Hlog, Hp. unfold count_records.
      destruct (prelude_events_no_records ext Hext) as [-> _]. simpl.
      split; [done|]. split; lia. }
  destruct HI as (Hp & Hle & Hlt). rewrite <- Hp. auto.
Qed.

(** X11. At the end of a run the word cache holds an entry for exactly
    the word ids the word-detail endpoint was called for: nothing is
    cached without a call, and nothing called is missing. *)
Theorem cache_is_what_was_called `{PyBuiltins} (srv : server) (args : cli_args)
    (fuel : nat) (w : pystr) :
  let final := fst (run srv args fuel) in
  is_Some (word_cache final !! w) <-> w ∈ word_detail_ids (log final).
Proof.
  simpl. split; [|by apply (word_cache_run srv args fuel)].
  revert w.
  apply (run_invariant srv args cache_from_calls (fun _ => cache_from_calls));
    try done.
  - intros s id w v HI _ _ x. simpl.
    rewrite lookup_insert_is_Some, elem_of_cons.
    intros [->|[_ Hx]]; [by left|right; auto].
  - intros s id r HI _ x. unfold cache_from_calls in HI.
    rewrite accept_effects_log, accept_effects_word_cache. simpl. auto.
  - intros s ext (Hc & _) _ _ x. rewrite Hc. simpl. rewrite lookup_empty.
    by intros [? ?].
Qed.

Lemma record_event_id (l : list event) (id : pystr) (r : export_record) :
  EvRecord id r ∈ l -> id ∈ record_ids l.
Proof.
  intros Hin. apply list_elem_of_omap. by exists (EvRecord id r).
Qed.

(** X12. In JSON mode, at the end of a run the buffered map holds every
    record the run produced, each under its identity: no record is lost
    or replaced by a later one. *)
Theorem json_buffer_complete `{PyBuiltins} (srv : server) (args : cli_args)
    (fuel : nat) (id : pystr) (r : export_record) :
  json_output args = true ->
  EvRecord id r ∈ log (fst (run srv args fuel)) ->
  results_by_id (fst (run srv args fuel)) !! id = Some r.
Proof.
  intros Hjson Hin.
  assert (HI : buffer_holds_records args (fst (run srv args fuel))).
  { apply (run_invariant srv args (buffer_holds_records args)
             (buffer_holds_records_mid args)).
    - intros s p [HI HP] _. split; [exact HI|]. intros id' r'.
      simpl. rewrite elem_of_cons. intros [?|?]; [done|auto].
    - intros s id' [(Hnd & Hsub & Hpr & Hres) HP] _ Hfresh.
      split; [|exact HP]. split; [|split].
      + split; [done|]. split; [|done]. simpl. intros x Hx.
        by apply elem_of_union_r, Hsub.
      + simpl. by apply elem_of_union_l, elem_of_singleton.
      + simpl. intros Hx. by apply Hfresh, Hsub.
    - intros s id' w v [HM HP] _ _. split; [exact HM|]. intros id'' r'.
      simpl. rewrite elem_of_cons. intros [?|?]; [done|auto].
    - intros s id' r' [HM HP] _. split; [by apply dedup_accept|].
      intros id'' r''. rewrite accept_effects_log, accept_effects_results.
      rewrite elem_of_cons. intros [[= -> ->]|Hold] Hj; rewrite Hj.
      + apply lookup_insert_eq.
      + rewrite lookup_insert_ne; [auto|].
        intros ->. destruct HM as (_ & _ & Hfresh).
        by apply Hfresh, (record_event_id _ _ r'').
    - by intros s id' [[HI _] HP].
    - intros s f st p [HI HP]. split; [exact HI|]. intros id' r'.
      simpl. rewrite elem_of_cons. intros [?|?]; [done|auto].
    - intros s ext Hsame Hlog Hext. split.
      + destruct Hsame as (_ & _ & Hp & _ & Hr).
        destruct (prelude_events_no_records ext Hext) as [Hrec _].
        unfold dedup_inv. rewrite Hlog, Hrec, Hp, Hr. simpl.
        split; [constructor|]. split; [by intros x ?%elem_of_nil|].
        split; [done|]. intros x. rewrite lookup_empty. split.
        * by intros [? ?].
        * by intros [_ ?%elem_of_nil].
      + intros id' r' Hev. apply record_event_id in Hev. rewrite Hlog in Hev.
        destruct (prelude_events_no_records ext Hext) as [Hrec _].
        rewrite Hrec in Hev. by apply elem_of_nil in Hev. }
  destruct HI as [_ HP]. by apply HP.
Qed.

(** *** What can stop the item loop *)

Lemma py_in_int_set_halt (v : json) (allowed : gset Z) (o : outcome) :
  py_in_int_set v allowed = Halt o -> o = Raises TypeError.
Proof. destruct v; simpl; congruence. Qed.

Lemma export_item_halt `{PyBuiltins} (srv : server) (args : cli_args)
    fid ft st allowed it acc s s' o :
  export_item srv args fid ft st allowed it acc s = (s', Halt o) ->
  o = Raises TypeError /\ unhashable_tag allowed it.
Proof.
  unfold export_item, unhashable_tag.
  destruct (dict_get it (u "target")) as [| | | | | |target]; try done.
  set (tt := dict_get it (u "targetType")).
  set (id := item_id_s_of tt (item_id_of target)).
  destruct (fetch_all args && bool_decide (id ∈ acc_seen_in_folder acc)); [done|].
  unfold bind at 1. unfold lift.
  destruct (py_in_int_set tt allowed) as [[|]|o'] eqn:Hin; simpl; [|done|].
  - unfold bind at 1. unfold gets.
    destruct (bool_decide (id ∈ seen_item_ids_global s)); [done|].
    unfold bind at 1. unfold modify. unfold bind at 1.
    match goal with |- context [classify_item _ _ _ _ _ _ _ _ _ ?s0] =>
      destruct (classify_break srv args fid ft st tt target
                  (item_id_of target) id s0) as (s1 & fl & -> & _)
    end.
    destruct fl; unfold_run; simpl; [|done].
    by destruct (negb (fetch_all args) && _).
  - intros [= _ <-]. pose proof (py_in_int_set_halt _ _ _ Hin) as ->. done.
Qed.

(** X13. In JSON mode, where a record is stored in the buffer and not
    printed, the item loop of a page never fails because of the
    word-detail endpoint (a failed lookup leaves blank fields).  The
    only way it can fail is a [TypeError], raised when the [targetType]
    of some item of the page is a list or an object and so cannot be
    looked up in the set of allowed types. *)
Theorem item_loop_only_fails_on_unhashable_tag `{PyBuiltins} (srv : server)
    (args : cli_args) (fid ft : pystr) (st : Z) (allowed : gset Z)
    (items : list pydict) (acc : page_acc) (s s' : run_state) (o : outcome) :
  json_output args = true ->
  export_items srv args fid ft st allowed items acc s = (s', Halt o) ->
  o = Raises TypeError /\ exists it, it ∈ items /\ unhashable_tag allowed it.
Proof.
  intros _. revert acc s.
  induction items as [|it rest IH]; intros acc s; simpl; [done|].
  unfold bind.
  destruct (export_item srv args fid ft st allowed it acc s)
    as [s1 [[acc1 fl]|o1]] eqn:Eit.
  - simpl. destruct fl; [|done].
    intros (-> & it' & Hin & Hbad)%IH. split; [done|].
    exists it'. split; [by apply list_elem_of_further|done].
  - intros [= _ <-]. apply export_item_halt in Eit as [-> Hbad].
    split; [done|]. exists it. split; [apply list_elem_of_here|done].
Qed.

Lemma item_loop_halts_with_type_error `{PyBuiltins} (srv : server)
    (args : cli_args) fid ft st allowed items acc s s' o :
  export_items srv args fid ft st allowed items acc s = (s', Halt o) ->
  o = Raises TypeError.
Proof.
  revert acc s. induction items as [|it rest IH]; intros acc s; simpl; [done|].
  unfold bind.
  destruct (export_item srv args fid ft st allowed it acc s)
    as [s1 [[acc1 fl]|o1]] eqn:Eit.
  - simpl. destruct fl; [apply IH|done].
  - intros [= _ <-]. by apply export_item_halt in Eit as [-> _].
Qed.

(** *** The cap on the pages of one folder *)

Lemma content_call_counts p l :
  content_calls (EvCallCF (u "folder-fetchContentWithRelatives") p :: l) =
    S (content_calls l).
Proof.
  unfold content_calls. cbn [List.filter is_content_call].
  by rewrite bool_decide_eq_true_2.
Qed.

Lemma fetch_page_log `{PyBuiltins} (srv : server) (args : cli_args)
    fid st allowed p s :
  log (fst (fetch_page srv args fid st allowed p s)) =
    EvCallCF (u "folder-fetchContentWithRelatives")
             (content_params args fid st allowed p) :: log s
  /\ stop_everything (fst (fetch_page srv args fid st allowed p s)) =
       stop_everything s
  /\ finished (snd (fetch_page srv args fid st allowed p s)).
Proof.
  unfold fetch_page, call_cf, gateway, finished. unfold_run.
  destruct (call_cf_reply srv (log s) _ _) as [msg|body]; [done|].
  destruct (_unwrap_parse_result body) as [payload|o] eqn:Hu.
  - destruct (py_int _) as [code|o] eqn:Hc.
    + by destruct (negb (code =? 200)).
    + simpl. split; [done|]. split; [done|].
      destruct (dict_get_default payload (u "code") (JInt 0)); simpl in Hc;
        try congruence.
      destruct (py_int_of_str s0); congruence.
  - simpl. split; [done|]. split; [done|].
    destruct body; simpl in Hu; try congruence.
    destruct (dict_get kv (u "result")); congruence.
Qed.

Lemma export_items_calls `{PyBuiltins} (srv : server) (args : cli_args)
    fid ft st allowed items acc s :
  stop_everything s = false ->
  content_calls (log (fst (export_items srv args fid ft st allowed items acc s))) =
    content_calls (log s).
Proof.
  intros Hstop.
  pose proof (export_items_keeps srv args
                (fun s' => content_calls (log s') = content_calls (log s))
                (fun _ s' => content_calls (log s') = content_calls (log s))) as Hk.
  specialize (Hk (fun _ _ HI _ _ => HI) (fun _ _ _ _ HI _ _ => HI)).
  assert (Hacc : forall s0 id r,
            content_calls (log s0) = content_calls (log s) ->
            stop_everything s0 = false ->
            content_calls (log (accept_effects args id r s0)) =
              content_calls (log s)).
  { intros s0 id r HI _. by rewrite accept_effects_log. }
  specialize (Hk Hacc (fun _ _ HI => HI) fid ft st allowed items acc s
                (conj eq_refl Hstop)).
  destruct (export_items srv args fid ft st allowed items acc s) as [s1 [a|o]];
    simpl; [by destruct Hk|done].
Qed.

Lemma rewrite_calls (args : cli_args) fid st p s :
  content_calls (log (fst (_rewrite_json_progress args fid st p s))) =
    content_calls (log s).
Proof.
  unfold _rewrite_json_progress. unfold_run.
  destruct (json_output args); [|done]. by destruct (opt_truthy (output args)).
Qed.

(** One turn of the page loop: at most one page fetched; it asks for a
    next page only in [--all] mode, for the next index, and only while
    the cap is not reached; and it never runs out of fuel. *)
Lemma export_page_turn `{PyBuiltins} (srv : server) (args : cli_args)
    fid ft st allowed fs s :
  (content_calls (log (fst (export_page srv args fid ft st allowed fs s)))
   <= S (content_calls (log s)))%nat
  /\ finished (snd (export_page srv args fid ft st allowed fs s))
  /\ forall fs',
       snd (export_page srv args fid ft st allowed fs s) = Val (NextPage fs') ->
       fetch_all args = true
       /\ page_index fs' = page_index fs + 1
       /\ (0 < max_pages args -> page_index fs - page args + 1 < max_pages args).
Proof.
  destruct (export_page srv args fid ft st allowed fs s) as [s' r] eqn:E.
  cbn [fst snd]. revert E.
  unfold export_page, finished. unfold bind at 1. unfold gets.
  cbv beta iota.
  destruct (stop_everything s) eqn:Hs.
  { unfold ret. intros [= <- <-]. split; [lia|]. split; [done|].
    by intros fs' [=]. }
  unfold bind at 1.
  destruct (fetch_page_log srv args fid st allowed (page_index fs) s)
    as (Hlog & Hstop & Hfin).
  destruct (fetch_page srv args fid st allowed (page_index fs) s)
    as [s1 [payload|o]]; cbn [fst snd] in Hlog, Hstop, Hfin.
  2:{ intros [= <- <-]. rewrite Hlog, content_call_counts. split; [lia|].
      split; [intros [= ->]; by apply Hfin|]. by intros fs' [=]. }
  assert (Hc1 : content_calls (log s1) = S (content_calls (log s)))
    by (by rewrite Hlog, content_call_counts).
  rewrite Hs in Hstop.
  destruct (_iter_items_from_folder_content payload) as [|it rest].
  { unfold ret. intros [= <- <-]. split; [lia|]. split; [done|].
    by intros fs' [=]. }
  unfold bind at 1.
  match goal with |- context [export_items ?a ?b ?c ?d ?e ?f ?g ?h s1] =>
    pose proof (export_items_calls a b c d e f g h s1 Hstop) as Hc2;
    destruct (export_items a b c d e f g h s1) as [s2 [acc|o]] eqn:Eit
  end; cbn [fst snd] in Hc2.
  2:{ intros [= <- <-]. split; [lia|]. split; [|by intros fs' [=]].
      apply item_loop_halts_with_type_error in Eit. by rewrite Eit. }
  unfold bind at 1. unfold gets. cbv beta iota.
  destruct (stop_everything s2) eqn:Hs2.
  { unfold ret. intros [= <- <-]. split; [lia|]. split; [done|].
    by intros fs' [=]. }
  unfold bind at 1. rewrite rewrite_returns.
  pose proof (rewrite_calls args fid st (page_index fs) s2) as Hc3.
  destruct (negb (fetch_all args)) eqn:Hall.
  { unfold ret. intros [= <- <-]. split; [lia|]. split; [done|].
    by intros fs' [=]. }
  apply negb_false_iff in Hall. unfold bind at 1. unfold gets.
  cbv beta iota.
  match goal with |- context [pair_exhausted args ?fs3] =>
    destruct (stop_everything _ || pair_exhausted args fs3) eqn:Hex
  end.
  { unfold ret. intros [= <- <-]. split; [lia|]. split; [done|].
    by intros fs' [=]. }
  unfold ret. intros [= <- <-].
  split; [lia|]. split; [done|]. intros fs' [= <-]. cbn.
  split; [done|]. split; [done|]. intros Hcap.
  apply orb_false_elim in Hex as [_ Hex]. unfold pair_exhausted in Hex.
  cbn in Hex. apply orb_false_elim in Hex as [_ Hex].
  apply andb_false_iff in Hex as [Hex|Hex].
  - apply Z.ltb_ge in Hex. lia.
  - by apply Z.leb_gt in Hex.
Qed.

(** Pages the loop may still fetch from the page it stands on. *)
Lemma page_loop_cap `{PyBuiltins} (srv : server) (args : cli_args)
    fid ft st allowed fuel :
  fetch_all args = false \/ 0 < max_pages args ->
  forall fs s,
    (fetch_all args = true -> page_index fs - page args < max_pages args) ->
    let room := if fetch_all args
                then Z.to_nat (max_pages args - (page_index fs - page args))
                else 1%nat in
    (content_calls (log (fst (page_loop srv args fid ft st allowed fuel fs s)))
     <= content_calls (log s) + room)%nat
    /\ ((room <= fuel)%nat ->
        finished (snd (page_loop srv args fid ft st allowed fuel fs s))).
Proof.
  intros Hmode. induction fuel as [|fuel IH]; intros fs s Hfs room.
  all: assert (Hroom1 : (1 <= room)%nat)
         by (subst room; destruct (fetch_all args);
             [specialize (Hfs eq_refl)|]; lia).
  - cbn [page_loop]. unfold halt. cbn [fst snd]. split; lia.
  - cbn [page_loop]. unfold bind.
    destruct (export_page_turn srv args fid ft st allowed fs s)
      as (Hcalls & Hfin & Hnext).
    destruct (export_page srv args fid ft st allowed fs s) as [s1 [r|o]];
      cbn [fst snd] in *.
    2:{ split; [lia|]. intros _ [= ->]. by apply Hfin. }
    destruct r as [fs'|fs'|].
    + destruct (Hnext fs' eq_refl) as (Hall & Hidx & Hcap).
      assert (Hpos : 0 < max_pages args) by (destruct Hmode; congruence).
      specialize (Hcap Hpos).
      destruct (IH fs' s1) as [IHc IHf]; [intros _; lia|].
      subst room. rewrite Hall in *. split; [lia|].
      intros Hroom. apply IHf. lia.
    + unfold ret, finished. cbn [fst snd]. split; [lia|]. by intros _.
    + unfold ret, finished. cbn [fst snd]. split; [lia|]. by intros _.
Qed.

Lemma export_one_folder_cap `{PyBuiltins} (srv : server) (args : cli_args)
    fid ft st allowed fuel s :
  fetch_all args = false \/ 0 < max_pages args ->
  (content_calls
     (log (fst (_export_one_folder srv args fid ft st allowed fuel s)))
   <= content_calls (log s) + page_cap args)%nat
  /\ ((page_cap args <= fuel)%nat ->
      finished (snd (_export_one_folder srv args fid ft st allowed fuel s))).
Proof.
  intros Hmode. unfold _export_one_folder. unfold bind.
  match goal with |- context [page_loop _ _ _ _ _ _ _ ?fs0 s] =>
    destruct (page_loop_cap srv args fid ft st allowed fuel Hmode fs0 s)
      as [Hc Hf]; [cbn; destruct Hmode; [congruence|lia]|];
    destruct (page_loop srv args fid ft st allowed fuel fs0 s)
      as [s1 [r|o]]
  end; cbn [fst snd page_index] in *;
    replace (page args - page args) with 0 in * by lia;
    rewrite Z.sub_0_r in *; fold (page_cap args) in *.
  2:{ split; [exact Hc|]. intros Hfuel [= ->]. by apply (Hf Hfuel). }
  destruct r as [fs|].
  - rewrite rewrite_returns. cbn [fst snd]. rewrite rewrite_calls.
    split; [exact Hc|]. by intros _.
  - unfold ret, finished. cbn [fst snd]. split; [exact Hc|]. by intros _.
Qed.

(** X14. Exporting one folder under one sort order fetches at most
    [page_cap] pages: one page without [--all], at most [--max-pages]
    pages with it; and it ends after that many turns of the loop. *)
Theorem one_folder_page_cap `{PyBuiltins} (srv : server) (args : cli_args)
    fid ft st allowed fuel s :
  fetch_all args = false \/ 0 < max_pages args ->
  (content_calls
     (log (fst (_export_one_folder srv args fid ft st allowed fuel s)))
   <= content_calls (log s) + page_cap args)%nat
  /\ ((page_cap args <= fuel)%nat ->
      finished (snd (_export_one_folder srv args fid ft st allowed fuel s))).
Proof. apply export_one_folder_cap. Qed.

(** *** The run ends *)

Lemma py_int_finished `{PyBuiltins} (v : json) : finished (py_int v).
Proof.
  unfold finished. destruct v; simpl; try done.
  by destruct (py_int_of_str s).
Qed.

Lemma unwrap_finished (resp : json) : finished (_unwrap_parse_result resp).
Proof.
  unfold finished. destruct resp; simpl; try done.
  by destruct (dict_get kv (u "result")).
Qed.

Lemma config_finished `{PyBuiltins} (args : cli_args) :
  finished (_parse_target_types (target_types args))
  /\ finished (_parse_sort_types (sort_types args)).
Proof.
  unfold finished, _parse_target_types, _parse_sort_types. split.
  - destruct (target_types args) as [[|c t]|]; try done.
    destruct (parse_target_parts _ _) as [out|o] eqn:E; [done|].
    apply parse_target_parts_error in E as [msg ->]. done.
  - destruct (sort_types args) as [[|c t]|]; try done.
    destruct (parse_sort_parts _ _) as [out|o] eqn:E; [done|].
    apply parse_sort_parts_error in E as [[msg ->]| ->]; done.
Qed.

Lemma discover_folders_finished `{PyBuiltins} (srv : server) (args : cli_args) s :
  finished (snd (discover_folders srv args s)).
Proof.
  unfold discover_folders, call_cf, gateway, finished. unfold_run.
  destruct (call_cf_reply srv (log s) _ _) as [msg|resp]; [done|].
  pose proof (unwrap_finished resp) as Hu.
  destruct (_unwrap_parse_result resp) as [payload|o]; [|by intros [= ->]].
  pose proof (py_int_finished (dict_get_default payload (u "code") (JInt 0))) as Hc.
  unfold folders_code.
  destruct (py_int _) as [code|o]; [|by intros [= ->]].
  destruct (negb (code =? 200)); [done|].
  destruct (dict_get payload (u "result")) as [| | | | |folders|]; try done.
  destruct (opt_truthy (pfid args) && (length folders =? 0)%nat); [|done].
  destruct (call_cf_reply srv _ _ _) as [msg|resp2]; [done|].
  pose proof (unwrap_finished resp2) as Hu2.
  destruct (_unwrap_parse_result resp2) as [payload2|o]; [|by intros [= ->]].
  pose proof (py_int_finished (dict_get_default payload2 (u "code") (JInt 0)))
    as Hc2.
  destruct (py_int _) as [code2|o]; [|by intros [= ->]].
  by destruct (dict_get payload2 (u "result")).
Qed.

Lemma select_finished `{PyBuiltins} (args : cli_args) (folders : list json) :
  finished (select_export_folders args folders).
Proof.
  unfold finished, select_export_folders.
  destruct (opt_truthy (folder_id_arg args)).
  { by destruct (filter _ _). }
  destruct (all_folders args).
  { match goal with |- context [match ?l with [] => _ | _ :: _ => _ end] =>
      by destruct l
    end. }
  destruct (_pick_folder _) as [[|? ?]|]; try done;
    by destruct (opt_truthy (pfid args)).
Qed.

Lemma main_prelude_finished `{PyBuiltins} (srv : server) (args : cli_args) s :
  finished (snd (main_prelude srv args s)).
Proof.
  unfold main_prelude, finished.
  destruct (negb (opt_truthy (session_token args))); [done|].
  destruct (opt_truthy (targets_for_item args)).
  { unfold fetch_item_targets, gateway. unfold_run.
    by destruct (item_targets_reply srv _ _). }
  destruct (json_output args && negb (opt_truthy (output args))); [done|].
  unfold bind, lift.
  pose proof (discover_folders_finished srv args s) as Hd.
  destruct (discover_folders srv args s) as [s1 [folders|o]]; simpl in *;
    [|by intros [= ->]].
  pose proof (select_finished args folders) as Hsel.
  destruct (select_export_folders args folders); [done|by intros [= ->]].
Qed.

Lemma prelude_no_content (ext l : list event) :
  forallb is_prelude_event ext = true ->
  content_calls (ext ++ l) = content_calls l.
Proof.
  unfold content_calls. induction ext as [|e ext IH]; [done|].
  cbn [forallb]. intros [He Hext]%andb_prop. cbn [app List.filter].
  destruct e as [f p| | | |]; try done; try by apply IH.
  cbn [is_prelude_event is_content_call] in *.
  apply bool_decide_eq_true_1 in He. subst f.
  rewrite bool_decide_eq_false_2; [by apply IH|]. vm_compute. discriminate.
Qed.

Lemma sort_loop_cap `{PyBuiltins} (srv : server) (args : cli_args)
    fuel fid ft allowed sts s :
  fetch_all args = false \/ 0 < max_pages args ->
  (content_calls (log (fst (sort_loop srv args fuel fid ft allowed sts s)))
   <= content_calls (log s) + length sts * page_cap args)%nat
  /\ ((page_cap args <= fuel)%nat ->
      finished (snd (sort_loop srv args fuel fid ft allowed sts s))).
Proof.
  intros Hmode. revert s. induction sts as [|st rest IH]; intros s.
  { unfold finished. cbn. split; [lia|done]. }
  destruct (sort_loop srv args fuel fid ft allowed (st :: rest) s)
    as [s' r] eqn:E.
  cbn [fst snd length]. revert E. cbn [sort_loop]. unfold bind at 1.
  destruct (export_one_folder_cap srv args fid ft st allowed fuel s Hmode)
    as [Hc Hf].
  destruct (_export_one_folder srv args fid ft st allowed fuel s)
    as [s1 [[]|o]]; cbn [fst snd] in *.
  2:{ intros [= <- <-]. split; [lia|]. intros Hfuel [= ->]. by apply (Hf Hfuel). }
  unfold bind, gets. destruct (stop_everything s1).
  { unfold ret, finished. intros [= <- <-]. split; [lia|done]. }
  destruct (IH s1) as [IHc IHf]. intros E. rewrite E in IHc, IHf.
  cbn [fst snd] in *. split; [lia|exact IHf].
Qed.

Lemma folder_loop_cap `{PyBuiltins} (srv : server) (args : cli_args)
    fuel allowed sts folders s :
  fetch_all args = false \/ 0 < max_pages args ->
  (content_calls (log (fst (folder_loop srv args fuel allowed sts folders s)))
   <= content_calls (log s)
      + (if fetch_all args then length folders else 1)
        * (length sts * page_cap args))%nat
  /\ ((page_cap args <= fuel)%nat ->
      finished (snd (folder_loop srv args fuel allowed sts folders s))).
Proof.
  intros Hmode. revert s.
  induction folders as [|[fid ft] rest IH]; intros s.
  { unfold finished. cbn. split; [lia|done]. }
  destruct (folder_loop srv args fuel allowed sts ((fid, ft) :: rest) s)
    as [s' r] eqn:E.
  cbn [fst snd length]. revert E. cbn [folder_loop].
  destruct (negb (nonempty fid)).
  { destruct (IH s) as [IHc IHf]. intros E. rewrite E in IHc, IHf.
    cbn [fst snd] in *. split; [|exact IHf].
    destruct (fetch_all args); nia. }
  unfold bind at 1.
  destruct (sort_loop_cap srv args fuel fid ft allowed sts s Hmode) as [Hc Hf].
  destruct (sort_loop srv args fuel fid ft allowed sts s) as [s1 [[]|o]];
    cbn [fst snd] in *.
  2:{ intros [= <- <-]. split; [destruct (fetch_all args); nia|].
      intros Hfuel [= ->]. by apply (Hf Hfuel). }
  unfold bind, gets. destruct (stop_everything s1).
  { unfold ret, finished. intros [= <- <-].
    split; [destruct (fetch_all args); nia|done]. }
  destruct (fetch_all args) eqn:Hall; cbn [negb].
  - destruct (IH s1) as [IHc IHf]. intros E. rewrite E in IHc, IHf.
    cbn [fst snd] in *. split; [nia|exact IHf].
  - unfold ret, finished. intros [= <- <-]. split; [nia|done].
Qed.

Lemma export_selected_cap `{PyBuiltins} (srv : server) (args : cli_args)
    fuel folders s :
  fetch_all args = false \/ 0 < max_pages args ->
  (fetch_all args = false ->
   (content_calls (log (fst (export_selected srv args fuel folders s)))
    <= S (content_calls (log s)))%nat)
  /\ ((page_cap args <= fuel)%nat ->
      finished (snd (export_selected srv args fuel folders s))).
Proof.
  intros Hmode.
  destruct (export_selected srv args fuel folders s) as [s' r] eqn:E.
  cbn [fst snd]. revert E.
  unfold export_selected. unfold bind at 1. unfold lift.
  destruct (config_finished args) as [Ht Hs].
  destruct (_parse_target_types (target_types args)) as [explicit|o].
  2:{ intros [= <- <-]. split; [lia|]. intros _ [= ->]. by apply Ht. }
  unfold bind at 1.
  destruct (_parse_sort_types (sort_types args)) as [sorts|o].
  2:{ intros [= <- <-]. split; [lia|]. intros _ [= ->]. by apply Hs. }
  unfold bind at 1.
  destruct (folder_loop_cap srv args fuel (allowed_types_of args explicit)
              (active_sort_types_of args sorts) folders s Hmode) as [Hc Hf].
  assert (Hone : fetch_all args = false ->
                 (content_calls (log (fst (folder_loop srv args fuel
                    (allowed_types_of args explicit)
                    (active_sort_types_of args sorts) folders s)))
                  <= S (content_calls (log s)))%nat).
  { intros Hall. unfold active_sort_types_of, page_cap in *.
    rewrite Hall in *. cbn [andb length] in *. lia. }
  clear Hc.
  destruct (folder_loop srv args fuel _ _ folders s) as [s1 [[]|o]];
    cbn [fst snd] in *.
  2:{ intros [= <- <-]. split; [exact Hone|].
      intros Hfuel [= ->]. by apply (Hf Hfuel). }
  assert (Hfinal : forall fid0 st0,
            exists s2,
              (if json_output args
               then _rewrite_json_progress args fid0 st0 (page args)
               else ret tt) s1 = (s2, Val tt)
              /\ content_calls (log s2) = content_calls (log s1)).
  { intros fid0 st0. destruct (json_output args).
    - eexists. split; [apply rewrite_returns|apply rewrite_calls].
    - by exists s1. }
  destruct folders as [|[fid0 ft0] rest].
  { unfold ret, finished. intros [= <- <-]. split; [exact Hone|done]. }
  destruct (active_sort_types_of args sorts) as [|st0 sts].
  { unfold ret, finished. intros [= <- <-]. split; [exact Hone|done]. }
  unfold bind. destruct (Hfinal fid0 st0) as (s2 & -> & Hcalls).
  unfold ret, finished. intros [= <- <-]. rewrite Hcalls.
  split; [exact Hone|done].
Qed.

(** X15. With a page cap in force -- single-page mode, or [--all] with a
    positive [--max-pages] -- the run ends whatever the server answers:
    the page loop of each folder and sort order takes at most [page_cap]
    turns. *)
Theorem run_ends `{PyBuiltins} (srv : server) (args : cli_args) (fuel : nat) :
  fetch_all args = false \/ 0 < max_pages args ->
  (page_cap args <= fuel)%nat ->
  snd (run srv args fuel) <> OutOfFuel.
Proof.
  intros Hmode Hfuel. unfold run, main. unfold bind.
  pose proof (main_prelude_finished srv args initial_state) as Hp.
  destruct (main_prelude srv args initial_state) as [s1 [folders|o]];
    cbn [fst snd] in *; [|by intros ->].
  destruct (export_selected_cap srv args fuel folders s1 Hmode) as [_ Hf].
  specialize (Hf Hfuel).
  destruct (export_selected srv args fuel folders s1) as [s2 [code|o]];
    cbn [fst snd] in *; [done|by intros ->].
Qed.

Lemma single_page_one_call `{PyBuiltins} (srv : server)
    (args : cli_args) (fuel : nat) :
  fetch_all args = false ->
  (content_calls (log (fst (run srv args fuel))) <= 1)%nat.
Proof.
  intros Hall. unfold run, main. unfold bind.
  destruct (main_prelude_shape srv args initial_state)
    as [_ (ext & Hlog & Hext)].
  assert (H0 : content_calls
                 (log (fst (main_prelude srv args initial_state))) = 0%nat).
  { rewrite Hlog. by rewrite prelude_no_content. }
  destruct (main_prelude srv args initial_state) as [s1 [folders|o]];
    cbn [fst snd] in *; [|lia].
  destruct (export_selected_cap srv args fuel folders s1 (or_introl Hall))
    as [Hc _]. specialize (Hc Hall).
  destruct (export_selected srv args fuel folders s1) as [s2 [code|o]];
    cbn [fst snd] in *; lia.
Qed.

(** *** Where a record comes from *)

Lemma maybe_word_step_log s s1 :
  maybe_word_step s s1 ->
  forall id r, EvRecord id r ∈ log s1 -> EvRecord id r ∈ log s.
Proof.
  intros [->|(w & v & _ & ->)] id r; [done|].
  cbn. by intros [[=]|Hin]%elem_of_cons.
Qed.

Lemma classify_item_log `{PyBuiltins} (srv : server) (args : cli_args)
    fid ft st tt target item_id id s id' r :
  EvRecord id' r ∈
    log (fst (classify_item srv args fid ft st tt target item_id id s)) ->
  EvRecord id' r ∈ log s
  \/ (id' = id /\ record_tag r = tt
      /\ (if is_sentence_record r
          then py_eq_int tt 103 || py_eq_int tt 120 = true
          else py_eq_int tt 103 || py_eq_int tt 120 = false
               /\ py_eq_int tt 102 = true)).
Proof.
  unfold classify_item.
  destruct (py_eq_int tt 103 || py_eq_int tt 120) eqn:Hs.
  - destruct (export_sentence_cases srv args fid ft st tt target item_id id s)
      as (s1 & word & Hm & ->).
    destruct (nonempty (sentence_jp target)).
    + rewrite accept_record_eq. cbn [fst]. rewrite accept_effects_log.
      intros [[= -> ->]|Hin]%elem_of_cons; [by right|].
      left. by eapply maybe_word_step_log.
    + cbn [fst]. intros Hin. left. by eapply maybe_word_step_log.
  - destruct (py_eq_int tt 102) eqn:Hw; [|by left].
    destruct (export_word_cases srv args fid ft st tt target item_id id s)
      as (s1 & f & Hm & _ & ->).
    destruct (nonempty (f_spell f) || nonempty (f_excerpt f)).
    + rewrite accept_record_eq. cbn [fst]. rewrite accept_effects_log.
      intros [[= -> ->]|Hin]%elem_of_cons; [by right|].
      left. by eapply maybe_word_step_log.
    + cbn [fst]. intros Hin. left. by eapply maybe_word_step_log.
Qed.

Lemma export_item_log `{PyBuiltins} (srv : server) (args : cli_args)
    fid ft st allowed it acc s id r :
  EvRecord id r ∈ log (fst (export_item srv args fid ft st allowed it acc s)) ->
  EvRecord id r ∈ log s \/ record_from_item allowed it id r.
Proof.
  unfold export_item, record_from_item, identity_of.
  destruct (dict_get it (u "target")) as [| | | | | |target]; try by left.
  set (tt := dict_get it (u "targetType")).
  set (iid := item_id_s_of tt (item_id_of target)).
  destruct (fetch_all args && bool_decide (iid ∈ acc_seen_in_folder acc));
    [by left|].
  unfold bind at 1. unfold lift.
  destruct (py_in_int_set tt allowed) as [[|]|o] eqn:Hallowed; try by left.
  cbn [negb]. unfold bind at 1. unfold gets.
  destruct (bool_decide (iid ∈ seen_item_ids_global s)); [by left|].
  unfold bind at 1. unfold modify. unfold bind at 1. fold (marked iid s).
  intros Hin.
  assert (Hc : EvRecord id r ∈
            log (fst (classify_item srv args fid ft st tt target
                        (item_id_of target) iid (marked iid s)))).
  { destruct (classify_item srv args fid ft st tt target (item_id_of target)
                iid (marked iid s)) as [s1 [fl|o]]; [|exact Hin].
    destruct fl; unfold_run; cbn [fst] in *; [|exact Hin].
    by destruct (negb (fetch_all args) && _). }
  apply classify_item_log in Hc as [Hold|(-> & Htag & Hkind)]; [by left|].
  right. rewrite Htag. done.
Qed.

(** X17. Every record the item loop writes comes from an item of the
    page: it carries that item's identity and type tag, the tag is in
    the allowed set, a sentence record has tag 103 or 120 and a word
    record has tag 102; an item of any other type, or of a type that is
    filtered out, leaves no record. *)
Theorem records_pass_type_filter `{PyBuiltins} (srv : server) (args : cli_args)
    fid ft st allowed items acc s id r :
  EvRecord id r ∈ log (fst (export_items srv args fid ft st allowed items acc s)) ->
  EvRecord id r ∈ log s
  \/ exists it, it ∈ items /\ record_from_item allowed it id r.
Proof.
  revert acc s. induction items as [|it rest IH]; intros acc s; [by left|].
  cbn [export_items]. unfold bind.
  pose proof (export_item_log srv args fid ft st allowed it acc s id r) as Hit.
  destruct (export_item srv args fid ft st allowed it acc s)
    as [s1 [[acc1 fl]|o]]; cbn [fst snd] in *.
  - assert (Hhere : EvRecord id r ∈ log s1 ->
              EvRecord id r ∈ log s
              \/ exists it0, it0 ∈ it :: rest /\ record_from_item allowed it0 id r).
    { intros [Hold|Hnew]%Hit; [by left|].
      right. exists it. split; [apply list_elem_of_here|done]. }
    destruct fl; [|exact Hhere].
    intros [Hin|(it0 & Hit0 & Hr)]%IH; [by apply Hhere|].
    right. exists it0. split; [by apply list_elem_of_further|done].
  - intros [Hold|Hnew]%Hit; [by left|].
    right. exists it. split; [apply list_elem_of_here|done].
Qed.

(** *** Runs that stop before the traversal *)

(** X18. Usage errors cost no network call: without a session token,
    or with [--json] but no [--output] file (and no
    [--targets-for-item]), the run returns 2 from the untouched initial
    state, whatever the other options say. *)
Theorem usage_errors_before_network `{PyBuiltins} (srv : server)
    (args : cli_args) (fuel : nat) :
  opt_truthy (session_token args) = false
  \/ (opt_truthy (targets_for_item args) = false
      /\ json_output args = true /\ opt_truthy (output args) = false) ->
  run srv args fuel = (initial_state, Exits 2).
Proof.
  unfold run, main, main_prelude. unfold bind at 1.
  intros [Htok|(Hitem & Hjson & Hout)].
  - by rewrite Htok.
  - rewrite Hitem, Hjson, Hout.
    by destruct (negb (opt_truthy (session_token args))).
Qed.

(** X19. The diagnostic mode [--targets-for-item] makes exactly one
    call, the item-targets lookup of that item, and nothing else: no
    folder discovery, no page fetch, no record.  It returns 0 when the
    lookup answers and 1 when it fails, and never reads the type or sort
    lists. *)
Theorem targets_for_item_only_lookup `{PyBuiltins} (srv : server)
    (args : cli_args) (fuel : nat) :
  opt_truthy (session_token args) = true ->
  opt_truthy (targets_for_item args) = true ->
  let item := default [] (targets_for_item args) in
  run srv args fuel =
    (add_event (EvItemTargets item) initial_state,
     Exits (match item_targets_reply srv [] item with
            | inl _ => 1
            | inr _ => 0
            end)).
Proof.
  intros Htok Hitem item.
  unfold run, main, main_prelude. unfold bind at 1.
  rewrite Htok, Hitem. cbn [negb].
  unfold fetch_item_targets, gateway. unfold_run. cbn [log initial_state].
  fold item. by destruct (item_targets_reply srv [] item).
Qed.

(** *** The record limit of single-page mode *)

Lemma maybe_word_step_printed s s1 :
  maybe_word_step s s1 -> printed_total s1 = printed_total s.
Proof. by intros [->|(w & v & _ & ->)]. Qed.

Lemma classify_item_printed `{PyBuiltins} (srv : server) (args : cli_args)
    fid ft st tt target item_id id s :
  let s1 := fst (classify_item srv args fid ft st tt target item_id id s) in
  printed_total s1 = printed_total s \/ printed_total s1 = S (printed_total s).
Proof.
  unfold classify_item.
  destruct (py_eq_int tt 103 || py_eq_int tt 120).
  - destruct (export_sentence_cases srv args fid ft st tt target item_id id s)
      as (s1 & word & Hm%maybe_word_step_printed & ->).
    destruct (nonempty (sentence_jp target)); cbn [fst]; [|by left].
    rewrite accept_record_eq. cbn [fst]. rewrite accept_effects_printed.
    right. by rewrite Hm.
  - destruct (py_eq_int tt 102); [|by left].
    destruct (export_word_cases srv args fid ft st tt target item_id id s)
      as (s1 & f & Hm%maybe_word_step_printed & _ & ->).
    destruct (nonempty (f_spell f) || nonempty (f_excerpt f)); cbn [fst];
      [|by left].
    rewrite accept_record_eq. cbn [fst]. rewrite accept_effects_printed.
    right. by rewrite Hm.
Qed.

Lemma export_item_limit `{PyBuiltins} (srv : server) (args : cli_args)
    fid ft st allowed it acc s s1 r :
  fetch_all args = false ->
  export_item srv args fid ft st allowed it acc s = (s1, r) ->
  (printed_total s1 = printed_total s \/ printed_total s1 = S (printed_total s))
  /\ (forall acc', r = Val (acc', Continue) ->
      printed_total s1 = printed_total s
      \/ Z.of_nat (printed_total s1) < limit args).
Proof.
  intros Hall. unfold export_item. rewrite Hall. cbn [andb negb].
  destruct (dict_get it (u "target")) as [| | | | | |target];
    try (unfold ret; intros [= <- <-]; split; by left).
  set (tt := dict_get it (u "targetType")).
  set (iid := item_id_s_of tt (item_id_of target)).
  unfold bind at 1. unfold lift.
  destruct (py_in_int_set tt allowed) as [[|]|o];
    try (unfold ret; intros [= <- <-]; split; by left).
  cbn [negb]. unfold bind at 1. unfold gets.
  destruct (bool_decide (iid ∈ seen_item_ids_global s));
    [unfold ret; intros [= <- <-]; split; by left|].
  unfold bind at 1. unfold modify. unfold bind at 1. fold (marked iid s).
  pose proof (classify_item_printed srv args fid ft st tt target
                (item_id_of target) iid (marked iid s)) as Hp.
  destruct (classify_item srv args fid ft st tt target (item_id_of target)
              iid (marked iid s)) as [s2 [fl|o]]; cbn [fst] in Hp.
  2:{ intros [= <- <-]. split; [exact Hp|done]. }
  destruct fl.
  - unfold bind, gets, ret.
    destruct (limit args <=? Z.of_nat (printed_total s2)) eqn:Hl.
    + intros [= <- <-]. split; [exact Hp|done].
    + intros [= <- <-]. split; [exact Hp|]. intros _ _. right.
      by apply Z.leb_gt in Hl.
  - unfold ret. intros [= <- <-]. split; [exact Hp|done].
Qed.

Lemma export_items_limit `{PyBuiltins} (srv : server) (args : cli_args)
    fid ft st allowed items acc s :
  fetch_all args = false ->
  Z.of_nat (printed_total
              (fst (export_items srv args fid ft st allowed items acc s)))
  <= Z.max (Z.of_nat (printed_total s) + 1) (limit args).
Proof.
  intros Hall. revert acc s.
  induction items as [|it rest IH]; intros acc s; [cbn; lia|].
  cbn [export_items]. unfold bind.
  destruct (export_item srv args fid ft st allowed it acc s)
    as [s1 r] eqn:E.
  destruct (export_item_limit srv args fid ft st allowed it acc s s1 r Hall E)
    as [Hstep Hcont].
  destruct r as [[acc1 fl]|o]; cbn [fst snd]; [|lia].
  destruct fl; [|unfold ret; cbn [fst]; lia].
  specialize (IH acc1 s1).
  destruct (Hcont acc1 eq_refl) as [Hsame|Hlt]; [rewrite Hsame in IH|]; lia.
Qed.

Lemma rewrite_printed (args : cli_args) fid st p s :
  printed_total (fst (_rewrite_json_progress args fid st p s)) = printed_total s.
Proof.
  unfold _rewrite_json_progress. unfold_run.
  destruct (json_output args); [|done]. by destruct (opt_truthy (output args)).
Qed.

Lemma export_page_limit `{PyBuiltins} (srv : server) (args : cli_args)
    fid ft st allowed fs s :
  fetch_all args = false ->
  Z.of_nat (printed_total (fst (export_page srv args fid ft st allowed fs s)))
  <= Z.max (Z.of_nat (printed_total s) + 1) (limit args).
Proof.
  intros Hall.
  destruct (export_page srv args fid ft st allowed fs s) as [s' r] eqn:E.
  cbn [fst]. revert E.
  unfold export_page. unfold bind at 1. unfold gets. cbv beta iota.
  destruct (stop_everything s); [unfold ret; intros [= <- <-]; lia|].
  unfold bind at 1.
  destruct (fetch_page_same srv args fid st allowed (page_index fs) s)
    as [(_ & _ & Hp & _) _].
  destruct (fetch_page srv args fid st allowed (page_index fs) s)
    as [s1 [payload|o]]; cbn [fst] in Hp; [|intros [= <- <-]; lia].
  destruct (_iter_items_from_folder_content payload) as [|it rest];
    [unfold ret; intros [= <- <-]; lia|].
  unfold bind at 1.
  match goal with |- context [export_items ?a ?b ?c ?d ?e ?f ?g ?h s1] =>
    pose proof (export_items_limit a b c d e f g h s1 Hall) as Hl;
    destruct (export_items a b c d e f g h s1) as [s2 [acc|o]]
  end; cbn [fst] in Hl; [|intros [= <- <-]; lia].
  unfold bind at 1. unfold gets. cbv beta iota.
  destruct (stop_everything s2); [unfold ret; intros [= <- <-]; lia|].
  unfold bind at 1. rewrite rewrite_returns.
  pose proof (rewrite_printed args fid st (page_index fs) s2) as Hr.
  rewrite Hall. cbn [negb]. unfold ret. intros [= <- <-]. lia.
Qed.

Lemma export_one_folder_limit `{PyBuiltins} (srv : server) (args : cli_args)
    fid ft st allowed fuel s :
  fetch_all args = false ->
  Z.of_nat (printed_total
              (fst (_export_one_folder srv args fid ft st allowed fuel s)))
  <= Z.max (Z.of_nat (printed_total s) + 1) (limit args).
Proof.
  intros Hall. unfold _export_one_folder. unfold bind.
  destruct fuel as [|fuel]; [cbn; lia|].
  cbn [page_loop]. unfold bind.
  match goal with |- context [export_page _ _ _ _ _ _ ?fs0 s] =>
    pose proof (export_page_limit srv args fid ft st allowed fs0 s Hall) as Hl;
    destruct (export_page_turn srv args fid ft st allowed fs0 s)
      as (_ & _ & Hnext);
    destruct (export_page srv args fid ft st allowed fs0 s) as [s1 [r|o]]
  end; cbn [fst snd] in *; [|lia].
  destruct r as [fs'|fs'|].
  - destruct (Hnext fs' eq_refl) as [Habs _]. congruence.
  - unfold ret. by rewrite rewrite_printed.
  - unfold ret. cbn [fst]. lia.
Qed.

Lemma folder_loop_limit `{PyBuiltins} (srv : server) (args : cli_args)
    fuel allowed st folders s :
  fetch_all args = false ->
  Z.of_nat (printed_total
              (fst (folder_loop srv args fuel allowed [st] folders s)))
  <= Z.max (Z.of_nat (printed_total s) + 1) (limit args).
Proof.
  intros Hall. induction folders as [|[fid ft] rest IH]; [cbn; lia|].
  cbn [folder_loop sort_loop].
  destruct (negb (nonempty fid)); [exact IH|].
  unfold bind at 1. unfold bind at 1.
  pose proof (export_one_folder_limit srv args fid ft st allowed fuel s Hall)
    as Hl.
  destruct (_export_one_folder srv args fid ft st allowed fuel s)
    as [s1 [[]|o]]; cbn [fst] in Hl; [|cbn [fst]; lia].
  unfold bind, gets, ret. rewrite Hall. cbn [negb].
  destruct (stop_everything s1) eqn:Hs; cbn [fst snd]; rewrite Hs; exact Hl.
Qed.

Lemma export_selected_limit `{PyBuiltins} (srv : server) (args : cli_args)
    fuel folders s :
  fetch_all args = false ->
  Z.of_nat (printed_total (fst (export_selected srv args fuel folders s)))
  <= Z.max (Z.of_nat (printed_total s) + 1) (limit args).
Proof.
  intros Hall.
  destruct (export_selected srv args fuel folders s) as [s' r] eqn:E.
  cbn [fst]. revert E.
  unfold export_selected. unfold bind at 1. unfold lift.
  destruct (_parse_target_types (target_types args)) as [explicit|o];
    [|intros [= <- <-]; lia].
  unfold bind at 1.
  destruct (_parse_sort_types (sort_types args)) as [sorts|o];
    [|intros [= <- <-]; lia].
  unfold bind at 1. unfold active_sort_types_of. rewrite Hall. cbn [andb].
  pose proof (folder_loop_limit srv args fuel (allowed_types_of args explicit)
                (sort_type_arg args) folders s Hall) as Hl.
  destruct (folder_loop srv args fuel _ _ folders s) as [s1 [[]|o]];
    cbn [fst] in Hl; [|intros [= <- <-]; lia].
  destruct folders as [|[fid0 ft0] rest]; [unfold ret; intros [= <- <-]; lia|].
  unfold bind, ret. destruct (json_output args).
  - rewrite rewrite_returns. intros [= <- <-]. by rewrite rewrite_printed.
  - intros [= <- <-]. lia.
Qed.

(** X20. Single-page mode honours [--limit]: a run without [--all]
    writes at most [--limit] records, and at most one when the limit is
    below one (the limit is only checked after a record is written). *)
Theorem single_page_mode_limit `{PyBuiltins} (srv : server) (args : cli_args)
    (fuel : nat) :
  fetch_all args = false ->
  Z.of_nat (count_records (log (fst (run srv args fuel))))
  <= Z.max 1 (limit args).
Proof.
  intros Hall.
  destruct (dedup_run srv args fuel) as (_ & _ & Hcount & _).
  unfold count_records. rewrite <- Hcount. clear Hcount.
  unfold run, main. unfold bind.
  destruct (main_prelude_shape srv args initial_state)
    as [(_ & _ & Hp & _) _].
  destruct (main_prelude srv args initial_state) as [s1 [folders|o]];
    cbn [fst snd] in *; [|rewrite Hp; cbn; lia].
  pose proof (export_selected_limit srv args fuel folders s1 Hall) as Hl.
  rewrite Hp in Hl. cbn [printed_total initial_state] in Hl.
  destruct (export_selected srv args fuel folders s1) as [s2 [code|o]];
    cbn [fst] in *; lia.
Qed.

(** *** The type filter over a whole run *)

Lemma adds_refl allowed s : adds_allowed_records allowed s s.
Proof. intros id r Hin. by left. Qed.

Lemma adds_trans allowed s1 s2 s3 :
  adds_allowed_records allowed s1 s2 ->
  adds_allowed_records allowed s2 s3 ->
  adds_allowed_records allowed s1 s3.
Proof.
  intros H12 H23 id r [Hin|Hnew]%H23; [by apply H12|by right].
Qed.

Lemma adds_same_records allowed s s' :
  (forall id r, EvRecord id r ∈ log s' -> EvRecord id r ∈ log s) ->
  adds_allowed_records allowed s s'.
Proof. intros Hsub id r Hin. left. by apply Hsub. Qed.

Lemma rewrite_adds (args : cli_args) allowed fid st p s :
  adds_allowed_records allowed s (fst (_rewrite_json_progress args fid st p s)).
Proof.
  apply adds_same_records. unfold _rewrite_json_progress. unfold_run.
  destruct (json_output args); [|done].
  destruct (opt_truthy (output args)); [|done].
  cbn. by intros id r [[=]|Hin]%elem_of_cons.
Qed.

Lemma fetch_page_adds `{PyBuiltins} (srv : server) (args : cli_args)
    allowed fid st p s :
  adds_allowed_records allowed s (fst (fetch_page srv args fid st allowed p s)).
Proof.
  apply adds_same_records.
  destruct (fetch_page_log srv args fid st allowed p s) as [-> _].
  by intros id r [[=]|Hin]%elem_of_cons.
Qed.

Lemma export_items_adds `{PyBuiltins} (srv : server) (args : cli_args)
    fid ft st allowed items acc s :
  adds_allowed_records allowed s
    (fst (export_items srv args fid ft st allowed items acc s)).
Proof.
  revert acc s. induction items as [|it rest IH]; intros acc s;
    [apply adds_refl|].
  cbn [export_items]. unfold bind.
  assert (Hit : adds_allowed_records allowed s
                  (fst (export_item srv args fid ft st allowed it acc s))).
  { intros id r [Hold|(_ & _ & Hr)]%export_item_log; [by left|by right]. }
  destruct (export_item srv args fid ft st allowed it acc s)
    as [s1 [[acc1 fl]|o]]; cbn [fst snd] in *; [|exact Hit].
  destruct fl; [|exact Hit].
  eapply adds_trans; [exact Hit|apply IH].
Qed.

Lemma export_page_adds `{PyBuiltins} (srv : server) (args : cli_args)
    fid ft st allowed fs s :
  adds_allowed_records allowed s
    (fst (export_page srv args fid ft st allowed fs s)).
Proof.
  destruct (export_page srv args fid ft st allowed fs s) as [s' r] eqn:E.
  cbn [fst]. revert E.
  unfold export_page. unfold bind at 1. unfold gets. cbv beta iota.
  destruct (stop_everything s);
    [unfold ret; intros [= <- <-]; apply adds_refl|].
  unfold bind at 1.
  pose proof (fetch_page_adds srv args allowed fid st (page_index fs) s) as H1.
  destruct (fetch_page srv args fid st allowed (page_index fs) s)
    as [s1 [payload|o]]; cbn [fst] in H1; [|by intros [= <- <-]].
  destruct (_iter_items_from_folder_content payload) as [|it rest];
    [unfold ret; by intros [= <- <-]|].
  unfold bind at 1.
  match goal with |- context [export_items ?a ?b ?c ?d ?e ?f ?g ?h s1] =>
    pose proof (export_items_adds a b c d e f g h s1) as H2;
    destruct (export_items a b c d e f g h s1) as [s2 [acc|o]]
  end; cbn [fst] in H2.
  2:{ intros [= <- <-]. by eapply adds_trans. }
  assert (H12 : adds_allowed_records allowed s s2) by (by eapply adds_trans).
  unfold bind at 1. unfold gets. cbv beta iota.
  destruct (stop_everything s2); [unfold ret; by intros [= <- <-]|].
  unfold bind at 1. rewrite rewrite_returns.
  pose proof (rewrite_adds args allowed fid st (page_index fs) s2) as H3.
  assert (H13 : adds_allowed_records allowed s
                  (fst (_rewrite_json_progress args fid st (page_index fs) s2)))
    by (by eapply adds_trans).
  destruct (negb (fetch_all args)); [unfold ret; by intros [= <- <-]|].
  unfold bind, gets, ret.
  match goal with |- context [if ?c then _ else _] => destruct c end;
    by intros [= <- <-].
Qed.

Lemma page_loop_adds `{PyBuiltins} (srv : server) (args : cli_args)
    fid ft st allowed fuel fs s :
  adds_allowed_records allowed s
    (fst (page_loop srv args fid ft st allowed fuel fs s)).
Proof.
  revert fs s. induction fuel as [|fuel IH]; intros fs s; [apply adds_refl|].
  cbn [page_loop]. unfold bind.
  pose proof (export_page_adds srv args fid ft st allowed fs s) as H1.
  destruct (export_page srv args fid ft st allowed fs s) as [s1 [r|o]];
    cbn [fst] in *; [|exact H1].
  destruct r as [fs'|fs'|]; [|exact H1|exact H1].
  eapply adds_trans; [exact H1|apply IH].
Qed.

Lemma export_one_folder_adds `{PyBuiltins} (srv : server) (args : cli_args)
    fid ft st allowed fuel s :
  adds_allowed_records allowed s
    (fst (_export_one_folder srv args fid ft st allowed fuel s)).
Proof.
  unfold _export_one_folder. unfold bind.
  match goal with |- context [page_loop _ _ _ _ _ _ _ ?fs0 s] =>
    pose proof (page_loop_adds srv args fid ft st allowed fuel fs0 s) as H1;
    destruct (page_loop srv args fid ft st allowed fuel fs0 s) as [s1 [r|o]]
  end; cbn [fst] in *; [|exact H1].
  destruct r as [fs|]; [|exact H1].
  eapply adds_trans; [exact H1|apply rewrite_adds].
Qed.

Lemma sort_loop_adds `{PyBuiltins} (srv : server) (args : cli_args)
    fuel fid ft allowed sts s :
  adds_allowed_records allowed s
    (fst (sort_loop srv args fuel fid ft allowed sts s)).
Proof.
  revert s. induction sts as [|st rest IH]; intros s; [apply adds_refl|].
  cbn [sort_loop]. unfold bind at 1.
  pose proof (export_one_folder_adds srv args fid ft st allowed fuel s) as H1.
  destruct (_export_one_folder srv args fid ft st allowed fuel s)
    as [s1 [[]|o]]; cbn [fst] in *; [|exact H1].
  unfold bind, gets. destruct (stop_everything s1); [exact H1|].
  eapply adds_trans; [exact H1|apply IH].
Qed.

Lemma folder_loop_adds `{PyBuiltins} (srv : server) (args : cli_args)
    fuel allowed sts folders s :
  adds_allowed_records allowed s
    (fst (folder_loop srv args fuel allowed sts folders s)).
Proof.
  revert s. induction folders as [|[fid ft] rest IH]; intros s;
    [apply adds_refl|].
  cbn [folder_loop]. destruct (negb (nonempty fid)); [apply IH|].
  unfold bind at 1.
  pose proof (sort_loop_adds srv args fuel fid ft allowed sts s) as H1.
  destruct (sort_loop srv args fuel fid ft allowed sts s) as [s1 [[]|o]];
    cbn [fst] in *; [|exact H1].
  unfold bind, gets. destruct (stop_everything s1); [exact H1|].
  destruct (negb (fetch_all args)); [exact H1|].
  eapply adds_trans; [exact H1|apply IH].
Qed.

Lemma py_eq_int_unique (v : json) (a b : Z) :
  py_eq_int v a = true -> py_eq_int v b = true -> a = b.
Proof.
  destruct v as [|b0|z|q| | |]; simpl; try done.
  - intros ?%Z.eqb_eq ?%Z.eqb_eq. congruence.
  - intros ?%Z.eqb_eq ?%Z.eqb_eq. congruence.
  - intros Ha%Qeq_bool_iff Hb%Qeq_bool_iff.
    rewrite Ha in Hb. unfold Qeq, inject_Z in Hb. simpl in Hb. lia.
Qed.

Lemma py_in_int_set_true (v : json) (allowed : gset Z) :
  py_in_int_set v allowed = Val true ->
  exists z, z ∈ allowed /\ py_eq_int v z = true.
Proof.
  assert (Hex : existsb (py_eq_int v) (elements allowed) = true ->
                exists z, z ∈ allowed /\ py_eq_int v z = true).
  { intros (z & Hin & Heq)%existsb_exists. exists z. split; [|done].
    by apply elem_of_elements, list_elem_of_In. }
  destruct v as [|b0|z|q| | |]; simpl; try done;
    try (intros [= Hv]; by apply Hex).
  intros [= Hv]. exists z. split; [by apply bool_decide_eq_true_1 in Hv|].
  apply Z.eqb_refl.
Qed.

Lemma record_allowed_mode (args : cli_args) (r : export_record) :
  record_allowed (allowed_types_of args None) r ->
  mode_admits (mode args) r.
Proof.
  unfold record_allowed, allowed_types_of, mode_admits.
  intros [(z & Hz & Heq)%py_in_int_set_true Hkind].
  destruct (mode args); [| |done].
  - destruct (is_sentence_record r); [done|]. destruct Hkind as [_ Hw].
    pose proof (py_eq_int_unique _ _ _ Heq Hw) as Hzv.
    rewrite !elem_of_union, !elem_of_singleton in Hz. lia.
  - destruct (is_sentence_record r); [|done].
    rewrite elem_of_singleton in Hz.
    apply orb_prop in Hkind as [Hs|Hs];
      pose proof (py_eq_int_unique _ _ _ Heq Hs) as Hzv; lia.
Qed.

(** X21. The type filter holds over the whole run: every record written
    has a type tag in the allowed set -- the [--target-types] list when
    one is given, else the types of [--mode] -- and is a sentence record
    for tags 103 and 120, a word record for tag 102.  So without an
    explicit list, [--mode sentences] writes only sentence records and
    [--mode words] only word records. *)
Theorem whole_run_type_filter `{PyBuiltins} (srv : server)
    (args : cli_args) (fuel : nat) (id : pystr) (r : export_record) :
  EvRecord id r ∈ log (fst (run srv args fuel)) ->
  exists explicit,
    _parse_target_types (target_types args) = Val explicit
    /\ record_allowed (allowed_types_of args explicit) r
    /\ (explicit = None -> mode_admits (mode args) r).
Proof.
  unfold run, main. unfold bind.
  destruct (main_prelude_shape srv args initial_state)
    as [_ (ext & Hlog & Hext)].
  assert (Hnone : ~ EvRecord id r ∈
                    log (fst (main_prelude srv args initial_state))).
  { intros Hin%record_event_id. rewrite Hlog in Hin.
    cbn [log initial_state] in Hin. rewrite app_nil_r in Hin.
    destruct (prelude_events_no_records ext Hext) as [Hrec _].
    rewrite Hrec in Hin. by apply elem_of_nil in Hin. }
  clear Hlog Hext.
  destruct (main_prelude srv args initial_state) as [s1 [folders|o]];
    cbn [fst] in *; [|done].
  assert (Hsel : EvRecord id r ∈
                   log (fst (export_selected srv args fuel folders s1)) ->
                 exists explicit,
                   _parse_target_types (target_types args) = Val explicit
                   /\ record_allowed (allowed_types_of args explicit) r).
  { destruct (export_selected srv args fuel folders s1) as [s2 res] eqn:E.
    cbn [fst]. revert E.
    unfold export_selected. unfold bind at 1. unfold lift.
    destruct (_parse_target_types (target_types args)) as [explicit|o];
      [|by intros [= <- <-]].
    unfold bind at 1.
    destruct (_parse_sort_types (sort_types args)) as [sorts|o];
      [|by intros [= <- <-]].
    unfold bind at 1.
    pose proof (folder_loop_adds srv args fuel (allowed_types_of args explicit)
                  (active_sort_types_of args sorts) folders s1) as Hadd.
    intros E Hin. exists explicit. split; [done|].
    assert (Hs2 : adds_allowed_records (allowed_types_of args explicit) s1 s2).
    { revert E.
      destruct (folder_loop srv args fuel _ _ folders s1) as [s3 [[]|o]];
        cbn [fst] in Hadd; [|by intros [= <- <-]].
      destruct folders as [|[fid0 ft0] rest];
        [unfold ret; by intros [= <- <-]|].
      destruct (active_sort_types_of args sorts) as [|st0 sts];
        [unfold ret; by intros [= <- <-]|].
      unfold bind, ret. destruct (json_output args);
        [|by intros [= <- <-]].
      rewrite rewrite_returns. intros [= <- <-].
      eapply adds_trans; [exact Hadd|apply rewrite_adds]. }
    by destruct (Hs2 id r Hin). }
  intros Hin.
  assert (Hin' : EvRecord id r ∈
                   log (fst (export_selected srv args fuel folders s1))).
  { by destruct (export_selected srv args fuel folders s1) as [s2 [code|o]]. }
  destruct (Hsel Hin') as (explicit & Hparse & Hr).
  exists explicit. split; [done|]. split; [done|].
  intros ->. by apply record_allowed_mode.
Qed.

(** *** The page count the server reports *)

Lemma export_page_next_total `{PyBuiltins} (srv : server) (args : cli_args)
    fid ft st allowed fs s fs' tp :
  total_pages fs = Some tp ->
  snd (export_page srv args fid ft st allowed fs s) = Val (NextPage fs') ->
  total_pages fs' = Some tp /\ page_index fs < tp.
Proof.
  intros Htp.
  destruct (export_page srv args fid ft st allowed fs s) as [s' r] eqn:E.
  cbn [snd]. revert E.
  unfold export_page. unfold bind at 1. unfold gets. cbv beta iota.
  destruct (stop_everything s); [unfold ret; by intros [= <- <-]|].
  unfold bind at 1.
  destruct (fetch_page srv args fid st allowed (page_index fs) s)
    as [s1 [payload|o]]; [|by intros [= <- <-]].
  destruct (_iter_items_from_folder_content payload) as [|it rest];
    [unfold ret; by intros [= <- <-]|].
  unfold bind at 1.
  match goal with |- context [export_items ?a ?b ?c ?d ?e ?f ?g ?h s1] =>
    destruct (export_items a b c d e f g h s1) as [s2 [acc|o]]
  end; [|by intros [= <- <-]].
  unfold bind at 1. unfold gets. cbv beta iota.
  destruct (stop_everything s2); [unfold ret; by intros [= <- <-]|].
  unfold bind at 1. rewrite rewrite_returns.
  destruct (negb (fetch_all args)); [unfold ret; by intros [= <- <-]|].
  unfold bind at 1. unfold gets. cbv beta iota.
  match goal with |- context [pair_exhausted args ?fs3] =>
    destruct (stop_everything _ || pair_exhausted args fs3) eqn:Hex
  end; [unfold ret; by intros [= <- <-]|].
  unfold ret. intros [= <- <-] [= <-]. cbn.
  apply orb_false_elim in Hex as [_ Hex]. unfold pair_exhausted in Hex.
  cbn in Hex. rewrite Htp in *. cbn in Hex.
  apply orb_false_elim in Hex as [Hex _].
  apply orb_false_elim in Hex as [_ Hex].
  split; [done|]. by apply Z.leb_gt in Hex.
Qed.

(** X22. Once the server has reported its page count, the loop fetches
    no page beyond it: standing on page [p] with [totalPage = tp] known,
    it fetches at most [tp - p + 1] more pages (one if [p] is already
    the last), and then ends, with or without [--max-pages]. *)
Theorem total_pages_bound_the_loop `{PyBuiltins} (srv : server)
    (args : cli_args) fid ft st allowed fuel fs s tp :
  total_pages fs = Some tp ->
  let room := Z.to_nat (Z.max 1 (tp - page_index fs + 1)) in
  (content_calls (log (fst (page_loop srv args fid ft st allowed fuel fs s)))
   <= content_calls (log s) + room)%nat
  /\ ((room <= fuel)%nat ->
      finished (snd (page_loop srv args fid ft st allowed fuel fs s))).
Proof.
  revert fs s. induction fuel as [|fuel IH]; intros fs s Htp room.
  - cbn [page_loop]. unfold halt. cbn [fst snd]. subst room. split; lia.
  - cbn [page_loop]. unfold bind.
    destruct (export_page_turn srv args fid ft st allowed fs s)
      as (Hcalls & Hfin & Hnext).
    pose proof (export_page_next_total srv args fid ft st allowed fs s) as Htot.
    destruct (export_page srv args fid ft st allowed fs s) as [s1 [r|o]];
      cbn [fst snd] in *.
    2:{ subst room. split; [lia|]. intros _ [= ->]. by apply Hfin. }
    destruct r as [fs'|fs'|].
    + destruct (Hnext fs' eq_refl) as (_ & Hidx & _).
      destruct (Htot fs' tp Htp eq_refl) as [Htp' Hlt].
      destruct (IH fs' s1 Htp') as [IHc IHf].
      subst room. rewrite Hidx in *. split; [lia|].
      intros Hroom. apply IHf. lia.
    + unfold ret, finished. cbn [fst snd]. subst room. split; [lia|done].
    + unfold ret, finished. cbn [fst snd]. subst room. split; [lia|done].
Qed.

(** *** Exit codes *)

Lemma py_int_no_exit `{PyBuiltins} (v : json) o :
  py_int v = Halt o -> exits o = false.
Proof.
  destruct v; simpl; try by intros [= <-].
  destruct (py_int_of_str s); by intros [= <-].
Qed.

Lemma unwrap_no_exit (resp : json) o :
  _unwrap_parse_result resp = Halt o -> exits o = false.
Proof.
  destruct resp; simpl; try by intros [= <-].
  by destruct (dict_get kv (u "result")).
Qed.

Lemma fetch_page_no_exit `{PyBuiltins} (srv : server) (args : cli_args)
    fid st allowed p s s' o :
  fetch_page srv args fid st allowed p s = (s', Halt o) -> exits o = false.
Proof.
  unfold fetch_page, call_cf, gateway. unfold_run.
  destruct (call_cf_reply srv (log s) _ _) as [msg|body]; [by intros [= _ <-]|].
  destruct (_unwrap_parse_result body) as [payload|o1] eqn:Hu.
  2:{ intros [= _ <-]. by eapply unwrap_no_exit. }
  destruct (py_int _) as [code|o1] eqn:Hc.
  2:{ intros [= _ <-]. by eapply py_int_no_exit. }
  destruct (negb (code =? 200)); [by intros [= _ <-]|done].
Qed.

Lemma export_page_no_exit `{PyBuiltins} (srv : server) (args : cli_args)
    fid ft st allowed fs s s' o :
  export_page srv args fid ft st allowed fs s = (s', Halt o) ->
  exits o = false.
Proof.
  unfold export_page. unfold bind at 1. unfold gets. cbv beta iota.
  destruct (stop_everything s); [done|].
  unfold bind at 1.
  destruct (fetch_page srv args fid st allowed (page_index fs) s)
    as [s1 [payload|o1]] eqn:Ef.
  2:{ intros [= _ <-]. by eapply fetch_page_no_exit. }
  destruct (_iter_items_from_folder_content payload) as [|it rest]; [done|].
  unfold bind at 1.
  match goal with |- context [export_items ?a ?b ?c ?d ?e ?f ?g ?h s1] =>
    destruct (export_items a b c d e f g h s1) as [s2 [acc|o1]] eqn:Eit
  end.
  2:{ intros [= _ <-].
      by apply item_loop_halts_with_type_error in Eit as ->. }
  unfold bind at 1. unfold gets. cbv beta iota.
  destruct (stop_everything s2); [done|].
  unfold bind at 1. rewrite rewrite_returns.
  destruct (negb (fetch_all args)); [done|].
  unfold bind, gets, ret.
  by match goal with |- context [if ?c then _ else _] => destruct c end.
Qed.

Lemma page_loop_no_exit `{PyBuiltins} (srv : server) (args : cli_args)
    fid ft st allowed fuel fs s s' o :
  page_loop srv args fid ft st allowed fuel fs s = (s', Halt o) ->
  exits o = false.
Proof.
  revert fs s. induction fuel as [|fuel IH]; intros fs s;
    [by intros [= _ <-]|].
  cbn [page_loop]. unfold bind.
  destruct (export_page srv args fid ft st allowed fs s) as [s1 [r|o1]] eqn:E.
  2:{ intros [= _ <-]. by eapply export_page_no_exit. }
  destruct r as [fs'|fs'|]; [apply IH|done|done].
Qed.

Lemma export_one_folder_no_exit `{PyBuiltins} (srv : server) (args : cli_args)
    fid ft st allowed fuel s s' o :
  _export_one_folder srv args fid ft st allowed fuel s = (s', Halt o) ->
  exits o = false.
Proof.
  unfold _export_one_folder. unfold bind.
  match goal with |- context [page_loop _ _ _ _ _ _ _ ?fs0 s] =>
    destruct (page_loop srv args fid ft st allowed fuel fs0 s)
      as [s1 [r|o1]] eqn:E
  end.
  2:{ intros [= _ <-]. by eapply page_loop_no_exit. }
  destruct r as [fs|]; [by rewrite rewrite_returns|done].
Qed.

Lemma sort_loop_no_exit `{PyBuiltins} (srv : server) (args : cli_args)
    fuel fid ft allowed sts s s' o :
  sort_loop srv args fuel fid ft allowed sts s = (s', Halt o) ->
  exits o = false.
Proof.
  revert s. induction sts as [|st rest IH]; intros s; [done|].
  cbn [sort_loop]. unfold bind at 1.
  destruct (_export_one_folder srv args fid ft st allowed fuel s)
    as [s1 [[]|o1]] eqn:E.
  2:{ intros [= _ <-]. by eapply export_one_folder_no_exit. }
  unfold bind, gets. destruct (stop_everything s1); [done|apply IH].
Qed.

Lemma folder_loop_no_exit `{PyBuiltins} (srv : server) (args : cli_args)
    fuel allowed sts folders s s' o :
  folder_loop srv args fuel allowed sts folders s = (s', Halt o) ->
  exits o = false.
Proof.
  revert s. induction folders as [|[fid ft] rest IH]; intros s; [done|].
  cbn [folder_loop]. destruct (negb (nonempty fid)); [apply IH|].
  unfold bind at 1.
  destruct (sort_loop srv args fuel fid ft allowed sts s)
    as [s1 [[]|o1]] eqn:E.
  2:{ intros [= _ <-]. by eapply sort_loop_no_exit. }
  unfold bind, gets. destruct (stop_everything s1); [done|].
  destruct (negb (fetch_all args)); [done|apply IH].
Qed.

Lemma discover_folders_exit `{PyBuiltins} (srv : server) (args : cli_args)
    s s' c :
  discover_folders srv args s = (s', Halt (Exits c)) -> c = 1.
Proof.
  unfold discover_folders, call_cf, gateway, folders_code. unfold_run.
  destruct (call_cf_reply srv (log s) _ _) as [msg|resp]; [done|].
  destruct (_unwrap_parse_result resp) as [payload|o] eqn:Hu.
  2:{ intros [= _ ->]. by apply unwrap_no_exit in Hu. }
  destruct (py_int _) as [code|o] eqn:Hc.
  2:{ intros [= _ ->]. by apply py_int_no_exit in Hc. }
  destruct (negb (code =? 200)); [by intros [= _ <-]|].
  destruct (dict_get payload (u "result")) as [| | | | |folders|];
    try by intros [= _ <-].
  destruct (opt_truthy (pfid args) && (length folders =? 0)%nat); [|done].
  destruct (call_cf_reply srv _ _ _) as [msg|resp2]; [done|].
  destruct (_unwrap_parse_result resp2) as [payload2|o] eqn:Hu2.
  2:{ intros [= _ ->]. by apply unwrap_no_exit in Hu2. }
  destruct (py_int (dict_get_default payload2 _ _)) as [code2|o] eqn:Hc2.
  2:{ intros [= _ ->]. by apply py_int_no_exit in Hc2. }
  by destruct (dict_get payload2 (u "result")).
Qed.

Lemma select_shape `{PyBuiltins} (args : cli_args) (folders : list json) :
  match select_export_folders args folders with
  | Val l => l <> []
  | Halt o => o = Exits 1
  end.
Proof.
  unfold select_export_folders.
  destruct (opt_truthy (folder_id_arg args)).
  { by destruct (filter _ _). }
  destruct (all_folders args).
  { match goal with |- context [match ?l with [] => _ | _ :: _ => _ end] =>
      by destruct l
    end. }
  destruct (_pick_folder _) as [[|? ?]|]; try done;
    by destruct (opt_truthy (pfid args)).
Qed.

Lemma main_prelude_ends `{PyBuiltins} (srv : server) (args : cli_args) s :
  match main_prelude srv args s with
  | (s', Val folders) =>
      usage_error args = false
      /\ opt_truthy (targets_for_item args) = false /\ folders <> []
  | (s', Halt (Exits c)) =>
      if usage_error args then c = 2 /\ s' = s else c = 0 \/ c = 1
  | _ => True
  end.
Proof.
  unfold main_prelude, usage_error.
  destruct (opt_truthy (session_token args)); cbn [negb orb]; [|done].
  destruct (opt_truthy (targets_for_item args)); cbn [negb andb].
  { unfold fetch_item_targets, gateway. unfold_run.
    destruct (item_targets_reply srv _ _); auto. }
  destruct (json_output args); cbn [andb].
  - destruct (opt_truthy (output args)); cbn [negb]; [|done].
    unfold bind, lift.
    destruct (discover_folders srv args s) as [s1 [found|o]] eqn:E.
    + pose proof (select_shape args found) as Hsel.
      destruct (select_export_folders args found) as [l|o]; [done|].
      subst o. by right.
    + destruct o as [c| |]; try done. apply discover_folders_exit in E. by right.
  - unfold bind, lift.
    destruct (discover_folders srv args s) as [s1 [found|o]] eqn:E.
    + pose proof (select_shape args found) as Hsel.
      destruct (select_export_folders args found) as [l|o]; [done|].
      subst o. by right.
    + destruct o as [c| |]; try done. apply discover_folders_exit in E. by right.
Qed.

Lemma export_selected_ends `{PyBuiltins} (srv : server) (args : cli_args)
    fuel folders s :
  match export_selected srv args fuel folders s with
  | (s', Val code) =>
      code = 0
      /\ (folders <> [] -> json_output args = true ->
          opt_truthy (output args) = true ->
          exists fid st rest, log s' = EvRewrite fid st (page args) :: rest)
  | (s', Halt o) => exits o = false
  end.
Proof.
  unfold export_selected. unfold bind at 1. unfold lift.
  destruct (_parse_target_types (target_types args)) as [explicit|o] eqn:Et.
  2:{ unfold _parse_target_types in Et.
      destruct (target_types args) as [[|c t]|]; try done.
      destruct (parse_target_parts _ _) eqn:Ep; [done|].
      injection Et as <-. by apply parse_target_parts_error in Ep as [msg ->]. }
  unfold bind at 1.
  destruct (_parse_sort_types (sort_types args)) as [sorts|o] eqn:Es.
  2:{ unfold _parse_sort_types in Es.
      destruct (sort_types args) as [[|c t]|]; try done.
      destruct (parse_sort_parts _ _) eqn:Ep; [done|].
      injection Es as <-.
      by apply parse_sort_parts_error in Ep as [[msg ->]| ->]. }
  unfold bind at 1.
  destruct (folder_loop srv args fuel _ _ folders s) as [s1 [[]|o]] eqn:E.
  2:{ by eapply folder_loop_no_exit. }
  assert (Hne : active_sort_types_of args sorts <> []).
  { unfold active_sort_types_of.
    destruct (fetch_all args); cbn [andb]; [|done].
    destruct (bool_decide (sorts = [])) eqn:Hd; cbn [negb]; [done|].
    by apply bool_decide_eq_false_1 in Hd. }
  destruct folders as [|[fid0 ft0] rest]; [unfold ret; by split|].
  destruct (active_sort_types_of args sorts) as [|st0 sts]; [done|].
  unfold bind, ret.
  destruct (json_output args) eqn:Hj.
  - rewrite rewrite_returns. split; [done|]. intros _ _ Hout.
    unfold _rewrite_json_progress. rewrite Hj, Hout. cbn. eauto.
  - split; [done|]. by intros _ [=].
Qed.

(** X23. What the exit code says.  A run that ends with an exit code
    ends with 0, 1 or 2; it ends with 2 exactly for a usage error
    (no session token, or [--json] without [--output]), and then
    nothing was done.  A code other than 0 always comes from the steps
    before the traversal; the traversal itself never exits with a code:
    it ends normally, and the run returns 0, or it ends with an
    exception. *)
Theorem exit_code_meaning `{PyBuiltins} (srv : server) (args : cli_args)
    (fuel : nat) (c : Z) :
  snd (run srv args fuel) = Exits c ->
  (c = 0 \/ c = 1 \/ c = 2)
  /\ (c = 2 <-> usage_error args = true)
  /\ (c = 2 -> fst (run srv args fuel) = initial_state)
  /\ (c <> 0 ->
      main_prelude srv args initial_state =
        (fst (run srv args fuel), Halt (Exits c)))
  /\ (forall fuel' folders s,
        match export_selected srv args fuel' folders s with
        | (_, Val code) => code = 0
        | (_, Halt o) => exits o = false
        end).
Proof.
  intros Hrun.
  assert (Htrav : forall fuel' folders s,
            match export_selected srv args fuel' folders s with
            | (_, Val code) => code = 0
            | (_, Halt o) => exits o = false
            end).
  { intros fuel' folders s.
    pose proof (export_selected_ends srv args fuel' folders s) as He.
    destruct (export_selected srv args fuel' folders s) as [s' [code|o]];
      [by destruct He|done]. }
  revert Hrun. unfold run, main. unfold bind.
  pose proof (main_prelude_ends srv args initial_state) as Hp.
  destruct (main_prelude srv args initial_state) as [s1 [folders|o]].
  - destruct Hp as (Hu & _ & _). rewrite Hu.
    pose proof (Htrav fuel folders s1) as He.
    destruct (export_selected srv args fuel folders s1) as [s2 [code|o]];
      cbn [fst snd].
    + subst code. intros [= <-].
      split; [by left|]. split; [split; done|]. split; [done|].
      split; [done|exact Htrav].
    + intros ->. done.
  - cbn [fst snd]. intros ->.
    destruct (usage_error args).
    + destruct Hp as [-> ->]. split; [by right; right|]. split; [by split|].
      split; [done|]. split; [done|exact Htrav].
    + split; [destruct Hp as [->| ->]; auto|].
      split; [split; [|done]; intros ->; by destruct Hp|].
      split; [intros ->; by destruct Hp|]. split; [done|exact Htrav].
Qed.

(** X24. In JSON mode a run that returns 0 after a traversal ends with
    a rewrite of the output file: the last thing it does is to write
    the whole buffer once more, under the first folder selected and
    the page asked for. *)
Theorem final_rewrite_closes_run `{PyBuiltins} (srv : server)
    (args : cli_args) (fuel : nat) :
  json_output args = true ->
  opt_truthy (output args) = true ->
  opt_truthy (targets_for_item args) = false ->
  snd (run srv args fuel) = Exits 0 ->
  exists fid st rest,
    log (fst (run srv args fuel)) = EvRewrite fid st (page args) :: rest.
Proof.
  intros Hj Hout Hitem. unfold run, main. unfold bind.
  pose proof (main_prelude_ends srv args initial_state) as Hp.
  assert (Hsame : forall s' c,
            main_prelude srv args initial_state = (s', Halt (Exits c)) ->
            c <> 0).
  { unfold main_prelude. rewrite Hitem, Hj, Hout. cbn [negb andb].
    intros s' c. destruct (negb (opt_truthy (session_token args)));
      [by intros [= _ <-]|].
    unfold bind, lift.
    destruct (discover_folders srv args initial_state)
      as [s1 [found|o]] eqn:E.
    - pose proof (select_shape args found) as Hsel.
      destruct (select_export_folders args found) as [l|o]; [done|].
      subst o. by intros [= _ <-].
    - intros [= _ ->]. by apply discover_folders_exit in E as ->. }
  destruct (main_prelude srv args initial_state) as [s1 [folders|o]].
  - destruct Hp as (_ & _ & Hne).
    pose proof (export_selected_ends srv args fuel folders s1) as He.
    destruct (export_selected srv args fuel folders s1) as [s2 [code|o]];
      cbn [fst snd].
    + intros _. destruct He as [_ He]. by apply He.
    + intros ->. done.
  - cbn [fst snd]. intros ->. by destruct (Hsame s1 0 eq_refl).
Qed.

(** *** The folder pages a run asks for *)

Lemma export_items_content `{PyBuiltins} (srv : server) (args : cli_args)
    fid ft st allowed items acc s :
  stop_everything s = false ->
  content_events (log (fst (export_items srv args fid ft st allowed items acc s))) =
    content_events (log s).
Proof.
  intros Hstop.
  pose proof (export_items_keeps srv args
                (fun s' => content_events (log s') = content_events (log s))
                (fun _ s' => content_events (log s') = content_events (log s)))
    as Hk.
  specialize (Hk (fun _ _ HI _ _ => HI) (fun _ _ _ _ HI _ _ => HI)).
  assert (Hacc : forall s0 id r,
            content_events (log s0) = content_events (log s) ->
            stop_everything s0 = false ->
            content_events (log (accept_effects args id r s0)) =
              content_events (log s)).
  { intros s0 id r HI _. by rewrite accept_effects_log. }
  specialize (Hk Hacc (fun _ _ HI => HI) fid ft st allowed items acc s
                (conj eq_refl Hstop)).
  destruct (export_items srv args fid ft st allowed items acc s) as [s1 [a|o]];
    simpl; [by destruct Hk|done].
Qed.

Lemma rewrite_content (args : cli_args) fid st p s :
  content_events (log (fst (_rewrite_json_progress args fid st p s))) =
    content_events (log s).
Proof.
  unfold _rewrite_json_progress. unfold_run.
  destruct (json_output args); [|done]. by destruct (opt_truthy (output args)).
Qed.

Lemma content_events_call (args : cli_args) fid st allowed p l :
  content_events (content_call args fid st allowed p :: l) =
    content_call args fid st allowed p :: content_events l.
Proof.
  unfold content_events, content_call. cbn [List.filter is_content_call].
  by rewrite bool_decide_eq_true_2.
Qed.

Lemma export_page_content `{PyBuiltins} (srv : server) (args : cli_args)
    fid ft st allowed fs s :
  content_events (log (fst (export_page srv args fid ft st allowed fs s))) =
    content_events (log s)
  \/ content_events (log (fst (export_page srv args fid ft st allowed fs s))) =
       content_call args fid st allowed (page_index fs) :: content_events (log s).
Proof.
  destruct (export_page srv args fid ft st allowed fs s) as [s' r] eqn:E.
  cbn [fst]. revert E.
  unfold export_page. unfold bind at 1. unfold gets. cbv beta iota.
  destruct (stop_everything s) eqn:Hs;
    [unfold ret; intros [= <- <-]; by left|].
  unfold bind at 1.
  destruct (fetch_page_log srv args fid st allowed (page_index fs) s)
    as (Hlog & Hstop & _).
  destruct (fetch_page srv args fid st allowed (page_index fs) s)
    as [s1 [payload|o]]; cbn [fst] in Hlog, Hstop.
  2:{ intros [= <- <-]. right. rewrite Hlog. apply content_events_call. }
  assert (H1 : content_events (log s1) =
               content_call args fid st allowed (page_index fs)
                 :: content_events (log s))
    by (rewrite Hlog; apply content_events_call).
  rewrite Hs in Hstop.
  destruct (_iter_items_from_folder_content payload) as [|it rest];
    [unfold ret; intros [= <- <-]; by right|].
  unfold bind at 1.
  match goal with |- context [export_items ?a ?b ?c ?d ?e ?f ?g ?h s1] =>
    pose proof (export_items_content a b c d e f g h s1 Hstop) as H2;
    destruct (export_items a b c d e f g h s1) as [s2 [acc|o]]
  end; cbn [fst] in H2.
  2:{ intros [= <- <-]. right. by rewrite H2. }
  unfold bind at 1. unfold gets. cbv beta iota.
  destruct (stop_everything s2);
    [unfold ret; intros [= <- <-]; right; by rewrite H2|].
  unfold bind at 1. rewrite rewrite_returns.
  pose proof (rewrite_content args fid st (page_index fs) s2) as H3.
  destruct (negb (fetch_all args));
    [unfold ret; intros [= <- <-]; right; by rewrite H3, H2|].
  unfold bind, gets, ret.
  match goal with |- context [if ?c then _ else _] => destruct c end;
    intros [= <- <-]; right; by rewrite H3, H2.
Qed.

Lemma page_loop_content `{PyBuiltins} (srv : server) (args : cli_args)
    fid ft st allowed fuel fs s :
  exists new,
    content_events (log (fst (page_loop srv args fid ft st allowed fuel fs s))) =
      new ++ content_events (log s)
    /\ Forall (page_request args fid st allowed (page_index fs)) new.
Proof.
  revert fs s. induction fuel as [|fuel IH]; intros fs s.
  { exists []. split; [done|constructor]. }
  cbn [page_loop]. unfold bind.
  destruct (export_page_content srv args fid ft st allowed fs s) as [Hc|Hc].
  - destruct (export_page_turn srv args fid ft st allowed fs s)
      as (_ & _ & Hnext).
    destruct (export_page srv args fid ft st allowed fs s) as [s1 [r|o]];
      cbn [fst snd] in *.
    2:{ exists []. split; [done|constructor]. }
    destruct r as [fs'|fs'|]; try (exists []; split; [done|constructor]).
    destruct (Hnext fs' eq_refl) as (Hall & Hidx & _).
    destruct (IH fs' s1) as (new & Hnew & Hreq).
    exists new. rewrite Hnew, Hc. split; [done|].
    eapply Forall_impl; [exact Hreq|].
    intros e (p & Hp & _ & ->). exists p. split; [lia|]. split; [|done].
    intros Hno. congruence.
  - assert (Hhere : page_request args fid st allowed (page_index fs)
                      (content_call args fid st allowed (page_index fs))).
    { exists (page_index fs). split; [lia|]. by split. }
    destruct (export_page_turn srv args fid ft st allowed fs s)
      as (_ & _ & Hnext).
    destruct (export_page srv args fid ft st allowed fs s) as [s1 [r|o]];
      cbn [fst snd] in *.
    2:{ eexists [_]. split; [exact Hc|]. by constructor. }
    destruct r as [fs'|fs'|];
      try (eexists [_]; split; [exact Hc|by constructor]).
    destruct (Hnext fs' eq_refl) as (Hall & Hidx & _).
    destruct (IH fs' s1) as (new & Hnew & Hreq).
    exists (new ++ [content_call args fid st allowed (page_index fs)]).
    rewrite Hnew, Hc, <- app_assoc. split; [done|].
    apply Forall_app. split; [|by constructor].
    eapply Forall_impl; [exact Hreq|].
    intros e (p & Hp & _ & ->). exists p. split; [lia|]. split; [|done].
    intros Hno. congruence.
Qed.

Lemma export_one_folder_content `{PyBuiltins} (srv : server) (args : cli_args)
    fid ft st allowed fuel s :
  exists new,
    content_events
      (log (fst (_export_one_folder srv args fid ft st allowed fuel s))) =
      new ++ content_events (log s)
    /\ Forall (page_request args fid st allowed (page args)) new.
Proof.
  unfold _export_one_folder. unfold bind.
  match goal with |- context [page_loop _ _ _ _ _ _ _ ?fs0 s] =>
    destruct (page_loop_content srv args fid ft st allowed fuel fs0 s)
      as (new & Hnew & Hreq);
    destruct (page_loop srv args fid ft st allowed fuel fs0 s) as [s1 [r|o]]
  end; cbn [fst page_index] in *.
  2:{ by exists new. }
  exists new. split; [|done].
  destruct r as [fs|]; [by rewrite rewrite_content|done].
Qed.

Lemma sort_loop_content `{PyBuiltins} (srv : server) (args : cli_args)
    fuel fid ft allowed sts s :
  exists new,
    content_events (log (fst (sort_loop srv args fuel fid ft allowed sts s))) =
      new ++ content_events (log s)
    /\ Forall (sort_request args fid allowed sts) new.
Proof.
  revert s. induction sts as [|st rest IH]; intros s.
  { exists []. split; [done|constructor]. }
  cbn [sort_loop]. unfold bind at 1.
  destruct (export_one_folder_content srv args fid ft st allowed fuel s)
    as (new & Hnew & Hreq).
  assert (Hhere : Forall (sort_request args fid allowed (st :: rest)) new).
  { eapply Forall_impl; [exact Hreq|]. intros e He. exists st.
    split; [apply list_elem_of_here|done]. }
  destruct (_export_one_folder srv args fid ft st allowed fuel s)
    as [s1 [[]|o]]; cbn [fst] in *.
  2:{ by exists new. }
  unfold bind, gets. destruct (stop_everything s1); [by exists new|].
  destruct (IH s1) as (new' & Hnew' & Hreq').
  exists (new' ++ new). rewrite Hnew', Hnew, app_assoc. split; [done|].
  apply Forall_app. split; [|done].
  eapply Forall_impl; [exact Hreq'|]. intros e (st' & Hin & He).
  exists st'. split; [by apply list_elem_of_further|done].
Qed.

Lemma folder_loop_content `{PyBuiltins} (srv : server) (args : cli_args)
    fuel allowed sts folders s :
  exists new,
    content_events
      (log (fst (folder_loop srv args fuel allowed sts folders s))) =
      new ++ content_events (log s)
    /\ Forall (folder_request args allowed sts folders) new.
Proof.
  revert s. induction folders as [|[fid ft] rest IH]; intros s.
  { exists []. split; [done|constructor]. }
  cbn [folder_loop].
  destruct (nonempty fid) eqn:Hfid; cbn [negb].
  2:{ destruct (IH s) as (new & Hnew & Hreq). exists new. split; [done|].
      eapply Forall_impl; [exact Hreq|].
      intros e (fid' & ft' & Hin & Hne & Hfirst & He).
      exists fid', ft'. split; [by apply list_elem_of_further|].
      split; [done|]. split; [|done].
      intros Hall. unfold first_with_id in *. cbn [List.find fst].
      rewrite Hfid. by apply Hfirst. }
  unfold bind at 1.
  destruct (sort_loop_content srv args fuel fid ft allowed sts s)
    as (new & Hnew & Hreq).
  assert (Hhere : Forall (folder_request args allowed sts ((fid, ft) :: rest))
                    new).
  { eapply Forall_impl; [exact Hreq|]. intros e He. exists fid, ft.
    split; [apply list_elem_of_here|]. split; [done|]. split; [|done].
    intros _. unfold first_with_id. cbn [List.find fst]. by rewrite Hfid. }
  destruct (sort_loop srv args fuel fid ft allowed sts s) as [s1 [[]|o]];
    cbn [fst] in *.
  2:{ by exists new. }
  unfold bind, gets. destruct (stop_everything s1); [by exists new|].
  destruct (fetch_all args) eqn:Hall; cbn [negb]; [|by exists new].
  destruct (IH s1) as (new' & Hnew' & Hreq').
  exists (new' ++ new). rewrite Hnew', Hnew, app_assoc. split; [done|].
  apply Forall_app. split; [|done].
  eapply Forall_impl; [exact Hreq'|].
  intros e (fid' & ft' & Hin & Hne & _ & He).
  exists fid', ft'. split; [by apply list_elem_of_further|].
  split; [done|]. split; [intros Hno; congruence|done].
Qed.

Lemma run_content `{PyBuiltins} (srv : server) (args : cli_args) (fuel : nat)
    (e : event) :
  e ∈ content_events (log (fst (run srv args fuel))) ->
  exists s1 folders explicit sorts,
    main_prelude srv args initial_state = (s1, Val folders)
    /\ _parse_target_types (target_types args) = Val explicit
    /\ _parse_sort_types (sort_types args) = Val sorts
    /\ folder_request args (allowed_types_of args explicit)
         (active_sort_types_of args sorts) folders e.
Proof.
  unfold run, main. unfold bind.
  destruct (main_prelude_shape srv args initial_state)
    as [_ (ext & Hlog & Hext)].
  assert (H0 : content_events
                 (log (fst (main_prelude srv args initial_state))) = []).
  { apply length_zero_iff_nil. rewrite Hlog.
    apply (prelude_no_content ext (log initial_state) Hext). }
  clear Hlog Hext.
  destruct (main_prelude srv args initial_state) as [s1 [folders|o]];
    cbn [fst snd] in *.
  2:{ rewrite H0. by intros ?%elem_of_nil. }
  intros Hin.
  assert (Hin' : e ∈ content_events
                   (log (fst (export_selected srv args fuel folders s1)))).
  { by destruct (export_selected srv args fuel folders s1) as [s2 [code|o]]. }
  clear Hin. revert Hin'.
  destruct (export_selected srv args fuel folders s1) as [s2 res] eqn:E.
  cbn [fst]. revert E.
  unfold export_selected. unfold bind at 1. unfold lift.
  destruct (_parse_target_types (target_types args)) as [explicit|o].
  2:{ intros [= <- <-]. rewrite H0. by intros ?%elem_of_nil. }
  unfold bind at 1.
  destruct (_parse_sort_types (sort_types args)) as [sorts|o].
  2:{ intros [= <- <-]. rewrite H0. by intros ?%elem_of_nil. }
  unfold bind at 1.
  destruct (folder_loop_content srv args fuel (allowed_types_of args explicit)
              (active_sort_types_of args sorts) folders s1)
    as (new & Hnew & Hreq).
  rewrite H0, app_nil_r in Hnew.
  intros E Hin. exists s1, folders, explicit, sorts.
  split; [done|]. split; [done|]. split; [done|].
  assert (Hs2 : content_events (log s2) = new).
  { revert E.
    destruct (folder_loop srv args fuel _ _ folders s1) as [s3 [[]|o]];
      cbn [fst] in Hnew; [|by intros [= <- <-]].
    destruct folders as [|[fid0 ft0] rest];
      [unfold ret; by intros [= <- <-]|].
    destruct (active_sort_types_of args sorts) as [|st0 sts];
      [unfold ret; by intros [= <- <-]|].
    unfold bind, ret. destruct (json_output args);
      [|by intros [= <- <-]].
    rewrite rewrite_returns. intros [= <- <-]. by rewrite rewrite_content. }
  rewrite Hs2 in Hin. rewrite Forall_forall in Hreq. by apply Hreq.
Qed.

Lemma content_event_in (l : list event) (prm : json) :
  EvCallCF (u "folder-fetchContentWithRelatives") prm ∈ l ->
  EvCallCF (u "folder-fetchContentWithRelatives") prm ∈ content_events l.
Proof.
  intros Hin%list_elem_of_In. apply list_elem_of_In, filter_In.
  split; [done|]. cbn. by apply bool_decide_eq_true_2.
Qed.

(** X2. What a run asks the server for.  Every folder-page request of a
    run is made after the folders were selected and both lists parsed;
    it names a selected folder with an identifier, one of the active
    sort orders, a page no earlier than [--page], the [--count], and --
    unless the allowed set is empty -- the allowed types as
    [targetTypes], in ascending order and without repetition. *)
Theorem page_requests_carry_parameters `{PyBuiltins} (srv : server)
    (args : cli_args) (fuel : nat) (prm : json) :
  EvCallCF (u "folder-fetchContentWithRelatives") prm
    ∈ log (fst (run srv args fuel)) ->
  exists s1 folders explicit sorts fid ft st p tts,
    main_prelude srv args initial_state = (s1, Val folders)
    /\ _parse_target_types (target_types args) = Val explicit
    /\ _parse_sort_types (sort_types args) = Val sorts
    /\ (fid, ft) ∈ folders /\ fid <> []
    /\ st ∈ active_sort_types_of args sorts
    /\ page args <= p
    /\ Sorted Z.le tts /\ NoDup tts
    /\ (forall z, z ∈ tts <-> z ∈ allowed_types_of args explicit)
    /\ prm = JDict ([(u "fid", JStr fid); (u "sortType", JInt st);
                     (u "pageIndex", JInt p); (u "count", JInt (count args))]
                    ++ match tts with
                       | [] => []
                       | _ => [(u "targetTypes", JList (map JInt tts))]
                       end).
Proof.
  intros Hin%content_event_in.
  destruct (run_content srv args fuel _ Hin)
    as (s1 & folders & explicit & sorts & Hpre & Ht & Hs & Hreq).
  destruct Hreq as (fid & ft & Hfolder & Hfid & _ & st & Hst & p & Hp & _ & E).
  injection E as ->.
  destruct (server_target_types_spec (allowed_types_of args explicit))
    as (Hsorted & Hnd & Hmem).
  exists s1, folders, explicit, sorts, fid, ft, st, p,
    (server_target_types (allowed_types_of args explicit)).
  split; [done|]. split; [done|]. split; [done|]. split; [done|].
  split; [by destruct fid|].
  split; [done|]. split; [done|]. split; [done|]. split; [done|].
  split; [done|].
  unfold content_params. by destruct (server_target_types _).
Qed.

(** X16. Single-page mode: a run without [--all] fetches at most one
    folder page, and that page is the page asked for with [--page], of
    the first selected folder that has an identifier, under the one
    sort order of [--sort-type]. *)
Theorem single_page_mode_one_fetch `{PyBuiltins} (srv : server)
    (args : cli_args) (fuel : nat) :
  fetch_all args = false ->
  (content_calls (log (fst (run srv args fuel))) <= 1)%nat
  /\ forall prm,
       EvCallCF (u "folder-fetchContentWithRelatives") prm
         ∈ log (fst (run srv args fuel)) ->
       exists s1 folders explicit fid ft,
         main_prelude srv args initial_state = (s1, Val folders)
         /\ _parse_target_types (target_types args) = Val explicit
         /\ first_with_id folders = Some (fid, ft)
         /\ prm = JDict ([(u "fid", JStr fid);
                          (u "sortType", JInt (sort_type_arg args));
                          (u "pageIndex", JInt (page args));
                          (u "count", JInt (count args))]
                         ++ match server_target_types
                                    (allowed_types_of args explicit) with
                            | [] => []
                            | tts => [(u "targetTypes", JList (map JInt tts))]
                            end).
Proof.
  intros Hall. split; [by apply single_page_one_call|].
  intros prm Hin%content_event_in.
  destruct (run_content srv args fuel _ Hin)
    as (s1 & folders & explicit & sorts & Hpre & Ht & Hs & Hreq).
  destruct Hreq as (fid & ft & _ & _ & Hfirst & st & Hst & p & _ & Hp & E).
  injection E as ->.
  unfold active_sort_types_of in Hst. rewrite Hall in Hst. cbn [andb] in Hst.
  apply list_elem_of_singleton in Hst as ->. rewrite (Hp Hall).
  exists s1, folders, explicit, fid, ft.
  split; [done|]. split; [done|]. split; [by apply Hfirst|].
  unfold content_params. by destruct (server_target_types _).
Qed.

(** ** The further properties on the demo account *)

Lemma null_result_is_failure_witness :
  @discover_folders ascii_builtins demo_null_server (demo_args None None 0)
    initial_state =
    (add_event (EvCallCF (u "fetchMyFolders")
                  (folders_params (demo_args None None 0))) initial_state,
     Halt (Exits 1)).
Proof.
  destruct (@null_result_is_failure ascii_builtins demo_null_server
              (demo_args None None 0) demo_fid 0 {[102]} 1 initial_state
              demo_null_reply) as [Hd _].
  - reflexivity.
  - apply Hd. reflexivity.
Defined.

Lemma sort_types_unique_witness : NoDup [0; 2; 3].
Proof.
  destruct (@sort_types_unique ascii_builtins (u "0, 2..3") [0; 2; 3])
    as [Hnd _].
  - vm_compute. reflexivity.
  - exact Hnd.
Defined.

Lemma active_sort_types_shape_witness :
  @active_sort_types_of (demo_args None None 0) [0; 2; 3] <> [].
Proof.
  destruct (@active_sort_types_shape ascii_builtins (demo_args None None 0)
              [0; 2; 3]) as [Hne _].
  - vm_compute. reflexivity.
  - exact Hne.
Defined.

Lemma stop_flag_needs_expected_witness :
  stop_everything
    (fst (@run ascii_builtins demo_server (demo_args None None 0) 10)) = false.
Proof.
  apply (@stop_flag_needs_expected ascii_builtins demo_server
           (demo_args None None 0) 10).
  right. simpl. lia.
Defined.

Lemma at_most_expected_records_witness :
  Z.of_nat (count_records (log (fst demo_run_expecting_one))) <= 1.
Proof.
  destruct (@at_most_expected_records ascii_builtins demo_server
              demo_json_args 10) as [Hle _].
  - reflexivity.
  - simpl. lia.
  - exact Hle.
Defined.

Lemma json_buffer_complete_witness :
  results_by_id (fst demo_run_expecting_one) !! fst demo_first_record =
    Some (snd demo_first_record).
Proof.
  apply (@json_buffer_complete ascii_builtins demo_server demo_json_args 10).
  - reflexivity.
  - apply (list_elem_of_lookup_2 _ 2). vm_compute. reflexivity.
Defined.

Lemma item_loop_only_fails_on_unhashable_tag_witness :
  exists it, it ∈ [demo_unhashable_item] /\ unhashable_tag {[102]} it.
Proof.
  destruct (@item_loop_only_fails_on_unhashable_tag ascii_builtins demo_server
              demo_json_args demo_fid demo_title 0 {[102]}
              [demo_unhashable_item] demo_acc initial_state initial_state
              (Raises TypeError)) as [_ Hit].
  - reflexivity.
  - vm_compute. reflexivity.
  - exact Hit.
Defined.

Lemma one_folder_page_cap_witness :
  (content_calls
     (log (fst (@_export_one_folder ascii_builtins demo_server
                  (demo_args None None 0%Z) demo_fid demo_title 0%Z
                  {[102%Z]} 5 initial_state)))
   <= 200)%nat.
Proof.
  destruct (@one_folder_page_cap ascii_builtins demo_server
              (demo_args None None 0) demo_fid demo_title 0 {[102]} 5
              initial_state) as [Hc _].
  - right. simpl. lia.
  - exact Hc.
Defined.

Lemma run_ends_witness :
  snd (@run ascii_builtins demo_server demo_single_args 1) <> OutOfFuel.
Proof.
  apply (@run_ends ascii_builtins demo_server demo_single_args 1).
  - left. reflexivity.
  - vm_compute. lia.
Defined.

Lemma single_page_mode_one_fetch_witness :
  (content_calls (log (fst (@run ascii_builtins demo_server demo_single_args 5)))
   <= 1)%nat.
Proof.
  destruct (@single_page_mode_one_fetch ascii_builtins demo_server
              demo_single_args 5) as [Hc _].
  - reflexivity.
  - exact Hc.
Defined.

Lemma records_pass_type_filter_witness :
  EvRecord (fst demo_item_record) (snd demo_item_record) ∈ log initial_state
  \/ exists it, it ∈ demo_one_item
                /\ @record_from_item ascii_builtins {[102; 103; 120]} it
                     (fst demo_item_record) (snd demo_item_record).
Proof.
  apply (@records_pass_type_filter ascii_builtins demo_server
           (demo_args None None 0) demo_fid demo_title 0 {[102; 103; 120]}
           demo_one_item demo_acc initial_state).
  apply (list_elem_of_lookup_2 _ 0). vm_compute. reflexivity.
Defined.

Lemma usage_errors_before_network_witness :
  @run ascii_builtins demo_server demo_no_token_args 3 =
    (initial_state, Exits 2).
Proof.
  apply (@usage_errors_before_network ascii_builtins demo_server
           demo_no_token_args 3).
  left. reflexivity.
Defined.

Lemma targets_for_item_only_lookup_witness :
  @run ascii_builtins demo_server demo_targets_args 3 =
    (add_event (EvItemTargets (u "item1")) initial_state, Exits 1).
Proof.
  apply (@targets_for_item_only_lookup ascii_builtins demo_server
           demo_targets_args 3); reflexivity.
Defined.

Lemma single_page_mode_limit_witness :
  Z.of_nat
    (count_records
       (log (fst (@run ascii_builtins demo_server demo_single_args 5))))
  <= 2.
Proof.
  apply (@single_page_mode_limit ascii_builtins demo_server demo_single_args 5).
  reflexivity.
Defined.

Lemma whole_run_type_filter_witness :
  exists explicit,
    @_parse_target_types ascii_builtins (target_types demo_json_args) =
      Val explicit
    /\ record_allowed (allowed_types_of demo_json_args explicit)
         (snd demo_first_record)
    /\ (explicit = None ->
        mode_admits (mode demo_json_args) (snd demo_first_record)).
Proof.
  apply (@whole_run_type_filter ascii_builtins demo_server
           demo_json_args 10 (fst demo_first_record)).
  apply (list_elem_of_lookup_2 _ 2). vm_compute. reflexivity.
Defined.

Lemma total_pages_bound_the_loop_witness :
  (content_calls
     (log (fst (@page_loop ascii_builtins demo_server
                  (demo_args None None 0%Z) demo_fid demo_title 0%Z
                  {[102%Z]} 4 demo_known_pages initial_state)))
   <= 3)%nat.
Proof.
  destruct (@total_pages_bound_the_loop ascii_builtins demo_server
              (demo_args None None 0) demo_fid demo_title 0 {[102]} 4
              demo_known_pages initial_state 3) as [Hc _].
  - reflexivity.
  - exact Hc.
Defined.

Lemma exit_code_meaning_witness :
  @usage_error ascii_builtins demo_no_token_args = true.
Proof.
  destruct (@exit_code_meaning ascii_builtins demo_server demo_no_token_args
              3 2) as (_ & [Hu _] & _).
  - vm_compute. reflexivity.
  - by apply Hu.
Defined.

Lemma final_rewrite_closes_run_witness :
  exists fid st rest,
    log (fst demo_run_expecting_one) = EvRewrite fid st 1 :: rest.
Proof.
  apply (@final_rewrite_closes_run ascii_builtins demo_server demo_json_args 10).
  - reflexivity.
  - reflexivity.
  - reflexivity.
  - vm_compute. reflexivity.
Defined.

Lemma page_requests_carry_parameters_witness :
  exists s1 folders explicit sorts fid ft st p tts,
    @main_prelude ascii_builtins demo_server demo_json_args initial_state =
      (s1, Val folders)
    /\ @_parse_target_types ascii_builtins (target_types demo_json_args) =
         Val explicit
    /\ @_parse_sort_types ascii_builtins (sort_types demo_json_args) = Val sorts
    /\ (fid, ft) ∈ folders /\ fid <> []
    /\ st ∈ active_sort_types_of demo_json_args sorts
    /\ page demo_json_args <= p
    /\ Sorted Z.le tts /\ NoDup tts
    /\ (forall z, z ∈ tts <-> z ∈ allowed_types_of demo_json_args explicit)
    /\ demo_page_request =
         JDict ([(u "fid", JStr fid); (u "sortType", JInt st);
                 (u "pageIndex", JInt p);
                 (u "count", JInt (count demo_json_args))]
                ++ match tts with
                   | [] => []
                   | _ => [(u "targetTypes", JList (map JInt tts))]
                   end).
Proof.
  apply (@page_requests_carry_parameters ascii_builtins demo_server
           demo_json_args 10 demo_page_request).
  apply (list_elem_of_lookup_2 _ 4). vm_compute. reflexivity.
Defined.
